(** * Persona-driven document intelligence: a shallow embedding

    The development follows the Python sources file by file:
    [pdf_parser.py], [text_analyzer.py], [heading_detector.py],
    [relevance_analyzer.py], [section_extractor.py],
    [subsection_analyzer.py] and [document_intelligence.py].

    Modelling conventions.
    - Python [float] is the kernel's binary64 [float]; [max]/[min] are the
      Python builtins (first argument wins on ties and on NaN).
    - Python [str] is [string]; the character classes ([\d], [\s], [\w],
      [lower], [strip]) are those of Python on the ASCII range, and a byte
      above 127 is a caseless character outside every class.
    - A dict whose keys are always written by the producer is a record; a key
      that may be absent is an [option] field.
    - Exceptions are the [Raise] branch of the result type [exc]. *)

From Stdlib Require Import List String Ascii Bool Arith ZArith Lia.
From Stdlib Require Import Floats Uint63 Sorting.Permutation Sorting.Sorted.
From Stdlib Require Import DecimalString.
Import ListNotations.

Set Warnings "-inexact-float".
Set Implicit Arguments.

Local Open Scope string_scope.
Local Open Scope list_scope.

(* ===================================================================== *)
(** ** Python builtins on floats *)
(* ===================================================================== *)

Module Py.

(** [max(a, b)]: [b] replaces [a] only when [b > a]. *)
Definition max (a b : float) : float := if PrimFloat.ltb a b then b else a.

(** [min(a, b)]: [b] replaces [a] only when [b < a]. *)
Definition min (a b : float) : float := if PrimFloat.ltb b a then b else a.

(** [a >= b] and [a > b] as Python writes them. *)
Definition ge (a b : float) : bool := PrimFloat.leb b a.
Definition gt (a b : float) : bool := PrimFloat.ltb b a.

(** [float(n)] for a non-negative Python [int]. *)
Definition of_nat (n : nat) : float :=
  PrimFloat.of_uint63 (Uint63.of_Z (Z.of_nat n)).

(** [float(z)] for a Python [int] of either sign. *)
Definition of_Z (z : Z) : float :=
  match z with
  | Zneg _ => PrimFloat.opp (of_nat (Z.to_nat (Z.opp z)))
  | _ => of_nat (Z.to_nat z)
  end.

(** The test [0 <= x] read on the specification of a binary64 value: it
    holds of the zeros, of the positive numbers and of [+inf]. *)
Definition sf_nonneg (f : spec_float) : bool :=
  match f with
  | S754_zero _ => true
  | S754_infinity s => negb s
  | S754_nan => false
  | S754_finite s _ _ => negb s
  end.

(** [float('inf')]. *)
Definition inf : float := PrimFloat.infinity.

(* --------------------------------------------------------------------- *)
(** ** Python builtins on strings *)
(* --------------------------------------------------------------------- *)

Definition code (c : ascii) : nat := nat_of_ascii c.

(** [str.isspace] on one character: TAB..CR, FS..US and the blank. *)
Definition is_space (c : ascii) : bool :=
  let n := code c in
  ((9 <=? n) && (n <=? 13) || (28 <=? n) && (n <=? 32))%nat.

Definition is_digit (c : ascii) : bool :=
  let n := code c in ((48 <=? n) && (n <=? 57))%nat.

Definition is_upper (c : ascii) : bool :=
  let n := code c in ((65 <=? n) && (n <=? 90))%nat.

Definition is_lower (c : ascii) : bool :=
  let n := code c in ((97 <=? n) && (n <=? 122))%nat.

Definition is_alpha (c : ascii) : bool := is_upper c || is_lower c.

(** The class [\w]: letters, digits and the underscore. *)
Definition is_word (c : ascii) : bool :=
  is_alpha c || is_digit c || (code c =? 95)%nat.

Definition lower_char (c : ascii) : ascii :=
  if is_upper c then ascii_of_nat (code c + 32) else c.

Definition upper_char (c : ascii) : ascii :=
  if is_lower c then ascii_of_nat (code c - 32) else c.

(** [s.lower()]. *)
Fixpoint lower (s : string) : string :=
  match s with
  | EmptyString => EmptyString
  | String c s' => String (lower_char c) (lower s')
  end.

(** [s.lstrip()], [s.rstrip()] and [s.strip()]. *)
Fixpoint lstrip (s : string) : string :=
  match s with
  | EmptyString => EmptyString
  | String c s' => if is_space c then lstrip s' else s
  end.

Fixpoint rstrip (s : string) : string :=
  match s with
  | EmptyString => EmptyString
  | String c s' =>
      match rstrip s' with
      | EmptyString => if is_space c then EmptyString else String c EmptyString
      | r => String c r
      end
  end.

Definition strip (s : string) : string := rstrip (lstrip s).

(** [len(s)]. *)
Definition len (s : string) : nat := String.length s.

(** [s[:n]]. *)
Fixpoint take (n : nat) (s : string) : string :=
  match n, s with
  | S n', String c s' => String c (take n' s')
  | _, _ => EmptyString
  end.

(** [s.startswith(p)]. *)
Fixpoint startswith (p s : string) : bool :=
  match p, s with
  | EmptyString, _ => true
  | String a p', String b s' => Ascii.eqb a b && startswith p' s'
  | String _ _, EmptyString => false
  end.

(** [p in s] for two strings. *)
Fixpoint contains (p s : string) : bool :=
  startswith p s ||
  match s with
  | EmptyString => false
  | String _ s' => contains p s'
  end.

(** [s.endswith(p)]. *)
Fixpoint endswith (p s : string) : bool :=
  String.eqb p s ||
  match s with
  | EmptyString => false
  | String _ s' => endswith p s'
  end.

(** [s.split()]: the maximal runs of non-blank characters.  [cur] is the
    run being read, in reverse. *)
Fixpoint rev_string (acc s : string) : string :=
  match s with
  | EmptyString => acc
  | String c s' => rev_string (String c acc) s'
  end.

Fixpoint runs_of (keep : ascii -> bool) (cur : string) (s : string)
  : list string :=
  match s with
  | EmptyString =>
      match cur with
      | EmptyString => []
      | _ => [rev_string EmptyString cur]
      end
  | String c s' =>
      if keep c then runs_of keep (String c cur) s'
      else match cur with
           | EmptyString => runs_of keep EmptyString s'
           | _ => rev_string EmptyString cur :: runs_of keep EmptyString s'
           end
  end.

Definition split (s : string) : list string :=
  runs_of (fun c => negb (is_space c)) EmptyString s.

(** [re.findall(r'\b\w+\b', s)]: the maximal runs of word characters. *)
Definition findall_words (s : string) : list string :=
  runs_of is_word EmptyString s.

(** [sep.join(parts)]. *)
Fixpoint join (sep : string) (parts : list string) : string :=
  match parts with
  | [] => EmptyString
  | [p] => p
  | p :: rest => p ++ sep ++ join sep rest
  end.

(** [any(k in s for k in ks)]. *)
Definition any_in (ks : list string) (s : string) : bool :=
  existsb (fun k => contains k s) ks.

(** Membership in a list of strings ([w in stop_words]). *)
Definition mem (w : string) (ws : list string) : bool :=
  existsb (String.eqb w) ws.

(** A Python [set] of strings, kept as a duplicate-free list. *)
Definition set_add (w : string) (ws : list string) : list string :=
  if mem w ws then ws else ws ++ [w].

Definition set_update (ws new : list string) : list string :=
  fold_left (fun acc w => set_add w acc) new ws.

Definition set_of_list (ws : list string) : list string :=
  set_update [] ws.

(** [len(a.intersection(b))] for two sets. *)
Definition inter_count (a b : list string) : nat :=
  List.length (filter (fun w => mem w b) a).

End Py.

(* ===================================================================== *)
(** ** Regular expressions: [re.match] as a prefix matcher *)
(* ===================================================================== *)

Module Re.

(** The fragment of Python's [re] syntax the sources use.  [Bos] is [^],
    [Eos] is [$] (the end of the text, or just before a final newline). *)
Inductive regex : Type :=
| Void
| Eps
| Chr (p : ascii -> bool)
| Cat (r1 r2 : regex)
| Alt (r1 r2 : regex)
| Star (r : regex)
| Bos
| Eos.

(** [nullable bos eos r]: [r] matches the empty word at a position that is
    the start of the text when [bos], and where [$] holds when [eos]. *)
Fixpoint nullable (bos eos : bool) (r : regex) : bool :=
  match r with
  | Void => false
  | Eps => true
  | Chr _ => false
  | Cat r1 r2 => nullable bos eos r1 && nullable bos eos r2
  | Alt r1 r2 => nullable bos eos r1 || nullable bos eos r2
  | Star _ => true
  | Bos => bos
  | Eos => eos
  end.

(** The derivative by the character [c] read at such a position. *)
Fixpoint deriv (bos eos : bool) (c : ascii) (r : regex) : regex :=
  match r with
  | Void | Eps | Bos | Eos => Void
  | Chr p => if p c then Eps else Void
  | Cat r1 r2 =>
      Alt (Cat (deriv bos eos c r1) r2)
          (if nullable bos eos r1 then deriv bos eos c r2 else Void)
  | Alt r1 r2 => Alt (deriv bos eos c r1) (deriv bos eos c r2)
  | Star r1 => Cat (deriv bos eos c r1) (Star r1)
  end.

(** [$] holds where the rest of the text is empty or one final newline. *)
Definition at_eos (s : string) : bool :=
  match s with
  | EmptyString => true
  | String c EmptyString => (Py.code c =? 10)%nat
  | _ => false
  end.

(** Some prefix of [s] is matched by [r], the position before [s] being the
    start of the text when [bos]. *)
Fixpoint prefix_match (bos : bool) (r : regex) (s : string) : bool :=
  nullable bos (at_eos s) r ||
  match s with
  | EmptyString => false
  | String c s' => prefix_match false (deriv bos (at_eos s) c r) s'
  end.

(** [bool(re.match(r, s))]. *)
Definition re_match (r : regex) (s : string) : bool := prefix_match true r s.

(** Derived forms. *)
Definition plus (r : regex) : regex := Cat r (Star r).     (* r+ *)
Definition opt (r : regex) : regex := Alt r Eps.           (* r? *)
Definition chr (c : ascii) : regex := Chr (Ascii.eqb c).
(** A character matched under [re.IGNORECASE]. *)
Definition chr_i (c : ascii) : regex :=
  Chr (fun x => Ascii.eqb (Py.lower_char x) (Py.lower_char c)).
Definition digit : regex := Chr Py.is_digit.               (* \d *)
Definition space : regex := Chr Py.is_space.               (* \s *)
Definition upper : regex := Chr Py.is_upper.               (* [A-Z] *)
Definition letter : regex := Chr Py.is_alpha.  (* [A-Z] or [a-z], IGNORECASE *)

Fixpoint lit (s : string) : regex :=
  match s with
  | EmptyString => Eps
  | String c s' => Cat (chr c) (lit s')
  end.

Fixpoint lit_i (s : string) : regex :=
  match s with
  | EmptyString => Eps
  | String c s' => Cat (chr_i c) (lit_i s')
  end.

(** [r{n}] and [r{n,n+k}]. *)
Fixpoint rep (n : nat) (r : regex) : regex :=
  match n with
  | O => Eps
  | S n' => Cat r (rep n' r)
  end.

Fixpoint upto (k : nat) (r : regex) : regex :=
  match k with
  | O => Eps
  | S k' => opt (Cat r (upto k' r))
  end.

Definition range (n k : nat) (r : regex) : regex := Cat (rep n r) (upto k r).

Fixpoint seq (rs : list regex) : regex :=
  match rs with
  | [] => Eps
  | [r] => r
  | r :: rs' => Cat r (seq rs')
  end.

(** [^\d+\.], the numbering prefix several patterns share. *)
Definition num_dot : regex := Cat Bos (Cat (plus digit) (chr ".")).
(** [^\d+\.\d+]. *)
Definition num_dot_num : regex := Cat num_dot (plus digit).
(** [^\d+\.\d+\.\d+]. *)
Definition num3 : regex := Cat num_dot_num (Cat (chr ".") (plus digit)).
(** [^\d+$], a bare integer. *)
Definition bare_int : regex := seq [Bos; plus digit; Eos].
(** [^page\s+\d+] on lower-cased text. *)
Definition page_n : regex := seq [Bos; lit "page"; plus space; plus digit].
(** [^\d{1,2}[/-]\d{1,2}[/-]\d{2,4}], a date. *)
Definition slash_dash : regex :=
  Chr (fun c => Ascii.eqb c "/" || Ascii.eqb c "-").
Definition date : regex :=
  seq [Bos; range 1 1 digit; slash_dash; range 1 1 digit; slash_dash;
       range 2 2 digit].

End Re.

(* ===================================================================== *)
(** ** Exceptions and dynamically typed arguments *)
(* ===================================================================== *)

(** The exceptions the core can raise on the modelled inputs. *)
Inductive error : Type :=
| AttributeError (msg : string).

(** The outcome of a call: a value, or a raised exception. *)
Inductive exc (A : Type) : Type :=
| Ok (a : A)
| Raise (e : error).

Arguments Ok {A} a.
Arguments Raise {A} e.

Definition bind {A B : Type} (m : exc A) (k : A -> exc B) : exc B :=
  match m with
  | Ok a => k a
  | Raise e => Raise e
  end.

Notation "x <- m ;; k" := (bind m (fun x => k))
  (at level 61, m at next level, right associativity).

(** [for x in xs: acc = f(acc, x)] where the body may raise. *)
Fixpoint fold_exc {A B : Type} (f : B -> A -> exc B) (xs : list A) (acc : B)
  : exc B :=
  match xs with
  | [] => Ok acc
  | x :: xs' => acc' <- f acc x ;; fold_exc f xs' acc'
  end.

(** [[f(x) for x in xs]] where [f] may raise. *)
Fixpoint map_exc {A B : Type} (f : A -> exc B) (xs : list A) : exc (list B) :=
  match xs with
  | [] => Ok []
  | x :: xs' => y <- f x ;; ys <- map_exc f xs' ;; Ok (y :: ys)
  end.

(** The persona and the job as the caller passes them: the annotations say
    [str], the challenge input wraps them in a dict of strings. *)
Inductive pyvalue : Type :=
| PyStr (s : string)
| PyDict (d : list (string * string)).

Fixpoint dict_get (d : list (string * string)) (k default : string) : string :=
  match d with
  | [] => default
  | (k', v) :: d' => if String.eqb k' k then v else dict_get d' k default
  end.

(** [v.get(k, '').lower()]: a [str] has no attribute [get]. *)
Definition get_lower (v : pyvalue) (k : string) : exc string :=
  match v with
  | PyDict d => Ok (Py.lower (dict_get d k ""))
  | PyStr _ => Raise (AttributeError "'str' object has no attribute 'get'")
  end.

(* ===================================================================== *)
(** ** Data model *)
(* ===================================================================== *)

(** One text span as [pdf_parser.py] emits it.  The parser writes every key,
    so the [get(key, default)] reads of the core never take their default;
    only the keys the core reads are kept. *)
Record element : Type := {
  text : string;
  page : nat;
  bbox : list float;
  font_size : float;
  is_bold : bool;
  is_caps : bool;
  x_position : float;
  y_position : float
}.

(** [{"page_number": n, "elements": [...]}]. *)
Record page_data : Type := {
  page_number : nat;
  elements : list element
}.

(** The [heading_features] dict; a flag is [true] when its key was written. *)
Record features : Type := {
  large_font : bool;
  left_aligned : bool;
  pattern_score : float;
  has_heading_keywords : bool;
  feat_is_bold : bool;
  feat_is_caps : bool;
  excluded_pattern : bool
}.

(** A copy of the element with [heading_score] and [heading_features]. *)
Record analyzed_element : Type := {
  elem : element;
  heading_score : float;
  heading_features : features
}.

Inductive method : Type := ByScore | ByPattern | ByFontCluster.

Definition method_eqb (a b : method) : bool :=
  match a, b with
  | ByScore, ByScore | ByPattern, ByPattern
  | ByFontCluster, ByFontCluster => true
  | _, _ => false
  end.

(** A heading dict.  [h_level] holds [n] for the string ["Hn"]; it is written
    by hierarchy assignment, [h_detection_methods] by fusion. *)
Record heading : Type := {
  h_text : string;
  h_page : nat;
  h_font_size : float;
  h_is_bold : bool;
  h_bbox : list float;
  h_y_position : float;
  h_x_position : float;
  h_detection_method : method;
  h_confidence : float;
  h_pattern_level : option nat;
  h_font_level : option nat;
  h_detection_methods : option (list method);
  h_level : option nat
}.

(** [enumerate(l, i)]. *)
Fixpoint enumerate_from {A : Type} (i : nat) (l : list A) : list (nat * A) :=
  match l with
  | [] => []
  | x :: l' => (i, x) :: enumerate_from (S i) l'
  end.

(** [list.sort(key=..., reverse=...)]: a stable sort.  [before y x] says
    that [y] must come strictly before [x]; equal keys keep their order. *)
Section StableSort.
Variable A : Type.
Variable before : A -> A -> bool.

Fixpoint insert_sorted (x : A) (l : list A) : list A :=
  match l with
  | [] => [x]
  | y :: l' => if before y x then y :: insert_sorted x l' else x :: l
  end.

Definition stable_sort (l : list A) : list A :=
  fold_right insert_sorted [] l.
End StableSort.

(** The order of [sort(key=key, reverse=True)] on a float key: [y] comes
    strictly before [x] when its key is greater. *)
Definition before_desc {A : Type} (key : A -> float) (y x : A) : bool :=
  PrimFloat.ltb (key x) (key y).

(** What the facts about such a sort are stated with: [a] is at least [b]
    in the key, and the key of [a] is a number (not a NaN). *)
Definition ge_key {A : Type} (key : A -> float) (a b : A) : Prop :=
  PrimFloat.leb (key b) (key a) = true.

Definition is_number {A : Type} (key : A -> float) (a : A) : Prop :=
  PrimFloat.leb (key a) (key a) = true.

(* ===================================================================== *)
(** ** pdf_parser.py *)
(* ===================================================================== *)

Module PDFParser.
Local Open Scope float_scope.

(** A span dict of [page.get_text("dict")]; a key the parser reads with
    [get] may be absent. *)
Record span : Type := {
  sp_text : option string;
  sp_bbox : option (list float);
  sp_size : option float;
  sp_font : option string;
  sp_flags : option Z;
  sp_color : option Z
}.

(** A line dict; its key ["spans"] is read by subscript. *)
Record line : Type := { ln_spans : option (list span) }.

(** A block dict; only text blocks carry ["lines"]. *)
Record block : Type := { bl_lines : option (list line) }.

(** The dict [page.get_text("dict")] returns. *)
Record page_dict : Type := { pg_blocks : option (list block) }.

(** The exceptions the parser's own code can raise on such dicts. *)
Inductive parser_error : Type :=
| KeyError (key : string)
| IndexError.

Inductive attempt (A : Type) : Type :=
| Done (a : A)
| Failed (e : parser_error).

Arguments Done {A} a.
Arguments Failed {A} e.

(** [for x in xs: out.extend(f(x))] where [f] may raise. *)
Fixpoint collect {A B : Type} (f : A -> attempt (list B)) (xs : list A)
  : attempt (list B) :=
  match xs with
  | [] => Done []
  | x :: xs' =>
      match f x with
      | Failed e => Failed e
      | Done ys =>
          match collect f xs' with
          | Failed e => Failed e
          | Done zs => Done (ys ++ zs)
          end
      end
  end.

(** [bbox[i]]. *)
Definition at_index (bbox : list float) (i : nat) : attempt float :=
  match nth_error bbox i with
  | Some x => Done x
  | None => Failed IndexError
  end.

(** [d.get(key, default)]. *)
Definition get {A : Type} (v : option A) (default : A) : A :=
  match v with
  | Some x => x
  | None => default
  end.

Fixpoint any_char (p : ascii -> bool) (s : string) : bool :=
  match s with
  | EmptyString => false
  | String c s' => p c || any_char p s'
  end.

(** [s.isupper()]: some cased character, and none in lower case. *)
Definition isupper (s : string) : bool :=
  any_char Py.is_upper s && negb (any_char Py.is_lower s).

(** The element dict: the keys the core reads, and the others. *)
Record parsed_element : Type := {
  pe_element : element;
  pe_font_name : string;
  pe_flags : Z;
  pe_color : Z;
  pe_is_italic : bool;
  pe_line_height : float;
  pe_width : float;
  pe_height : float;
  pe_word_count : nat;
  pe_char_count : nat;
  pe_has_numbers : bool;
  pe_starts_with_number : bool;
  pe_ends_with_period : bool;
  pe_is_short : bool;
  pe_is_single_line : bool
}.

Record parsed_page : Type := {
  pp_page_number : nat;
  pp_elements : list parsed_element
}.

(** The default [[0, 0, 0, 0]] of [get("bbox", ...)]. *)
Definition default_bbox : list float := [0; 0; 0; 0].

(** [_calculate_line_height]. *)
Definition _calculate_line_height (bbox : list float) (font_size : float)
  : float :=
  if (4 <=? List.length bbox)%nat
  then nth 3 bbox 0 - nth 1 bbox 0
  else font_size.

(** [_analyze_element_properties] on the element dict built from a span,
    merged into it by [element.update]. *)
Definition _analyze_element_properties (text : string) (page : nat)
    (bbox : list float) (font_size : float) (font_name : string)
    (flags color : Z) : attempt parsed_element :=
  let is_bold := negb (Z.land flags (2 ^ 4) =? 0)%Z in
  let is_italic := negb (Z.land flags (2 ^ 1) =? 0)%Z in
  let is_caps := isupper text in
  let line_height := _calculate_line_height bbox font_size in
  match at_index bbox 0 with
  | Failed e => Failed e
  | Done x_position =>
  match at_index bbox 1 with
  | Failed e => Failed e
  | Done y_position =>
  match at_index bbox 2 with
  | Failed e => Failed e
  | Done b2 =>
  match at_index bbox 3 with
  | Failed e => Failed e
  | Done b3 =>
      Done {| pe_element :=
                {| text := text; page := page; bbox := bbox;
                   font_size := font_size; is_bold := is_bold;
                   is_caps := is_caps; x_position := x_position;
                   y_position := y_position |};
              pe_font_name := font_name;
              pe_flags := flags;
              pe_color := color;
              pe_is_italic := is_italic;
              pe_line_height := line_height;
              pe_width := b2 - x_position;
              pe_height := b3 - y_position;
              pe_word_count := List.length (Py.split text);
              pe_char_count := Py.len text;
              pe_has_numbers := any_char Py.is_digit text;
              pe_starts_with_number :=
                Re.re_match (Re.Cat Re.Bos Re.digit) text;
              pe_ends_with_period := Py.endswith "." text;
              pe_is_short := (Py.len text <? 100)%nat;
              pe_is_single_line :=
                negb (any_char (fun c => (Py.code c =? 10)%nat) text) |}
  end end end end.

Section Fitz.
(** What PyMuPDF and Python give the parser: the page dicts of a file
    ([None] when [fitz.open] raises), and [round(x, 1)]. *)
Variable fitz_open : string -> option (list page_dict).
Variable round1 : float -> float.

(** The body of the loop over the spans of a line. *)
Definition span_elements (page_num : nat) (s : span)
  : attempt (list parsed_element) :=
  let text := Py.strip (get s.(sp_text) "") in
  if String.eqb text "" || (Py.len text <? 2)%nat then Done []
  else
    let font_size :=
      match s.(sp_size) with
      | Some size => round1 size
      | None => 12
      end in
    match _analyze_element_properties text (page_num + 1)
            (get s.(sp_bbox) default_bbox) font_size (get s.(sp_font) "")
            (get s.(sp_flags) 0%Z) (get s.(sp_color) 0%Z) with
    | Failed e => Failed e
    | Done element => Done [element]
    end.

Definition line_elements (page_num : nat) (l : line)
  : attempt (list parsed_element) :=
  match l.(ln_spans) with
  | None => Failed (KeyError "spans")
  | Some spans => collect (span_elements page_num) spans
  end.

Definition block_elements (page_num : nat) (b : block)
  : attempt (list parsed_element) :=
  match b.(bl_lines) with
  | None => Done []
  | Some lines => collect (line_elements page_num) lines
  end.

(** [_extract_page_elements]. *)
Definition _extract_page_elements (page : page_dict) (page_num : nat)
  : attempt parsed_page :=
  match collect (block_elements page_num) (get page.(pg_blocks) []) with
  | Failed e => Failed e
  | Done elements =>
      Done {| pp_page_number := page_num + 1; pp_elements := elements |}
  end.

(** The loop over [range(len(doc))]. *)
Fixpoint parse_pages (page_num : nat) (doc : list page_dict)
  : attempt (list parsed_page) :=
  match doc with
  | [] => Done []
  | page :: rest =>
      match _extract_page_elements page page_num with
      | Failed e => Failed e
      | Done page_data =>
          match parse_pages (S page_num) rest with
          | Failed e => Failed e
          | Done pages_data => Done (page_data :: pages_data)
          end
      end
  end.

(** [parse_pdf]: every exception gives the empty list. *)
Definition parse_pdf (pdf_path : string) : list parsed_page :=
  match fitz_open pdf_path with
  | None => []
  | Some doc =>
      match parse_pages 0 doc with
      | Done pages_data => pages_data
      | Failed _ => []
      end
  end.

(** The pages as the core reads them. *)
Definition to_page_data (p : parsed_page) : page_data :=
  {| page_number := p.(pp_page_number);
     elements := map pe_element p.(pp_elements) |}.

Definition core_pages (pdf_path : string) : list page_data :=
  map to_page_data (parse_pdf pdf_path).

End Fitz.

(** *** Notions in which the facts about the parser are stated *)

(** The span is one the parser turns into an element. *)
Definition kept_span (s : span) : bool :=
  let text := Py.strip (get s.(sp_text) "") in
  negb (String.eqb text "" || (Py.len text <? 2)%nat).

(** Nothing in the page makes the parser raise: every line of a text block
    has its spans, and every span that is kept has a box of four
    coordinates. *)
Definition span_ok (s : span) : Prop :=
  kept_span s = true -> (4 <= List.length (get s.(sp_bbox) default_bbox))%nat.

Definition line_ok (l : line) : Prop :=
  exists spans, l.(ln_spans) = Some spans /\ Forall span_ok spans.

Definition block_ok (b : block) : Prop :=
  forall lines, b.(bl_lines) = Some lines -> Forall line_ok lines.

Definition page_ok (p : page_dict) : Prop :=
  Forall block_ok (get p.(pg_blocks) []).

End PDFParser.

(* ===================================================================== *)
(** ** text_analyzer.py *)
(* ===================================================================== *)

Module TextAnalyzer.
Import Re.
Local Open Scope float_scope.

(** [self.heading_patterns], each compiled with [re.IGNORECASE]. *)
Definition heading_patterns : list regex :=
  [ seq [Bos; plus digit; opt (chr "."); plus space; letter];
    Cat num_dot_num (Cat (opt (chr ".")) (plus space));
    num3;
    seq [Bos; letter; plus letter; chr ":"];
    seq [Bos; plus (Alt (chr_i "I") (Alt (chr_i "V") (chr_i "X")));
         opt (chr "."); plus space; letter];
    seq [Bos; letter; opt (chr "."); plus space; letter];
    seq [Bos; lit_i "Chapter"; plus space; plus digit];
    seq [Bos; lit_i "Section"; plus space; plus digit];
    seq [Bos; lit_i "Appendix"; plus space; letter] ].

(** [self.heading_keywords]. *)
Definition heading_keywords : list string :=
  [ "introduction"; "conclusion"; "summary"; "overview"; "background";
    "methodology"; "method"; "approach"; "results"; "discussion";
    "chapter"; "section"; "appendix"; "references"; "bibliography";
    "abstract"; "objectives"; "goals"; "requirements"; "specifications";
    "implementation"; "analysis"; "evaluation"; "recommendations";
    "acknowledgments"; "acknowledgements"; "contents"; "index" ].

(** [self.exclude_patterns], each compiled with [re.IGNORECASE].  The
    copyright sign is the code point 169. *)
Definition exclude_patterns : list regex :=
  [ bare_int;
    seq [Bos; lit_i "page"; plus space; plus digit];
    date;
    seq [Bos; lit_i "copyright"; plus space];
    seq [Bos; chr (ascii_of_nat 169); Star space; rep 4 digit];
    seq [Bos; Star space; Eos];
    seq [Bos; plus letter; chr "@"; plus letter; chr "."];
    seq [Bos; lit_i "http"; opt (chr_i "s"); lit "://"] ].

(** [_analyze_text_patterns]: 1.5 for the first heading pattern that
    matches, then one of the numbering bonuses. *)
Definition _analyze_text_patterns (text : string) : float :=
  let score := 0.0 in
  let score :=
    if existsb (fun pattern => re_match pattern text) heading_patterns
    then score + 1.5 else score in
  let score :=
    if re_match num_dot text then score + 1.0
    else if re_match num_dot_num text then score + 1.2
    else if re_match num3 text then score + 1.0
    else score in
  score.

(** [_matches_exclude_patterns]. *)
Definition _matches_exclude_patterns (text : string) : bool :=
  existsb (fun pattern => re_match pattern text) exclude_patterns.

(** [_analyze_single_element].  [median_font] is accepted and not read. *)
Definition _analyze_single_element (element : element)
    (avg_font median_font font_std : float) : analyzed_element :=
  let text := Py.strip element.(text) in
  let font_size := element.(font_size) in
  let score := 0.0 in
  let large := Py.gt font_size avg_font in
  let score :=
    if large
    then score + Py.min ((font_size - avg_font) / Py.max font_std 1) 3.0
    else score in
  let x_pos := element.(x_position) in
  let left := PrimFloat.ltb x_pos 100 in
  let score := if left then score + 0.5 else score in
  let pattern_score := _analyze_text_patterns text in
  let score := score + pattern_score in
  let score := if (Py.len text <? 100)%nat then score + 0.5 else score in
  let score := if (Py.len text <? 50)%nat then score + 0.5 else score in
  let words := Py.split text in
  let score := if (List.length words <=? 10)%nat then score + 0.5 else score in
  let kw := Py.any_in heading_keywords (Py.lower text) in
  let score := if kw then score + 1.0 else score in
  let bold := element.(is_bold) in
  let score := if bold then score + 1.0 else score in
  let caps := element.(is_caps) && (3 <? Py.len text)%nat in
  let score := if caps then score + 0.5 else score in
  let excl := _matches_exclude_patterns text in
  let score := if excl then score - 2.0 else score in
  {| elem := element;
     heading_score := Py.max 0 score;
     heading_features :=
       {| large_font := large; left_aligned := left;
          pattern_score := pattern_score; has_heading_keywords := kw;
          feat_is_bold := bold; feat_is_caps := caps;
          excluded_pattern := excl |} |}.

Section Statistics.
(** [statistics.mean], [statistics.median] and [statistics.stdev] of the
    Python standard library, on a non-empty list of floats. *)
Variables mean median stdev : list float -> float.

(** [analyze_elements]. *)
Definition analyze_elements (pages_data : list page_data)
  : list analyzed_element :=
  let all_elements := flat_map elements pages_data in
  match all_elements with
  | [] => []
  | _ =>
      let font_sizes := map font_size all_elements in
      let avg_font_size := mean font_sizes in
      let median_font_size := median font_sizes in
      let font_size_std :=
        if (1 <? List.length font_sizes)%nat then stdev font_sizes else 0 in
      map (fun element =>
             _analyze_single_element element avg_font_size
               median_font_size font_size_std)
          all_elements
  end.
End Statistics.

End TextAnalyzer.

(* ===================================================================== *)
(** ** heading_detector.py *)
(* ===================================================================== *)

Module HeadingDetector.
Import Re.
Local Open Scope float_scope.

Definition min_heading_score : float := 1.5.

(** [self.hierarchical_patterns] (no flags). *)
Definition hierarchical_patterns : list regex :=
  [ seq [Bos; plus digit; opt (chr "."); plus space];
    Cat num_dot_num (Cat (opt (chr ".")) (plus space));
    Cat num3 (Cat (opt (chr ".")) (plus space));
    Cat num3 (Cat (chr ".") (plus digit)) ].

(** [_create_heading_dict]; the strategy then writes its own keys. *)
Definition _create_heading_dict (element : analyzed_element)
    (m : method) (confidence : float)
    (pattern_level font_level : option nat) : heading :=
  let e := element.(elem) in
  {| h_text := Py.strip e.(text);
     h_page := e.(page);
     h_font_size := e.(font_size);
     h_is_bold := e.(is_bold);
     h_bbox := e.(bbox);
     h_y_position := e.(y_position);
     h_x_position := e.(x_position);
     h_detection_method := m;
     h_confidence := confidence;
     h_pattern_level := pattern_level;
     h_font_level := font_level;
     h_detection_methods := None;
     h_level := None |}.

(** [_detect_by_score]. *)
Definition _detect_by_score (elements : list analyzed_element)
  : list heading :=
  flat_map (fun element =>
    let score := element.(heading_score) in
    if Py.ge score min_heading_score
    then [_create_heading_dict element ByScore
            (Py.min (score / 5.0) 1.0) None None]
    else []) elements.

(** The 1-based index of the first pattern that matches, if any. *)
Fixpoint first_match (level : nat) (patterns : list regex) (text : string)
  : option nat :=
  match patterns with
  | [] => None
  | pattern :: rest =>
      if re_match pattern text then Some level
      else first_match (S level) rest text
  end.

(** [_detect_by_patterns]. *)
Definition _detect_by_patterns (elements : list analyzed_element)
  : list heading :=
  flat_map (fun element =>
    let text := Py.strip element.(elem).(text) in
    match first_match 1 hierarchical_patterns text with
    | Some level =>
        [_create_heading_dict element ByPattern 0.9 (Some level) None]
    | None => []
    end) elements.

(** The keys of [font_groups] in insertion order: the distinct font sizes,
    compared with [==] as dict keys are (0.0 and -0.0 are one key; a NaN
    equals nothing and is a key of its own each time). *)
Fixpoint distinct_sizes (seen : list float) (sizes : list float)
  : list float :=
  match sizes with
  | [] => seen
  | x :: rest =>
      if existsb (PrimFloat.eqb x) seen then distinct_sizes seen rest
      else distinct_sizes (seen ++ [x]) rest
  end.

(** [sorted(xs, reverse=True)] on floats. *)
Definition sorted_desc (xs : list float) : list float :=
  stable_sort (before_desc (fun x => x)) xs.

(** The text filter of the font-clustering strategy. *)
Definition cluster_candidate (element : analyzed_element) : bool :=
  let text := Py.strip element.(elem).(text) in
  if (200 <? Py.len text)%nat then false
  else if re_match (Alt bare_int page_n) (Py.lower text) then false
  else true.

(** [font_groups[size]]: the elements of one size, in input order. *)
Definition font_group (elements : list analyzed_element) (size : float)
  : list analyzed_element :=
  filter (fun e => PrimFloat.eqb e.(elem).(font_size) size) elements.

(** The list [candidates] the inner loop builds for one size. *)
Definition group_candidates (elements : list analyzed_element) (size : float)
  : list analyzed_element :=
  filter cluster_candidate (font_group elements size).

(** The body of the loop over [enumerate(sorted_sizes[:4])] for the size
    of rank [i]. *)
Definition cluster_group (elements : list analyzed_element)
    (i : nat) (size : float) : list heading :=
  let candidates := group_candidates elements size in
  let n := List.length candidates in
  if ((2 <=? n) && (n <=? 20))%nat
  then map (fun element =>
              _create_heading_dict element ByFontCluster
                (0.7 - Py.of_nat i * 0.15) None (Some (i + 1)%nat))
           candidates
  else [].

(** [sorted(font_groups.keys(), reverse=True)]. *)
Definition sorted_sizes (elements : list analyzed_element) : list float :=
  sorted_desc (distinct_sizes [] (map (fun e => e.(elem).(font_size))
                                      elements)).

(** [_detect_by_font_clustering]. *)
Definition _detect_by_font_clustering (elements : list analyzed_element)
  : list heading :=
  flat_map (fun '(i, size) => cluster_group elements i size)
           (enumerate_from 0 (firstn 4 (sorted_sizes elements))).

(** The fusion key [(heading['text'][:50], heading['page'])]. *)
Definition key : Type := (string * nat)%type.

Definition key_of (h : heading) : key := (Py.take 50 h.(h_text), h.(h_page)).

Definition key_eqb (a b : key) : bool :=
  String.eqb (fst a) (fst b) && Nat.eqb (snd a) (snd b).

(** The merge into an entry that is already there. *)
Definition merge_into (existing new : heading) : heading :=
  {| h_text := existing.(h_text);
     h_page := existing.(h_page);
     h_font_size := existing.(h_font_size);
     h_is_bold := existing.(h_is_bold);
     h_bbox := existing.(h_bbox);
     h_y_position := existing.(h_y_position);
     h_x_position := existing.(h_x_position);
     h_detection_method := existing.(h_detection_method);
     h_confidence := Py.min (existing.(h_confidence) + 0.2) 1.0;
     h_pattern_level := existing.(h_pattern_level);
     h_font_level := existing.(h_font_level);
     h_detection_methods :=
       Some (match existing.(h_detection_methods) with
             | Some ms => ms
             | None => []
             end ++ [new.(h_detection_method)]);
     h_level := existing.(h_level) |}.

(** The first entry of a key. *)
Definition first_entry (h : heading) : heading :=
  {| h_text := h.(h_text);
     h_page := h.(h_page);
     h_font_size := h.(h_font_size);
     h_is_bold := h.(h_is_bold);
     h_bbox := h.(h_bbox);
     h_y_position := h.(h_y_position);
     h_x_position := h.(h_x_position);
     h_detection_method := h.(h_detection_method);
     h_confidence := h.(h_confidence);
     h_pattern_level := h.(h_pattern_level);
     h_font_level := h.(h_font_level);
     h_detection_methods := Some [h.(h_detection_method)];
     h_level := h.(h_level) |}.

(** The dict [combined], in insertion order. *)
Definition combined : Type := list (key * heading).

(** One step of the inner loop: [combined[key]] is updated in place, or
    the heading is appended under its key. *)
Fixpoint add_heading (c : combined) (h : heading) : combined :=
  match c with
  | [] => [(key_of h, first_entry h)]
  | (k, existing) :: c' =>
      if key_eqb k (key_of h) then (k, merge_into existing h) :: c'
      else (k, existing) :: add_heading c' h
  end.

(** [_combine_strategies( *strategy_results )]. *)
Definition _combine_strategies (strategy_results : list (list heading))
  : list heading :=
  map snd (fold_left (fun c strategy_headings =>
                        fold_left add_heading strategy_headings c)
                     strategy_results []).

(** [list.index] on floats, by [==].  Font sizes are numbers, the parser
    rounding the size of a span; on a NaN, which Python would find again by
    identity, [index_of] finds nothing. *)
Fixpoint index_of (x : float) (l : list float) : option nat :=
  match l with
  | [] => None
  | y :: l' =>
      if PrimFloat.eqb y x then Some 0%nat
      else option_map S (index_of x l')
  end.

(** [_determine_heading_level]. *)
Definition _determine_heading_level (h : heading) (all_headings : list heading)
  : nat :=
  match h.(h_pattern_level) with
  | Some level => level
  | None =>
      let font_size := h.(h_font_size) in
      let font_sizes := map h_font_size all_headings in
      let unique_sizes := sorted_desc (distinct_sizes [] font_sizes) in
      match index_of font_size unique_sizes with
      | Some i => Nat.min (i + 1) 6
      | None => 3%nat
      end
  end.

Definition with_level (h : heading) (level : nat) : heading :=
  {| h_text := h.(h_text);
     h_page := h.(h_page);
     h_font_size := h.(h_font_size);
     h_is_bold := h.(h_is_bold);
     h_bbox := h.(h_bbox);
     h_y_position := h.(h_y_position);
     h_x_position := h.(h_x_position);
     h_detection_method := h.(h_detection_method);
     h_confidence := h.(h_confidence);
     h_pattern_level := h.(h_pattern_level);
     h_font_level := h.(h_font_level);
     h_detection_methods := h.(h_detection_methods);
     h_level := Some level |}.

(** [_assign_hierarchy_levels]: the level of a heading reads only font
    sizes and pattern levels, which the loop does not write. *)
Definition _assign_hierarchy_levels (headings : list heading) : list heading :=
  map (fun h => with_level h (_determine_heading_level h headings)) headings.

(** The sort key [(h['page'], h.get('y_position', 0))], ascending. *)
Definition position_before (a b : heading) : bool :=
  (a.(h_page) <? b.(h_page))%nat ||
  ((a.(h_page) =? b.(h_page))%nat &&
   PrimFloat.ltb a.(h_y_position) b.(h_y_position)).

(** [detect_headings]. *)
Definition detect_headings (analyzed_elements : list analyzed_element)
  : list heading :=
  match analyzed_elements with
  | [] => []
  | _ =>
      let score_headings := _detect_by_score analyzed_elements in
      let pattern_headings := _detect_by_patterns analyzed_elements in
      let font_headings := _detect_by_font_clustering analyzed_elements in
      let all_candidates :=
        _combine_strategies [score_headings; pattern_headings; font_headings] in
      let final_headings := _assign_hierarchy_levels all_candidates in
      stable_sort position_before final_headings
  end.

(** The boilerplate markers of [filter_false_positives]; the third is the
    two code points 194 and 169. *)
Definition boilerplate : list string :=
  [ "page "; "copyright";
    String (ascii_of_nat 194) (String (ascii_of_nat 169) EmptyString);
    "draft"; "confidential"; "version"; "rev"; "date:"; "author:" ].

(** The test one heading passes to be kept. *)
Definition keeps (h : heading) : bool :=
  let text := Py.strip h.(h_text) in
  if (Py.len text <? 3)%nat then false
  else if re_match bare_int text then false
  else if Py.any_in boilerplate (Py.lower text) then false
  else Py.gt h.(h_confidence) 0.3.

(** [filter_false_positives]. *)
Definition filter_false_positives (headings : list heading) : list heading :=
  filter keeps headings.

(** *** Notions in which the facts about fusion are stated *)

(** Two sizes that are different keys of [font_groups]. *)
Definition differ (a b : float) : Prop := PrimFloat.eqb a b = false.

(** [combined.get(k)]. *)
Fixpoint lookup (k : key) (c : combined) : option heading :=
  match c with
  | [] => None
  | (k', h) :: c' => if key_eqb k' k then Some h else lookup k c'
  end.

(** The candidates of key [k], in order. *)
Definition with_key (k : key) (hs : list heading) : list heading :=
  filter (fun h => key_eqb (key_of h) k) hs.

(** The boost one more contributor gives to a confidence. *)
Definition boost (c : float) : float := Py.min (c + 0.2) 1.0.

(** The entry a run of candidates of one key fuses into: the first one,
    merged with each of the others in turn. *)
Definition fuse (xs : list heading) : option heading :=
  match xs with
  | [] => None
  | x :: xs' => Some (fold_left merge_into xs' (first_entry x))
  end.

End HeadingDetector.

(* ===================================================================== *)
(** ** relevance_analyzer.py *)
(* ===================================================================== *)

(** A section dict.  [heading_level] holds [n] for ["Hn"]; the score keys
    are written by the relevance scorer and the ranker. *)
Record section : Type := {
  section_title : string;
  sec_page_number : nat;
  content : string;
  heading_level : nat;
  relevance_score : option float;
  document : option string;
  final_score : option float
}.

(** The dict [_parse_single_document] builds for one parsed file. *)
Record doc_data : Type := {
  file_path : string;
  file_name : string;
  title : string;
  pages_data : list page_data;
  headings : list heading;
  analyzed_elements : list analyzed_element
}.

Module RelevanceAnalyzer.
Local Open Scope float_scope.

(** [self.persona_keywords]. *)
Definition persona_keywords_table : list (string * list string) :=
  [ ("researcher", ["research"; "study"; "analysis"; "methodology";
       "experiment"; "findings"; "literature"; "survey"; "review";
       "academic"; "publication"; "dataset"; "benchmark"; "evaluation";
       "metrics"]);
    ("student", ["learn"; "study"; "understand"; "concept"; "theory";
       "practice"; "example"; "exercise"; "problem"; "solution"; "tutorial";
       "guide"; "basics"; "fundamentals"; "introduction"]);
    ("analyst", ["analysis"; "data"; "trends"; "metrics"; "performance";
       "report"; "insights"; "statistics"; "comparison"; "evaluation";
       "assessment"; "strategy"; "planning"; "forecast"]);
    ("engineer", ["implementation"; "design"; "architecture"; "system";
       "technical"; "specification"; "requirements"; "development";
       "engineering"; "performance"; "optimization"; "scalability"]);
    ("manager", ["strategy"; "planning"; "management"; "decision";
       "leadership"; "team"; "project"; "resource"; "budget"; "timeline";
       "risk"; "stakeholder"; "business"; "objective"]);
    ("salesperson", ["sales"; "revenue"; "customer"; "market"; "competition";
       "pricing"; "product"; "service"; "client"; "prospect"; "deal";
       "negotiation"; "relationship"; "growth"]);
    ("journalist", ["news"; "report"; "story"; "investigation"; "interview";
       "source"; "fact"; "event"; "update"; "coverage"; "article";
       "publication"; "media"; "press"]);
    ("entrepreneur", ["business"; "startup"; "opportunity"; "market";
       "innovation"; "investment"; "funding"; "growth"; "strategy";
       "competition"; "revenue"; "customer"; "product"; "scale"]) ].

(** [self.job_keywords]; each key is given already split at ["_"]. *)
Definition job_keywords_table : list (list string * list string) :=
  [ (["literature"; "review"], ["review"; "survey"; "comparison"; "analysis";
       "methodology"; "findings"; "research"; "studies"; "approaches";
       "techniques"; "evaluation"; "benchmarks"]);
    (["exam"; "preparation"], ["key"; "concepts"; "important"; "remember";
       "understand"; "practice"; "example"; "problem"; "solution"; "theory";
       "principle"; "formula"; "definition"]);
    (["financial"; "analysis"], ["revenue"; "profit"; "cost"; "expense";
       "financial"; "performance"; "growth"; "investment"; "return";
       "margin"; "cash"; "budget"; "forecast"]);
    (["market"; "analysis"], ["market"; "competition"; "trends"; "share";
       "size"; "growth"; "opportunity"; "threat"; "customer"; "segment";
       "positioning"; "strategy"]);
    (["technical"; "implementation"], ["implementation"; "design";
       "architecture"; "system"; "technical"; "specification";
       "requirements"; "development"; "coding"; "testing"]);
    (["summary"], ["summary"; "overview"; "key"; "main"; "important";
       "highlights"; "conclusion"; "findings"; "results"; "insights";
       "takeaways"]);
    (["comparison"], ["compare"; "comparison"; "versus"; "difference";
       "similarity"; "contrast"; "alternative"; "option"; "choice";
       "evaluation"; "assessment"]) ].

Definition stop_words : list string :=
  [ "the"; "a"; "an"; "and"; "or"; "but"; "in"; "on"; "at"; "to"; "for";
    "of"; "with"; "by"; "is"; "are"; "was"; "were"; "be"; "been"; "have";
    "has"; "had"; "do"; "does"; "did"; "will"; "would"; "could"; "should";
    "this"; "that"; "these"; "those"; "i"; "you"; "he"; "she"; "it"; "we";
    "they" ].

(** The two-word phrases of consecutive kept words. *)
Fixpoint bigrams (ws : list string) : list string :=
  match ws with
  | w1 :: ((w2 :: _) as rest) => (w1 ++ " " ++ w2)%string :: bigrams rest
  | _ => []
  end.

(** [_extract_keywords_from_text]. *)
Definition _extract_keywords_from_text (text : string) : list string :=
  let words := Py.findall_words (Py.lower text) in
  let kept :=
    filter (fun w => (2 <? Py.len w)%nat && negb (Py.mem w stop_words)) words in
  let keywords := Py.set_of_list kept in
  Py.set_update keywords
    (filter (fun phrase => (5 <? Py.len phrase)%nat) (bigrams kept)).

(** [_get_persona_specific_keywords]. *)
Definition _get_persona_specific_keywords (persona : string) : list string :=
  let persona_lower := Py.lower persona in
  fold_left (fun keywords '(persona_type, type_keywords) =>
               if Py.contains persona_type persona_lower
               then Py.set_update keywords type_keywords else keywords)
            persona_keywords_table [].

(** [_get_job_specific_keywords]. *)
Definition _get_job_specific_keywords (job_to_be_done : string) : list string :=
  let job_lower := Py.lower job_to_be_done in
  fold_left (fun keywords '(job_type_words, type_keywords) =>
               if Py.any_in job_type_words job_lower
               then Py.set_update keywords type_keywords else keywords)
            job_keywords_table [].

(** [_extract_page_text]. *)
Definition nonblank_texts (es : list element) : list string :=
  filter (fun t => negb (String.eqb t ""))
         (map (fun e => Py.strip e.(text)) es).

Definition _extract_page_text (pd : page_data) : string :=
  Py.join " " (nonblank_texts pd.(elements)).

(** The test [start_y <= y_pos < end_y]. *)
Definition in_y_range (start_y end_y : float) (e : element) : bool :=
  PrimFloat.leb start_y e.(y_position) && PrimFloat.ltb e.(y_position) end_y.

(** [_extract_page_text_for_section]. *)
Definition _extract_page_text_for_section (pd : page_data)
    (start_y end_y : float) : string :=
  Py.join " " (nonblank_texts (filter (in_y_range start_y end_y) pd.(elements))).

(** [int(h.get('level', 'H1')[1:])]. *)
Definition level_of (h : heading) : nat :=
  match h.(h_level) with
  | Some n => n
  | None => 1%nat
  end.

(** The first remaining heading whose level is at most [current_level]. *)
Definition find_next_heading (current_level : nat)
    (remaining_headings : list heading) : option heading :=
  find (fun h => (level_of h <=? current_level)%nat) remaining_headings.

(** The vertical window of the section on the page numbered [page_num]. *)
Definition window (start_page : nat) (start_y : float)
    (next_heading : option heading) (page_num : nat) : float * float :=
  ( if (page_num =? start_page)%nat then start_y else 0,
    match next_heading with
    | Some n =>
        if (page_num =? n.(h_page))%nat then n.(h_y_position) else Py.inf
    | None => Py.inf
    end ).

(** The loop over [pages_data]: [continue] before the start page, [break]
    past the page of the next heading. *)
Fixpoint content_parts (start_page : nat) (start_y : float)
    (next_heading : option heading) (pages : list page_data) : list string :=
  match pages with
  | [] => []
  | pd :: rest =>
      let page_num := pd.(page_number) in
      if (page_num <? start_page)%nat
      then content_parts start_page start_y next_heading rest
      else if match next_heading with
              | Some n => (n.(h_page) <? page_num)%nat
              | None => false
              end
      then []
      else
        let '(lo, hi) := window start_page start_y next_heading page_num in
        let page_content := _extract_page_text_for_section pd lo hi in
        (if String.eqb (Py.strip page_content) "" then [] else [page_content])
        ++ content_parts start_page start_y next_heading rest
  end.

(** [_extract_section_content]. *)
Definition _extract_section_content (current_heading : heading)
    (remaining_headings : list heading) (pages : list page_data) : string :=
  let start_page := current_heading.(h_page) in
  let start_y := current_heading.(h_y_position) in
  let current_level := level_of current_heading in
  let next_heading := find_next_heading current_level remaining_headings in
  Py.join " " (content_parts start_page start_y next_heading pages).

Definition mk_section (title_ : string) (page_ : nat) (content_ : string)
    (level : nat) : section :=
  {| section_title := title_; sec_page_number := page_; content := content_;
     heading_level := level; relevance_score := None; document := None;
     final_score := None |}.

(** The sections of a document without headings: one per non-blank page. *)
Fixpoint page_sections (i : nat) (pages : list page_data) : list section :=
  match pages with
  | [] => []
  | pd :: rest =>
      let page_text := _extract_page_text pd in
      (if String.eqb (Py.strip page_text) "" then []
       else [mk_section ("Page " ++ NilEmpty.string_of_uint (Nat.to_uint (i + 1)))
                        (i + 1) page_text 1])
      ++ page_sections (S i) rest
  end.

(** The sections of the headings [hs], each with the headings after it. *)
Fixpoint heading_sections (hs : list heading) (pages : list page_data)
  : list section :=
  match hs with
  | [] => []
  | h :: rest =>
      let section_content := _extract_section_content h rest pages in
      (if String.eqb (Py.strip section_content) "" then []
       else [mk_section h.(h_text) h.(h_page) section_content (level_of h)])
      ++ heading_sections rest pages
  end.

(** [_extract_document_sections]. *)
Definition _extract_document_sections (doc : doc_data) : list section :=
  match doc.(headings) with
  | [] => page_sections 0 doc.(pages_data)
  | hs => heading_sections hs doc.(pages_data)
  end.

(** [score += c] once for every multi-word keyword found in the text. *)
Definition phrase_bonus (keywords : list string) (text : string) (c : float)
    (score : float) : float :=
  fold_left (fun score keyword =>
               if (1 <? List.length (Py.split keyword))%nat
                  && Py.contains keyword text
               then score + c else score)
            keywords score.

(** [_calculate_relevance_score]. *)
Definition _calculate_relevance_score (s : section)
    (persona_keywords job_keywords : list string) : float :=
  let content := Py.lower s.(content) in
  let title := Py.lower s.(section_title) in
  let score := 0.0 in
  let title_persona_matches :=
    List.length (filter (fun kw => Py.contains kw title) persona_keywords) in
  let title_job_matches :=
    List.length (filter (fun kw => Py.contains kw title) job_keywords) in
  let score :=
    score + (Py.of_nat title_persona_matches * 0.3
             + Py.of_nat title_job_matches * 0.4) in
  let content_words := Py.set_of_list (Py.findall_words content) in
  let persona_matches := Py.inter_count persona_keywords content_words in
  let job_matches := Py.inter_count job_keywords content_words in
  let content_length := List.length content_words in
  let score :=
    if (0 <? content_length)%nat
    then (score + (Py.of_nat persona_matches / Py.of_nat content_length) * 0.2)
         + (Py.of_nat job_matches / Py.of_nat content_length) * 0.3
    else score in
  let score := phrase_bonus persona_keywords content 0.1 score in
  let score := phrase_bonus job_keywords content 0.15 score in
  let level_num := s.(heading_level) in
  let level_bonus := Py.max 0 (Py.of_Z (4 - Z.of_nat level_num) * 0.05) in
  let score := score + level_bonus in
  Py.min score 1.0.

Definition scored (s : section) (score : float) (doc_name : string) : section :=
  {| section_title := s.(section_title);
     sec_page_number := s.(sec_page_number);
     content := s.(content);
     heading_level := s.(heading_level);
     relevance_score := Some score;
     document := Some doc_name;
     final_score := s.(final_score) |}.

(** [section.get('relevance_score', 0)]. *)
Definition relevance_of (s : section) : float :=
  match s.(relevance_score) with
  | Some x => x
  | None => 0
  end.

(** [analyze_relevance]. *)
Definition analyze_relevance (documents_data : list doc_data)
    (persona job_to_be_done : pyvalue) : exc (list section) :=
  persona_string <- get_lower persona "role" ;;
  job_string <- get_lower job_to_be_done "task" ;;
  let persona_keywords :=
    Py.set_update (_extract_keywords_from_text persona_string)
                  (_get_persona_specific_keywords persona_string) in
  let job_keywords :=
    Py.set_update (_extract_keywords_from_text job_string)
                  (_get_job_specific_keywords job_string) in
  let relevant_sections :=
    flat_map (fun doc =>
      flat_map (fun s =>
        let score := _calculate_relevance_score s persona_keywords job_keywords in
        if Py.gt score 0.1 then [scored s score doc.(file_name)] else [])
        (_extract_document_sections doc))
      documents_data in
  Ok (stable_sort (before_desc relevance_of) relevant_sections).

(** *** Notions in which the facts about segmentation are stated *)

(** An element with its place: the index of its page in [pages_data] and
    its index among the elements of that page. *)
Definition located : Type := (nat * nat * element)%type.

Definition place (x : located) : nat * nat := fst x.

Definition located_text (x : located) : string := Py.strip (snd x).(text).

(** The element carries text once stripped. *)
Definition nonblank (e : element) : bool :=
  negb (String.eqb (Py.strip e.(text)) "").

Definition locate (pi : nat) (es : list (nat * element)) : list located :=
  map (fun '(ei, e) => (pi, ei, e)) es.

(** The elements of the page of index [pi] whose text
    [_extract_page_text_for_section] keeps for a window. *)
Definition page_span (pi : nat) (pd : page_data) (lo hi : float)
  : list located :=
  locate pi (filter (fun '(_, e) => in_y_range lo hi e && nonblank e)
                    (enumerate_from 0 pd.(elements))).

(** The elements whose text [_extract_page_text] keeps. *)
Definition whole_page_span (pi : nat) (pd : page_data) : list located :=
  locate pi (filter (fun '(_, e) => nonblank e)
                    (enumerate_from 0 pd.(elements))).

(** The loop of [content_parts], keeping the elements in place of their
    text; [pi] is the index of the first page of [pages]. *)
Fixpoint span_parts (pi : nat) (start_page : nat) (start_y : float)
    (next_heading : option heading) (pages : list page_data) : list located :=
  match pages with
  | [] => []
  | pd :: rest =>
      let page_num := pd.(page_number) in
      if (page_num <? start_page)%nat
      then span_parts (S pi) start_page start_y next_heading rest
      else if match next_heading with
              | Some n => (n.(h_page) <? page_num)%nat
              | None => false
              end
      then []
      else
        let '(lo, hi) := window start_page start_y next_heading page_num in
        page_span pi pd lo hi
        ++ span_parts (S pi) start_page start_y next_heading rest
  end.

(** The elements whose text makes up the section of [current_heading]. *)
Definition section_span (current_heading : heading)
    (remaining_headings : list heading) (pages : list page_data)
  : list located :=
  span_parts 0 current_heading.(h_page) current_heading.(h_y_position)
    (find_next_heading (level_of current_heading) remaining_headings) pages.

(** Canonical order of headings: by page, then by vertical position. *)
Definition position_le (a b : heading) : Prop :=
  (a.(h_page) < b.(h_page))%nat
  \/ (a.(h_page) = b.(h_page)
      /\ PrimFloat.leb a.(h_y_position) b.(h_y_position) = true).

Definition headings_in_order (hs : list heading) : Prop :=
  StronglySorted position_le hs.

(** The pages are numbered 1, 2, ... in list order, as the parser numbers
    them. *)
Definition pages_numbered (pages : list page_data) : Prop :=
  forall i pd, nth_error pages i = Some pd -> pd.(page_number) = S i.

(** The element [e] of the page [pd] lies at or after the heading [h]. *)
Definition at_or_after (h : heading) (pd : page_data) (e : element) : Prop :=
  (h.(h_page) < pd.(page_number))%nat
  \/ (h.(h_page) = pd.(page_number)
      /\ PrimFloat.leb h.(h_y_position) e.(y_position) = true).

(** The section the segmenter produces for the heading [h] followed by
    the headings [rest], when its content is not blank. *)
Definition section_of (h : heading) (rest : list heading)
    (pages : list page_data) : section :=
  mk_section (h_text h) (h_page h) (_extract_section_content h rest pages)
             (level_of h).

(** The section of the page of index [pi] in a document without
    headings. *)
Definition page_section (pi : nat) (pd : page_data) : section :=
  mk_section ("Page " ++ NilEmpty.string_of_uint (Nat.to_uint (pi + 1)))
             (pi + 1) (_extract_page_text pd) 1.

(** What the page loop requires of an element it keeps. *)
Definition kept (sp : nat) (sy : float) (next : option heading)
    (pd : page_data) (e : element) : Prop :=
  (sp <= page_number pd)%nat
  /\ (forall n, next = Some n -> (page_number pd <= h_page n)%nat)
  /\ in_y_range (fst (window sp sy next (page_number pd)))
                (snd (window sp sy next (page_number pd))) e = true
  /\ nonblank e = true.

(** Page numbers that do not decrease along the list. *)
Definition monotone (pages : list page_data) : Prop :=
  forall i j pdi pdj,
    (i <= j)%nat -> nth_error pages i = Some pdi ->
    nth_error pages j = Some pdj ->
    (page_number pdi <= page_number pdj)%nat.

(** [at_or_after], decided. *)
Definition at_or_afterb (h : heading) (pd : page_data) (e : element) : bool :=
  (h_page h <? page_number pd)%nat
  || ((h_page h =? page_number pd)%nat
      && PrimFloat.leb (h_y_position h) (y_position e)).

(** The text starts with a character that is no blank. *)
Definition starts_nonblank (t : string) : Prop :=
  exists c r, t = String c r /\ Py.is_space c = false.

End RelevanceAnalyzer.

(* ===================================================================== *)
(** ** section_extractor.py *)
(* ===================================================================== *)

(** One record of [extracted_sections]. *)
Record extracted_section : Type := {
  es_document : string;
  es_page_number : nat;
  es_section_title : string;
  es_importance_rank : nat
}.

Module SectionExtractor.
Local Open Scope float_scope.

Definition max_sections : nat := 20.
Definition min_relevance_score : float := 0.2.

Definition persona_indicators : list (string * list string) :=
  [ ("researcher", ["methodology"; "experiment"; "analysis"; "results";
       "findings"; "study"; "research"; "data"; "statistical"; "empirical"]);
    ("student", ["example"; "exercise"; "practice"; "tutorial"; "concept";
       "theory"; "learn"; "understand"; "definition"; "explanation"]);
    ("analyst", ["data"; "metrics"; "performance"; "trends"; "statistics";
       "insights"; "report"; "analysis"; "comparison"; "benchmark"]);
    ("engineer", ["implementation"; "system"; "design"; "architecture";
       "technical"; "specification"; "development"; "optimization";
       "scalability"]);
    ("manager", ["strategy"; "planning"; "management"; "objectives"; "goals";
       "resources"; "team"; "leadership"; "decision"; "business"]);
    ("salesperson", ["sales"; "revenue"; "customer"; "market"; "pricing";
       "product"; "client"; "growth"; "competition"; "opportunity"]);
    ("journalist", ["news"; "report"; "investigation"; "facts"; "source";
       "interview"; "story"; "coverage"; "update"; "event"]);
    ("entrepreneur", ["business"; "startup"; "innovation"; "market";
       "opportunity"; "investment"; "growth"; "strategy"; "revenue";
       "customer"]) ].

Definition job_indicators : list (string * list string) :=
  [ ("literature review", ["review"; "survey"; "comparison"; "analysis";
       "methodology"; "findings"; "research"; "studies"; "approaches";
       "techniques"; "evaluation"; "benchmarks"]);
    ("exam preparation", ["key"; "concepts"; "important"; "remember";
       "understand"; "practice"; "example"; "problem"; "solution"; "theory";
       "principle"; "formula"; "definition"]);
    ("financial analysis", ["revenue"; "profit"; "cost"; "expense";
       "financial"; "performance"; "growth"; "investment"; "return";
       "margin"; "cash"; "budget"; "forecast"]);
    ("market analysis", ["market"; "competition"; "trends"; "share"; "size";
       "growth"; "opportunity"; "threat"; "customer"; "segment";
       "positioning"; "strategy"]);
    ("technical implementation", ["implementation"; "design"; "architecture";
       "system"; "technical"; "specification"; "requirements"; "development";
       "coding"; "testing"]);
    ("summary", ["summary"; "overview"; "key points"; "highlights";
       "conclusion"; "findings"; "results"; "insights"]);
    ("comparison", ["compare"; "comparison"; "versus"; "difference";
       "similarity"; "contrast"; "alternative"; "option"; "choice";
       "evaluation"; "assessment"]) ].

(** The loop shared by the two indicator checks. *)
Definition has_indicator (table : list (string * list string))
    (who content title : string) : bool :=
  existsb (fun '(kind, indicators) =>
             Py.contains kind who &&
             existsb (fun indicator =>
                        Py.contains indicator content
                        || Py.contains indicator title) indicators)
          table.

(** [_has_persona_specific_content]. *)
Definition _has_persona_specific_content (s : section) (persona : pyvalue)
  : exc bool :=
  let content := Py.lower s.(content) in
  let title := Py.lower s.(section_title) in
  persona_string <- get_lower persona "role" ;;
  let persona_lower := Py.lower persona_string in
  Ok (has_indicator persona_indicators persona_lower content title).

(** [_has_job_specific_content]. *)
Definition _has_job_specific_content (s : section) (job_to_be_done : pyvalue)
  : exc bool :=
  let content := Py.lower s.(content) in
  let title := Py.lower s.(section_title) in
  job_string <- get_lower job_to_be_done "task" ;;
  let job_lower := Py.lower job_string in
  Ok (has_indicator job_indicators job_lower content title).

(** The bonus accumulated before the persona and job checks. *)
Definition structural_bonus (s : section) : float :=
  let bonus := 0.0 in
  let content_length := List.length (Py.split s.(content)) in
  let bonus :=
    if ((50 <=? content_length) && (content_length <=? 500))%nat
    then bonus + 0.1
    else if (500 <? content_length)%nat then bonus + 0.05
    else bonus in
  let level_num := s.(heading_level) in
  let bonus :=
    if (level_num <=? 2)%nat then bonus + 0.15
    else if (level_num =? 3)%nat then bonus + 0.05
    else bonus in
  let title := Py.lower s.(section_title) in
  if Py.any_in ["introduction"; "overview"; "summary"; "conclusion"] title
  then bonus + 0.1 else bonus.

(** [_calculate_final_score]. *)
Definition _calculate_final_score (s : section)
    (persona job_to_be_done : pyvalue) : exc float :=
  let base_score := RelevanceAnalyzer.relevance_of s in
  let bonus := structural_bonus s in
  p <- _has_persona_specific_content s persona ;;
  let bonus := if p then bonus + 0.1 else bonus in
  j <- _has_job_specific_content s job_to_be_done ;;
  let bonus := if j then bonus + 0.1 else bonus in
  Ok (Py.min (base_score + bonus) 1.0).

(** [re.sub(r'^\d+\.?\s*', '', title)]. *)
Fixpoint drop_while (p : ascii -> bool) (s : string) : string :=
  match s with
  | EmptyString => EmptyString
  | String c s' => if p c then drop_while p s' else s
  end.

Definition strip_numbering (title : string) : string :=
  match title with
  | String c _ =>
      if Py.is_digit c then
        let rest := drop_while Py.is_digit title in
        let rest := match rest with
                    | String "." r => r
                    | _ => rest
                    end in
        drop_while Py.is_space rest
      else title
  | EmptyString => title
  end.

(** [_clean_section_title].  The bullet characters the second substitution
    removes lie outside the modelled alphabet, so it changes nothing. *)
Definition _clean_section_title (title : string) : string :=
  match title with
  | EmptyString => "Untitled Section"
  | _ =>
      let title := Py.join " " (Py.split title) in
      let title := strip_numbering title in
      let title :=
        match title with
        | String c rest =>
            if Py.is_lower c then String (Py.upper_char c) rest else title
        | EmptyString => title
        end in
      Py.strip title
  end.

Definition with_final (s : section) (f : float) : section :=
  {| section_title := s.(section_title);
     sec_page_number := s.(sec_page_number);
     content := s.(content);
     heading_level := s.(heading_level);
     relevance_score := s.(relevance_score);
     document := s.(document);
     final_score := Some f |}.

(** [x['final_score']] on a section the ranking loop has stamped. *)
Definition final_of (s : section) : float :=
  match s.(final_score) with
  | Some x => x
  | None => 0
  end.

Definition doc_of (s : section) : string :=
  match s.(document) with
  | Some d => d
  | None => ""
  end.

(** The sections kept after the relevance filter, each with its final
    score, in descending order of final score. *)
Definition ranked_sections (relevant_sections : list section)
    (persona job_to_be_done : pyvalue) : exc (list section) :=
  let filtered_sections :=
    filter (fun s => Py.ge (RelevanceAnalyzer.relevance_of s)
                           min_relevance_score)
           relevant_sections in
  scored <- map_exc (fun s =>
                       f <- _calculate_final_score s persona job_to_be_done ;;
                       Ok (with_final s f))
                    filtered_sections ;;
  Ok (stable_sort (before_desc final_of) scored).

(** The record emitted for the section [s] at rank [i]. *)
Definition record_of (i : nat) (s : section) : extracted_section :=
  {| es_document := doc_of s;
     es_page_number := s.(sec_page_number);
     es_section_title := _clean_section_title s.(section_title);
     es_importance_rank := i |}.

(** The output loop: the sections of rank at most 5. *)
Definition emit (top_sections : list section) : list extracted_section :=
  flat_map (fun '(i, s) => if (i <=? 5)%nat then [record_of i s] else [])
           (enumerate_from 1 top_sections).

(** [extract_sections]; [documents_data] is accepted and not read. *)
Definition extract_sections (documents_data : list doc_data)
    (relevant_sections : list section) (persona job_to_be_done : pyvalue)
  : exc (list extracted_section) :=
  sorted <- ranked_sections relevant_sections persona job_to_be_done ;;
  let top_sections := firstn max_sections sorted in
  Ok (emit top_sections).

End SectionExtractor.

(* ===================================================================== *)
(** ** subsection_analyzer.py *)
(* ===================================================================== *)

(** One record of [subsection_analysis]. *)
Record subsection_record : Type := {
  sa_document : string;
  sa_section_title : string;
  sa_refined_text : string;
  sa_page_number : nat;
  sa_relevance_score : float;
  sa_key_insights : list string
}.

Module SubSectionAnalyzer.
Local Open Scope float_scope.

Definition min_subsection_length : nat := 30.
Definition max_subsections_per_section : nat := 5.

(** The dicts [_extract_subsections] builds. *)
Record subsection : Type := {
  refined_text : string;
  sub_relevance_score : float;
  key_insights : list string
}.

Definition is_newline (c : ascii) : bool := (Py.code c =? 10)%nat.

(** [re.sub(r'\s+', ' ', s)]: every run of blanks becomes one space. *)
Fixpoint collapse_ws (in_run : bool) (s : string) : string :=
  match s with
  | EmptyString => EmptyString
  | String c s' =>
      if Py.is_space c
      then if in_run then collapse_ws true s'
           else String " " (collapse_ws true s')
      else String c (collapse_ws false s')
  end.

(** [_normalize_text]. *)
Definition _normalize_text (text : string) : string :=
  collapse_ws false (Py.strip (Py.lower text)).

(** The offset of the last newline in the run of blanks that starts [s]. *)
Fixpoint last_newline (i : nat) (found : option nat) (s : string)
  : option nat :=
  match s with
  | EmptyString => found
  | String c s' =>
      if Py.is_space c
      then last_newline (S i) (if is_newline c then Some i else found) s'
      else found
  end.

(** [re.split(r'\n\s*\n', s)]: a match starts at a newline and runs to the
    last newline of the blanks that follow it.  [skip] counts the characters
    of the current match still to drop; [cur] is the piece being read, in
    reverse. *)
Fixpoint split_blank_lines (skip : nat) (cur : string) (s : string)
  : list string :=
  match s with
  | EmptyString => [Py.rev_string EmptyString cur]
  | String c s' =>
      match skip with
      | S k => split_blank_lines k cur s'
      | O =>
          if is_newline c then
            match last_newline 0 None s' with
            | Some k =>
                Py.rev_string EmptyString cur
                :: split_blank_lines (S k) EmptyString s'
            | None => split_blank_lines 0 (String c cur) s'
            end
          else split_blank_lines 0 (String c cur) s'
      end
  end.

(** [re.split('[.!?]', s)]. *)
Definition is_sentence_end (c : ascii) : bool :=
  Ascii.eqb c "." || Ascii.eqb c "!" || Ascii.eqb c "?".

Fixpoint split_sentences (cur : string) (s : string) : list string :=
  match s with
  | EmptyString => [Py.rev_string EmptyString cur]
  | String c s' =>
      if is_sentence_end c
      then Py.rev_string EmptyString cur :: split_sentences EmptyString s'
      else split_sentences (String c cur) s'
  end.

Definition word_count (s : string) : nat := List.length (Py.split s).

(** [_split_into_paragraphs]. *)
Definition _split_into_paragraphs (content : string) : list string :=
  filter (fun p => negb (String.eqb p "") && (10 <=? word_count p)%nat)
         (map Py.strip (split_blank_lines 0 EmptyString content)).

(** [_split_into_sentences]. *)
Definition _split_into_sentences (content : string) : list string :=
  filter (fun p => negb (String.eqb p "") && (5 <=? word_count p)%nat)
         (map Py.strip (split_sentences EmptyString content)).

(** [_refine_text].  The bullet substitution changes nothing on the
    modelled alphabet. *)
Definition _refine_text (text : string) : string :=
  let text := Py.join " " (Py.split text) in
  let text := collapse_ws false text in
  let text :=
    match text with
    | EmptyString => text
    | _ =>
        if existsb (fun e => Py.endswith e text) ["."; "!"; "?"; ":"]
        then text else (text ++ ".")%string
    end in
  Py.strip text.

Definition stop_words : list string :=
  [ "the"; "a"; "an"; "and"; "or"; "but"; "in"; "on"; "at"; "to"; "for";
    "of"; "with"; "by"; "is"; "are"; "was"; "were"; "be"; "been"; "have";
    "has"; "had"; "do"; "does"; "did"; "will"; "would"; "could"; "should" ].

(** [_extract_keywords]. *)
Definition _extract_keywords (text : string) : list string :=
  Py.set_of_list
    (filter (fun w => (2 <? Py.len w)%nat && negb (Py.mem w stop_words))
            (Py.findall_words (Py.lower text))).

(** [_calculate_subsection_relevance]. *)
Definition _calculate_subsection_relevance (text : string)
    (persona job_to_be_done : pyvalue) : exc float :=
  let text_lower := Py.lower text in
  persona_string <- get_lower persona "role" ;;
  job_string <- get_lower job_to_be_done "task" ;;
  let job_lower := Py.lower job_string in
  let score := 0.0 in
  let persona_keywords := _extract_keywords persona_string in
  let job_keywords := _extract_keywords job_lower in
  let text_words := Py.set_of_list (Py.findall_words text_lower) in
  let persona_matches := Py.inter_count persona_keywords text_words in
  let job_matches := Py.inter_count job_keywords text_words in
  let n := List.length text_words in
  let score :=
    if (0 <? n)%nat
    then (score + (Py.of_nat persona_matches / Py.of_nat n) * 0.4)
         + (Py.of_nat job_matches / Py.of_nat n) * 0.6
    else score in
  let score :=
    RelevanceAnalyzer.phrase_bonus persona_keywords text_lower 0.1 score in
  let score :=
    RelevanceAnalyzer.phrase_bonus job_keywords text_lower 0.15 score in
  Ok (Py.min score 1.0).

Definition insight_indicators : list string :=
  [ "important"; "key"; "significant"; "critical"; "essential"; "main";
    "primary"; "fundamental"; "crucial"; "major"; "notable"; "remarkable" ].

Definition result_terms : list string :=
  [ "result"; "finding"; "conclusion"; "shows"; "indicates" ].

(** [re.search(r'\d+', s)]. *)
Fixpoint has_digit (s : string) : bool :=
  match s with
  | EmptyString => false
  | String c s' => Py.is_digit c || has_digit s'
  end.

(** [_extract_key_insights]; the persona and the job are not read. *)
Definition _extract_key_insights (text : string) : list string :=
  let sentences := map Py.strip (split_sentences EmptyString text) in
  let insights :=
    flat_map (fun sentence =>
      if (8 <=? word_count sentence)%nat
         && Py.any_in insight_indicators (Py.lower sentence)
      then [(sentence ++ ".")%string] else []) sentences in
  let insights :=
    match insights with
    | [] =>
        flat_map (fun sentence =>
          if (8 <=? word_count sentence)%nat
             && (has_digit sentence
                 || Py.any_in result_terms (Py.lower sentence))
          then [(sentence ++ ".")%string] else []) sentences
    | _ => insights
    end in
  firstn 3 insights.

(** The paragraph loop of [_extract_subsections]. *)
Definition paragraph_subsections (paragraphs : list string)
    (persona job_to_be_done : pyvalue) : exc (list subsection) :=
  fold_exc (fun subsections paragraph =>
    if (min_subsection_length <=? word_count paragraph)%nat then
      let refined := _refine_text paragraph in
      score <- _calculate_subsection_relevance refined persona job_to_be_done ;;
      let insights := _extract_key_insights refined in
      Ok (if Py.gt score 0.3
          then subsections ++ [ {| refined_text := refined;
                                   sub_relevance_score := score;
                                   key_insights := insights |} ]
          else subsections)
    else Ok subsections) paragraphs [].

(** The sentence loop: the state is the list built so far and the
    sentences accumulated since the last reset. *)
Definition sentence_subsections (sentences : list string)
    (persona job_to_be_done : pyvalue) : exc (list subsection) :=
  r <- fold_exc (fun '(subsections, current_subsection) sentence =>
    let current_subsection := current_subsection ++ [sentence] in
    let subsection_text := Py.join " " current_subsection in
    if (min_subsection_length <=? word_count subsection_text)%nat then
      let refined := _refine_text subsection_text in
      score <- _calculate_subsection_relevance refined persona job_to_be_done ;;
      Ok (if Py.gt score 0.3
          then subsections ++ [ {| refined_text := refined;
                                   sub_relevance_score := score;
                                   key_insights := _extract_key_insights refined |} ]
          else subsections, [])
    else Ok (subsections, current_subsection)) sentences ([], []) ;;
  Ok (fst r).

(** [_extract_subsections]. *)
Definition _extract_subsections (content : string)
    (persona job_to_be_done : pyvalue) : exc (list subsection) :=
  if String.eqb content "" || (word_count content <? min_subsection_length)%nat
  then Ok []
  else
    let paragraphs := _split_into_paragraphs content in
    subsections <- paragraph_subsections paragraphs persona job_to_be_done ;;
    subsections <-
      match subsections with
      | [] => sentence_subsections (_split_into_sentences content)
                                   persona job_to_be_done
      | _ => Ok subsections
      end ;;
    Ok (firstn max_subsections_per_section
          (stable_sort (before_desc sub_relevance_score) subsections)).

(** [_extract_page_text]. *)
Definition _extract_page_text (pd : page_data) : string :=
  Py.join " " (RelevanceAnalyzer.nonblank_texts pd.(elements)).

(** The loop over the elements of one page: elements at or above the
    heading are skipped, and the loop stops at the first element at or
    below the next heading. *)
Fixpoint page_parts (skip_upto : option float) (stop_at : option float)
    (es : list element) : list string :=
  match es with
  | [] => []
  | e :: rest =>
      let y_pos := e.(y_position) in
      if match skip_upto with
         | Some start_y => PrimFloat.leb y_pos start_y
         | None => false
         end
      then page_parts skip_upto stop_at rest
      else if match stop_at with
              | Some y => PrimFloat.leb y y_pos
              | None => false
              end
      then []
      else
        let t := Py.strip e.(text) in
        (if String.eqb t "" then [] else [t])
        ++ page_parts skip_upto stop_at rest
  end.

Fixpoint heading_parts (start_page : nat) (start_y : float)
    (next_heading : option heading) (pages : list page_data) : list string :=
  match pages with
  | [] => []
  | pd :: rest =>
      let page_num := pd.(page_number) in
      if (page_num <? start_page)%nat
      then heading_parts start_page start_y next_heading rest
      else if match next_heading with
              | Some n => (n.(h_page) <? page_num)%nat
              | None => false
              end
      then []
      else
        page_parts
          (if (page_num =? start_page)%nat then Some start_y else None)
          (match next_heading with
           | Some n => if (page_num =? n.(h_page))%nat
                       then Some n.(h_y_position) else None
           | None => None
           end)
          pd.(elements)
        ++ heading_parts start_page start_y next_heading rest
  end.

(** [_extract_section_content_by_heading]. *)
Definition _extract_section_content_by_heading (current_heading : heading)
    (all_headings : list heading) (pages : list page_data) : string :=
  let start_page := current_heading.(h_page) in
  let start_y := current_heading.(h_y_position) in
  let current_level := RelevanceAnalyzer.level_of current_heading in
  let next_heading :=
    find (fun h =>
            ((start_page <? h.(h_page))%nat
             || ((h.(h_page) =? start_page)%nat
                 && PrimFloat.ltb start_y h.(h_y_position)))
            && (RelevanceAnalyzer.level_of h <=? current_level)%nat)
         all_headings in
  Py.join " " (heading_parts start_page start_y next_heading pages).

(** [_find_section_content]. *)
Definition _find_section_content (doc : doc_data) (title_ : string)
    (page_number_ : nat) : string :=
  let target_heading :=
    find (fun h =>
            String.eqb (_normalize_text h.(h_text)) (_normalize_text title_)
            && (h.(h_page) =? page_number_)%nat)
         doc.(headings) in
  match target_heading with
  | None =>
      match find (fun pd => (pd.(page_number) =? page_number_)%nat)
                 doc.(pages_data) with
      | Some pd => _extract_page_text pd
      | None => ""
      end
  | Some h =>
      _extract_section_content_by_heading h doc.(headings) doc.(pages_data)
  end.

(** [doc_lookup[name]]: the last document of that name wins. *)
Definition doc_lookup (documents_data : list doc_data) (name : string)
  : option doc_data :=
  find (fun d => String.eqb d.(file_name) name) (rev documents_data).

(** [analyze_subsections]. *)
Definition analyze_subsections (extracted_sections : list extracted_section)
    (documents_data : list doc_data) (persona job_to_be_done : pyvalue)
  : exc (list subsection_record) :=
  analyses <- fold_exc (fun analyses s =>
    let document_name := s.(es_document) in
    let page_number_ := s.(es_page_number) in
    let title_ := s.(es_section_title) in
    match doc_lookup documents_data document_name with
    | None => Ok analyses
    | Some doc =>
        let section_content := _find_section_content doc title_ page_number_ in
        if String.eqb section_content "" then Ok analyses
        else
          subsections <-
            _extract_subsections section_content persona job_to_be_done ;;
          Ok (analyses ++
              map (fun sub =>
                     {| sa_document := document_name;
                        sa_section_title := title_;
                        sa_refined_text := sub.(refined_text);
                        sa_page_number := page_number_;
                        sa_relevance_score := sub.(sub_relevance_score);
                        sa_key_insights := sub.(key_insights) |})
                  subsections)
    end) extracted_sections [] ;;
  Ok (stable_sort (before_desc sa_relevance_score) analyses).

End SubSectionAnalyzer.

(** *** Notions in which the facts about subsections are stated *)

Module SubsectionNotions.
Import SubSectionAnalyzer.
Local Open Scope float_scope.
(** What every subsection the analyzer builds satisfies: a score above 0.3
    and at most 1, a refined text ending with a mark, at most three
    insights, each ending with a full stop. *)
Definition well_formed (sub : subsection) : Prop :=
  PrimFloat.ltb 0.3 (sub_relevance_score sub) = true
  /\ PrimFloat.leb (sub_relevance_score sub) 1 = true
  /\ (exists e, In e ["."; "!"; "?"; ":"]
                /\ Py.endswith e (refined_text sub) = true)
  /\ (List.length (key_insights sub) <= 3)%nat
  /\ Forall (fun i => Py.endswith "." i = true) (key_insights sub).
End SubsectionNotions.

(* ===================================================================== *)
(** ** document_intelligence.py *)
(* ===================================================================== *)

(** The ["metadata"] dict of a result. *)
Record metadata : Type := {
  input_documents : list string;
  md_persona : pyvalue;
  md_job_to_be_done : pyvalue;
  processing_timestamp : string
}.

(** The dict [process_document_collection] returns. *)
Record result : Type := {
  res_metadata : metadata;
  extracted_sections : list extracted_section;
  subsection_analysis : list subsection_record
}.

Module DocumentIntelligence.
Import Re.
Local Open Scope float_scope.

(** The sort key [(y_position, x_position)] of the title search. *)
Definition top_left_before (a b : element) : bool :=
  if PrimFloat.eqb a.(y_position) b.(y_position)
  then PrimFloat.ltb a.(x_position) b.(x_position)
  else PrimFloat.ltb a.(y_position) b.(y_position).

(** The loop over the first 15 elements. *)
Fixpoint first_title (es : list element) : string :=
  match es with
  | [] => ""
  | e :: rest =>
      let t := Py.strip e.(text) in
      if (Py.len t <? 5)%nat then first_title rest
      else if re_match (Alt bare_int (Alt page_n date)) (Py.lower t)
      then first_title rest
      else if Py.any_in ["copyright"; "version"; "draft"; "confidential"]
                        (Py.lower t)
      then first_title rest
      else if ((10 <? Py.len t)%nat
               && (PrimFloat.ltb 14 e.(font_size) || e.(is_bold)))
              || (20 <? Py.len t)%nat
      then t
      else first_title rest
  end.

(** [_extract_document_title]. *)
Definition _extract_document_title (pages : list page_data) : string :=
  match pages with
  | [] => ""
  | first_page :: _ =>
      first_title (firstn 15 (stable_sort top_left_before
                                          first_page.(elements)))
  end.

Section Collaborators.
(** What the core is given by its surroundings: the parser's pages for a
    path ([[]] when the file cannot be parsed), the three functions of
    Python's [statistics], and [Path(p).name]. *)
Variable parse_pdf : string -> list page_data.
Variables mean median stdev : list float -> float.
Variable path_name : string -> string.

(** [_parse_single_document]; no call in its body raises on parsed
    pages, so the handler is never entered. *)
Definition _parse_single_document (pdf_file : string) : option doc_data :=
  match parse_pdf pdf_file with
  | [] => None
  | pages =>
      let analyzed :=
        TextAnalyzer.analyze_elements mean median stdev pages in
      let hs := HeadingDetector.detect_headings analyzed in
      let hs := HeadingDetector.filter_false_positives hs in
      Some {| file_path := pdf_file;
              file_name := path_name pdf_file;
              title := _extract_document_title pages;
              pages_data := pages;
              headings := hs;
              analyzed_elements := analyzed |}
  end.

Definition make_metadata (pdf_files : list string)
    (persona job_to_be_done : pyvalue) (now : string) : metadata :=
  {| input_documents := map path_name pdf_files;
     md_persona := persona;
     md_job_to_be_done := job_to_be_done;
     processing_timestamp := now |}.

(** [_build_result]; [now] is the reading of the clock. *)
Definition _build_result (pdf_files : list string)
    (persona job_to_be_done : pyvalue)
    (sections : list extracted_section)
    (subsections : list subsection_record) (now : string) : result :=
  {| res_metadata := make_metadata pdf_files persona job_to_be_done now;
     extracted_sections := sections;
     subsection_analysis := subsections |}.

(** [_create_empty_result]. *)
Definition _create_empty_result (pdf_files : list string)
    (persona job_to_be_done : pyvalue) (now : string) : result :=
  {| res_metadata := make_metadata pdf_files persona job_to_be_done now;
     extracted_sections := [];
     subsection_analysis := [] |}.

(** The documents that parse, in input order. *)
Definition parse_all (pdf_files : list string) : list doc_data :=
  flat_map (fun pdf_file =>
              match _parse_single_document pdf_file with
              | Some doc => [doc]
              | None => []
              end) pdf_files.

(** The body of the [try] block of [process_document_collection]. *)
Definition try_body (pdf_files : list string)
    (persona job_to_be_done : pyvalue) (now : string) : exc result :=
  let documents_data := parse_all pdf_files in
  match documents_data with
  | [] => Ok (_create_empty_result pdf_files persona job_to_be_done now)
  | _ =>
      relevant_sections <-
        RelevanceAnalyzer.analyze_relevance documents_data persona
                                            job_to_be_done ;;
      sections <-
        SectionExtractor.extract_sections documents_data relevant_sections
                                          persona job_to_be_done ;;
      subsections <-
        SubSectionAnalyzer.analyze_subsections sections documents_data
                                               persona job_to_be_done ;;
      Ok (_build_result pdf_files persona job_to_be_done sections
                        subsections now)
  end.

(** [process_document_collection]: [except Exception] turns every raised
    exception into the empty result. *)
Definition process_document_collection (pdf_files : list string)
    (persona job_to_be_done : pyvalue) (now : string) : result :=
  match try_body pdf_files persona job_to_be_done now with
  | Ok r => r
  | Raise _ => _create_empty_result pdf_files persona job_to_be_done now
  end.
End Collaborators.

End DocumentIntelligence.

(* ===================================================================== *)
(** ** Sample collaborators and documents *)
(* ===================================================================== *)

Module Examples.
Local Open Scope float_scope.

(** [Path(p).name] for a path without a trailing slash: what follows the
    last ["/"]. *)
Fixpoint basename (acc : string) (p : string) : string :=
  match p with
  | EmptyString => Py.rev_string EmptyString acc
  | String c p' =>
      if Ascii.eqb c "/" then basename EmptyString p'
      else basename (String c acc) p'
  end.

(** Sum, mean, median and sample deviation in binary64 arithmetic.  On the
    sample pages below every intermediate value but the square root is
    exact, so they return what Python's [statistics] returns there. *)
Definition fsum (l : list float) : float := fold_left PrimFloat.add l 0.

Definition naive_mean (l : list float) : float :=
  fsum l / Py.of_nat (List.length l).

Definition naive_median (l : list float) : float :=
  let s := stable_sort (fun y x => PrimFloat.ltb y x) l in
  let n := List.length s in
  if Nat.even n
  then (nth (n / 2 - 1) s 0 + nth (n / 2) s 0) / 2
  else nth (n / 2) s 0.

Definition naive_stdev (l : list float) : float :=
  let m := naive_mean l in
  PrimFloat.sqrt (fsum (map (fun x => (x - m) * (x - m)) l)
                  / Py.of_nat (List.length l - 1)).

(** [analyze_elements] with these statistics. *)
Definition analyze (pages : list page_data) : list analyzed_element :=
  TextAnalyzer.analyze_elements naive_mean naive_median naive_stdev pages.

(** A span of page 1 whose box starts at [(x, y)]. *)
Definition span (t : string) (size : float) (bold : bool) (x y : float)
  : element :=
  {| text := t; page := 1; bbox := [x; y; x + 400; y + size];
     font_size := size; is_bold := bold; is_caps := false;
     x_position := x; y_position := y |}.

Definition page1 (es : list element) : page_data :=
  {| page_number := 1; elements := es |}.

(** Two spans of 24pt, the second a bare number. *)
Definition two_large_spans : list analyzed_element :=
  analyze [ page1 [ span "Overview of the system" 24 false 72 72;
                    span "42" 24 false 72 110 ] ].

(** One numbered line of 12pt; its heading score is 3.0. *)
Definition numbered_line : list analyzed_element :=
  analyze [ page1 [ span "2 Related work on folding of small proteins and enzymes"
                         12 false 72 72 ] ].

Definition sales_row : string :=
  "Total sales for the northern region grew by twelve percent while the southern region stayed flat over the same twelve months".

Definition costs_row : string :=
  "Total costs for the northern region fell by twelve percent while the southern region stayed flat over the same twelve months".

(** A page in four font sizes, 30, 24, 18 and 14; the two indented rows of
    14pt are the fourth-largest group, [second] being the text of the last
    one. *)
Definition report_page (second : string) : list analyzed_element :=
  analyze [ page1 [ span "Annual report" 30 true 72 60;
                    span "Regional figures" 24 false 72 110;
                    span "Northern region" 18 false 72 150;
                    span sales_row 14 false 120 200;
                    span second 14 false 120 230 ] ].

(** The fourth heading detected on the report page whose two rows differ:
    the sales row, found by font clustering alone. *)
Definition lone_row : heading :=
  nth 3 (HeadingDetector.detect_headings (report_page costs_row))
      (HeadingDetector._create_heading_dict
         {| elem := span "" 0 false 0 0; heading_score := 0;
            heading_features :=
              {| large_font := false; left_aligned := false;
                 pattern_score := 0; has_heading_keywords := false;
                 feat_is_bold := false; feat_is_caps := false;
                 excluded_pattern := false |} |} ByScore 0 None None).

(** The persona and the job of the worked scenario, as plain strings and
    as the challenge input wraps them. *)
Definition persona_text : string := "PhD Researcher in Computational Biology".
Definition job_text : string := "Prepare a literature review".

Definition researcher : pyvalue := PyDict [("role", persona_text)].
Definition literature_review : pyvalue := PyDict [("task", job_text)].

(** Seven relevance-scored sections of one document; the second is below
    the 0.2 threshold of the ranker. *)
Definition scored_section (title_ : string) (page_ level : nat)
    (body : string) (score : float) : section :=
  RelevanceAnalyzer.scored
    (RelevanceAnalyzer.mk_section title_ page_ body level) score "paper.pdf".

Definition scored_sections : list section :=
  [ scored_section "1. Introduction" 1 1 "We study protein folding." 0.9;
    scored_section "Acknowledgements" 9 1 "Thanks to all." 0.15;
    scored_section "2. Methods" 2 1 "The methodology is described." 0.5;
    scored_section "2.1 Data" 2 2 "Data sets and their sources." 0.3;
    scored_section "3. Results" 4 1 "Findings of the experiments." 0.7;
    scored_section "3.1 Tables" 5 2 "Tables of raw numbers." 0.25;
    scored_section "4. Discussion" 6 1 "What the research shows." 0.6 ].

(** What the ranker emits for them. *)
Definition ranked_sample : list extracted_section :=
  match SectionExtractor.extract_sections [] scored_sections researcher
                                          literature_review with
  | Ok out => out
  | Raise _ => []
  end.

Definition aims_text : string :=
  "The first part of the report sets out the aims of the project and names the people who took part in the work over the last two years".

Definition scope_text : string :=
  "Only the two laboratories in the north took part and the figures for the south were left out because they came in too late to be checked".

(** The document [_parse_single_document] builds for a file of one page. *)
Definition doc_of_page (pd : page_data) : doc_data :=
  let analyzed := analyze [pd] in
  {| file_path := "input/report.pdf";
     file_name := basename EmptyString "input/report.pdf";
     title := DocumentIntelligence._extract_document_title [pd];
     pages_data := [pd];
     headings := HeadingDetector.filter_false_positives
                   (HeadingDetector.detect_headings analyzed);
     analyzed_elements := analyzed |}.

(** A 24pt heading, its paragraph, an 18pt sub-heading and its paragraph:
    the headings come out at the levels H1 and H2. *)
Definition nested_page : page_data :=
  page1 [ span "1 Overview" 24 true 72 60;
          span aims_text 12 false 72 100;
          span "1.1 Scope" 18 true 72 140;
          span scope_text 11 false 72 180 ].

Definition nested_doc : doc_data := doc_of_page nested_page.

(** The same page with two headings of 24pt, both at the level H1. *)
Definition flat_page : page_data :=
  page1 [ span "1 Overview" 24 true 72 60;
          span aims_text 12 false 72 100;
          span "2 Scope" 24 true 72 140;
          span scope_text 11 false 72 180 ].

Definition flat_doc : doc_data := doc_of_page flat_page.

Definition intro_paragraph : string :=
  "This paper presents the research methodology findings of a long study of protein folding in which we compare several earlier approaches and report what the experiments show about accuracy and cost across many different data sets and laboratory settings in detail".

(** Page 1 of the worked scenario: a bold 24pt line and a paragraph of 41
    words. *)
Definition paper_page : page_data :=
  page1 [ span "1. Introduction" 24 true 72 72;
          span intro_paragraph 12 false 72 120 ].

(** A parser that knows one file. *)
Definition parse_paper (path : string) : list page_data :=
  if String.eqb path "input/paper.pdf" then [paper_page] else [].

(** The pipeline run on that file. *)
Definition run_paper (persona job_to_be_done : pyvalue) (now : string)
  : result :=
  DocumentIntelligence.process_document_collection parse_paper naive_mean
    naive_median naive_stdev (basename EmptyString) ["input/paper.pdf"]
    persona job_to_be_done now.

(** The dict PyMuPDF gives for [paper_page]: one text block of two lines,
    and an image block. *)
Definition raw_span (t : string) (size : float) (bold : bool) (x y : float)
  : PDFParser.span :=
  {| PDFParser.sp_text := Some t;
     PDFParser.sp_bbox := Some [x; y; x + 400; y + size];
     PDFParser.sp_size := Some size;
     PDFParser.sp_font := Some "Helvetica";
     PDFParser.sp_flags := Some (if bold then 16 else 0)%Z;
     PDFParser.sp_color := Some 0%Z |}.

Definition paper_dict : PDFParser.page_dict :=
  {| PDFParser.pg_blocks :=
       Some [ {| PDFParser.bl_lines :=
                   Some [ {| PDFParser.ln_spans :=
                               Some [raw_span "1. Introduction" 24 true 72 72] |};
                          {| PDFParser.ln_spans :=
                               Some [raw_span intro_paragraph 12 false 72 120] |} ] |};
              {| PDFParser.bl_lines := None |} ] |}.

(** The same page followed by one whose only span has a box of two
    coordinates. *)
Definition broken_dict : PDFParser.page_dict :=
  {| PDFParser.pg_blocks :=
       Some [ {| PDFParser.bl_lines :=
                   Some [ {| PDFParser.ln_spans :=
                               Some [ {| PDFParser.sp_text := Some "Appendix";
                                         PDFParser.sp_bbox := Some [72; 72];
                                         PDFParser.sp_size := Some 12;
                                         PDFParser.sp_font := None;
                                         PDFParser.sp_flags := None;
                                         PDFParser.sp_color := None |} ] |} ] |} ] |}.

(** A [fitz.open] that knows two files. *)
Definition open_paper (path : string) : option (list PDFParser.page_dict) :=
  if String.eqb path "input/paper.pdf" then Some [paper_dict]
  else if String.eqb path "input/broken.pdf" then Some [paper_dict; broken_dict]
  else None.

End Examples.

(* ===================================================================== *)
(** * Facts *)
(* ===================================================================== *)

Unset Implicit Arguments.

(** ** The order and the sign of binary64 values

    The comparisons of the kernel's floats are read through their
    specification on [spec_float]; every lemma below holds for the special
    values as well, a NaN making each comparison [false]. *)

Module FloatFacts.

Ltac cmp_cases :=
  repeat match goal with
  | |- context [Z.compare ?a ?b] =>
      let H := fresh in destruct (Z.compare_spec a b) as [H|H|H]; try subst
  | H : context [Z.compare ?a ?b] |- _ =>
      let H' := fresh in destruct (Z.compare_spec a b) as [H'|H'|H']; try subst
  | |- context [Pos.compare_cont Eq ?a ?b] =>
      change (Pos.compare_cont Eq a b) with (Pos.compare a b);
      let H := fresh in destruct (Pos.compare_spec a b) as [H|H|H]; try subst
  | H : context [Pos.compare_cont Eq ?a ?b] |- _ =>
      change (Pos.compare_cont Eq a b) with (Pos.compare a b) in H;
      let H' := fresh in destruct (Pos.compare_spec a b) as [H'|H'|H']; try subst
  end.

Ltac sf_order :=
  unfold SFleb, SFltb, SFeqb, SFcompare;
  repeat match goal with
  | a : spec_float |- _ => destruct a as [[|]|[|]| |[|] ? ?]
  end;
  try discriminate; try reflexivity; intros; cmp_cases;
  simpl in *; try discriminate; try reflexivity; try lia.

Lemma SFleb_trans a b c :
  SFleb a b = true -> SFleb b c = true -> SFleb a c = true.
Proof. sf_order. Qed.

Lemma SFltb_leb_trans a b c :
  SFltb a b = true -> SFleb b c = true -> SFltb a c = true.
Proof. sf_order. Qed.

Lemma SFleb_ltb_trans a b c :
  SFleb a b = true -> SFltb b c = true -> SFltb a c = true.
Proof. sf_order. Qed.

Lemma SFltb_leb a b : SFltb a b = true -> SFleb a b = true.
Proof. sf_order. Qed.

Lemma SFltb_irrefl a : SFltb a a = false.
Proof. sf_order. Qed.

Lemma SFleb_total a b :
  SFleb a a = true -> SFleb b b = true ->
  SFltb b a = false -> SFleb a b = true.
Proof. sf_order. Qed.

Lemma SFleb_refl_l a b : SFleb a b = true -> SFleb a a = true.
Proof. sf_order. Qed.

Lemma SFleb_refl_r a b : SFleb a b = true -> SFleb b b = true.
Proof. sf_order. Qed.

Lemma SFeqb_leb a b : SFeqb a b = true -> SFleb a b = true.
Proof. sf_order. Qed.

Lemma SFeqb_sym a b : SFeqb a b = SFeqb b a.
Proof. sf_order. Qed.

Lemma SFeqb_trans a b c : SFeqb a b = true -> SFeqb b c = true -> SFeqb a c = true.
Proof. sf_order. Qed.

Lemma SFleb_antisym a b : SFleb a b = true -> SFleb b a = true -> SFeqb a b = true.
Proof. sf_order. Qed.

Lemma SFleb_zero f : SFleb (S754_zero false) f = Py.sf_nonneg f.
Proof. destruct f as [[|]|[|]| |[|] ? ?]; reflexivity. Qed.

Lemma shr_1_nonneg mrs : (0 <= shr_m mrs)%Z -> (0 <= shr_m (shr_1 mrs))%Z.
Proof.
  destruct mrs as [m r s]; simpl.
  destruct m as [|[p|p|]|[p|p|]]; simpl; lia.
Qed.

Lemma iter_pos_inv {A} (f : A -> A) (P : A -> Prop) :
  (forall x, P x -> P (f x)) -> forall p x, P x -> P (iter_pos f p x).
Proof.
  intros Hf p; induction p as [p IH|p IH|]; simpl; intros x Hx; auto.
Qed.

Lemma shr_nonneg mrs e n :
  (0 <= shr_m mrs)%Z -> (0 <= shr_m (fst (shr mrs e n)))%Z.
Proof.
  intros H; destruct n; simpl; auto.
  apply iter_pos_inv with (P := fun x => (0 <= shr_m x)%Z); auto.
  apply shr_1_nonneg.
Qed.

Lemma shr_record_of_loc_m m l : shr_m (shr_record_of_loc m l) = m.
Proof. destruct l as [|[| |]]; reflexivity. Qed.

Lemma shr_fexp_nonneg prec emax m e l :
  (0 <= m)%Z -> (0 <= shr_m (fst (shr_fexp prec emax m e l)))%Z.
Proof.
  intros H; unfold shr_fexp. apply shr_nonneg.
  rewrite shr_record_of_loc_m; exact H.
Qed.

Lemma round_nearest_even_nonneg m l :
  (0 <= m)%Z -> (0 <= round_nearest_even m l)%Z.
Proof.
  intros H; destruct l as [|[| |]]; simpl; try lia.
  destruct (Z.even m); lia.
Qed.

Lemma binary_round_aux_nonneg prec emax m e l :
  (0 <= m)%Z -> Py.sf_nonneg (binary_round_aux prec emax false m e l) = true.
Proof.
  intros H; unfold binary_round_aux.
  pose proof (shr_fexp_nonneg prec emax m e l H) as H1.
  destruct (shr_fexp prec emax m e l) as [mrs' e']; simpl in H1.
  pose proof (shr_fexp_nonneg prec emax
                (round_nearest_even (shr_m mrs') (loc_of_shr_record mrs'))
                e' loc_Exact
                (round_nearest_even_nonneg _ _ H1)) as H2.
  destruct (shr_fexp prec emax _ e' loc_Exact) as [mrs'' e'']; simpl in H2.
  destruct (shr_m mrs'') as [|p|p]; try reflexivity; try lia.
  destruct (Z.leb e'' (emax - prec)); reflexivity.
Qed.

Lemma binary_round_nonneg prec emax p e :
  Py.sf_nonneg (binary_round prec emax false p e) = true.
Proof.
  unfold binary_round.
  destruct (shl_align p e _) as [mz ez].
  apply binary_round_aux_nonneg; lia.
Qed.

Lemma SFadd_nonneg prec emax a b :
  Py.sf_nonneg a = true -> Py.sf_nonneg b = true ->
  Py.sf_nonneg (SFadd prec emax a b) = true.
Proof.
  destruct a as [[|]|[|]| |[|] ma ea], b as [[|]|[|]| |[|] mb eb];
    simpl; try discriminate; try reflexivity; intros _ _.
  apply binary_round_nonneg.
Qed.

(** The same facts on the primitive type. *)
Local Open Scope float_scope.

Lemma nonneg_spec x : (0 <=? x) = Py.sf_nonneg (Prim2SF x).
Proof. rewrite FloatAxioms.leb_spec. change (Prim2SF 0) with (S754_zero false). apply SFleb_zero. Qed.

Lemma leb_trans a b c : (a <=? b) = true -> (b <=? c) = true -> (a <=? c) = true.
Proof. rewrite !FloatAxioms.leb_spec. apply SFleb_trans. Qed.

Lemma ltb_leb_trans a b c : (a <? b) = true -> (b <=? c) = true -> (a <? c) = true.
Proof. rewrite !FloatAxioms.leb_spec, !FloatAxioms.ltb_spec. apply SFltb_leb_trans. Qed.

Lemma leb_ltb_trans a b c : (a <=? b) = true -> (b <? c) = true -> (a <? c) = true.
Proof. rewrite !FloatAxioms.leb_spec, !FloatAxioms.ltb_spec. apply SFleb_ltb_trans. Qed.

Lemma ltb_leb a b : (a <? b) = true -> (a <=? b) = true.
Proof. rewrite !FloatAxioms.leb_spec, !FloatAxioms.ltb_spec. apply SFltb_leb. Qed.

Lemma ltb_irrefl a : (a <? a) = false.
Proof. rewrite FloatAxioms.ltb_spec. apply SFltb_irrefl. Qed.

Lemma leb_total a b :
  (a <=? a) = true -> (b <=? b) = true -> (b <? a) = false -> (a <=? b) = true.
Proof. rewrite !FloatAxioms.leb_spec, !FloatAxioms.ltb_spec. apply SFleb_total. Qed.

Lemma leb_refl_l a b : (a <=? b) = true -> (a <=? a) = true.
Proof. rewrite !FloatAxioms.leb_spec. apply SFleb_refl_l. Qed.

Lemma leb_refl_r a b : (a <=? b) = true -> (b <=? b) = true.
Proof. rewrite !FloatAxioms.leb_spec. apply SFleb_refl_r. Qed.

Lemma add_nonneg a b : (0 <=? a) = true -> (0 <=? b) = true -> (0 <=? a + b) = true.
Proof.
  rewrite !nonneg_spec, FloatAxioms.add_spec. apply SFadd_nonneg.
Qed.

(** Every number is at most [float('inf')]. *)
Lemma leb_inf x : (x <=? x) = true -> (x <=? Py.inf) = true.
Proof.
  unfold Py.inf. rewrite !FloatAxioms.leb_spec.
  replace (Prim2SF infinity) with (S754_infinity false) by reflexivity.
  unfold SFleb, SFcompare.
  destruct (Prim2SF x) as [[|]|[|]| |[|] m e]; simpl; try congruence; auto.
Qed.

Lemma ltb_inf x y : (x <? y) = true -> (x <? Py.inf) = true.
Proof.
  intros H. eapply ltb_leb_trans; [exact H|].
  apply leb_inf. apply ltb_leb in H. now apply leb_refl_r in H.
Qed.

Lemma SFleb_ne_ltb a b :
  SFleb a b = true -> SFeqb b a = false -> SFltb a b = true.
Proof. sf_order. Qed.

Lemma eqb_sym a b : (a =? b) = (b =? a).
Proof. rewrite !FloatAxioms.eqb_spec. apply SFeqb_sym. Qed.

Lemma leb_ne_ltb a b :
  (a <=? b) = true -> (b =? a) = false -> (a <? b) = true.
Proof.
  rewrite FloatAxioms.leb_spec, FloatAxioms.eqb_spec, FloatAxioms.ltb_spec.
  apply SFleb_ne_ltb.
Qed.

Lemma SFeqb_refl_leb a : SFeqb a a = SFleb a a.
Proof.
  unfold SFeqb, SFleb, SFcompare.
  destruct a as [[|]|[|]| |[|] m e]; try reflexivity;
    rewrite Z.compare_refl, ?Pos.compare_cont_refl; reflexivity.
Qed.

Lemma eqb_number a : (a =? a) = true <-> (a <=? a) = true.
Proof.
  rewrite FloatAxioms.eqb_spec, FloatAxioms.leb_spec, SFeqb_refl_leb.
  reflexivity.
Qed.

End FloatFacts.

(** ** Python's [max] and [min] *)

Module PyFacts.
Import FloatFacts.
Local Open Scope float_scope.

(** [max(0, x)] is never below zero, whatever [x] is (a NaN included). *)
Lemma max_zero_nonneg x : (0 <=? Py.max 0 x) = true.
Proof.
  unfold Py.max. destruct (0 <? x) eqn:H.
  - now apply ltb_leb.
  - reflexivity.
Qed.

(** [min(x, 1.0)] of a non-negative [x] lies between 0 and 1. *)
Lemma min_one_unit x :
  (0 <=? x) = true ->
  (0 <=? Py.min x 1) = true /\ (Py.min x 1 <=? 1) = true.
Proof.
  intros Hx. unfold Py.min. destruct (1 <? x) eqn:H.
  - split; reflexivity.
  - split; [exact Hx|].
    apply leb_total; [now apply leb_refl_r with 0|reflexivity|exact H].
Qed.

End PyFacts.

(** ** Prefix matching *)

Module ReFacts.
Import Re.

Lemma prefix_match_nil bos r :
  prefix_match bos r EmptyString = nullable bos true r.
Proof. simpl. apply orb_false_r. Qed.

Lemma prefix_match_cons bos r c s :
  prefix_match bos r (String c s)
  = nullable bos (at_eos (String c s)) r
    || prefix_match false (deriv bos (at_eos (String c s)) c r) s.
Proof. reflexivity. Qed.

Lemma prefix_match_void s : forall bos, prefix_match bos Void s = false.
Proof.
  induction s as [|c s IH]; intros bos.
  - reflexivity.
  - rewrite prefix_match_cons. cbn [nullable deriv]. apply IH.
Qed.

Lemma prefix_match_alt s : forall bos r1 r2,
  prefix_match bos (Alt r1 r2) s
  = prefix_match bos r1 s || prefix_match bos r2 s.
Proof.
  induction s as [|c s IH]; intros bos r1 r2.
  - rewrite !prefix_match_nil. reflexivity.
  - rewrite !prefix_match_cons. cbn [nullable deriv]. rewrite IH.
    generalize (at_eos (String c s)); intros e.
    destruct (nullable bos e r1), (nullable bos e r2),
             (prefix_match false (deriv bos e c r1) s);
      reflexivity.
Qed.

(** A text of which [r1 r2] matches a prefix has a prefix matched by
    [r1]. *)
Lemma prefix_match_cat s : forall bos r1 r2,
  prefix_match bos (Cat r1 r2) s = true -> prefix_match bos r1 s = true.
Proof.
  induction s as [|c s IH]; intros bos r1 r2.
  - rewrite !prefix_match_nil. cbn [nullable].
    now intros [H _]%andb_true_iff.
  - rewrite !prefix_match_cons. cbn [nullable deriv].
    generalize (at_eos (String c s)); intros e H.
    apply orb_true_iff in H as [H|H].
    + apply andb_true_iff in H as [H _]. now rewrite H.
    + rewrite prefix_match_alt in H. apply orb_true_iff in H as [H|H].
      * apply IH in H. rewrite H. apply orb_true_r.
      * destruct (nullable bos e r1); [reflexivity|].
        now rewrite prefix_match_void in H.
Qed.

Lemma num_dot_num_num_dot s :
  re_match num_dot_num s = true -> re_match num_dot s = true.
Proof. apply prefix_match_cat. Qed.

Lemma num3_num_dot s : re_match num3 s = true -> re_match num_dot s = true.
Proof. intros H. apply num_dot_num_num_dot. revert H. apply prefix_match_cat. Qed.

End ReFacts.

(** ** The element property analyzer *)

Local Open Scope float_scope.

(** The text-pattern bonus takes one of four values. *)
Lemma text_pattern_values (text : string) :
  let s := TextAnalyzer._analyze_text_patterns text in
  s = 0 \/ s = 1 \/ s = 1.5 \/ s = 2.5.
Proof.
  unfold TextAnalyzer._analyze_text_patterns.
  destruct (existsb _ TextAnalyzer.heading_patterns);
    destruct (Re.re_match Re.num_dot text) eqn:H1; simpl; auto.
  - destruct (Re.re_match Re.num_dot_num text) eqn:H2.
    { apply ReFacts.num_dot_num_num_dot in H2. congruence. }
    destruct (Re.re_match Re.num3 text) eqn:H3.
    { apply ReFacts.num3_num_dot in H3. congruence. }
    auto.
  - destruct (Re.re_match Re.num_dot_num text) eqn:H2.
    { apply ReFacts.num_dot_num_num_dot in H2. congruence. }
    destruct (Re.re_match Re.num3 text) eqn:H3.
    { apply ReFacts.num3_num_dot in H3. congruence. }
    auto.
Qed.

(** C5, as stated, fails: the numbered title ["1. Introduction"] earns 1.5
    for the first heading pattern and 1.0 more for its numbering prefix,
    2.5 in all, which is above 1.5. *)
Lemma C5_pattern_bonus_above_1_5 :
  TextAnalyzer._analyze_text_patterns "1. Introduction" = 2.5
  /\ (TextAnalyzer._analyze_text_patterns "1. Introduction" <=? 1.5) = false.
Proof. split; vm_compute; reflexivity. Qed.

(** C5, amended: for every text the text-pattern bonus is 0, 1.0, 1.5 or
    2.5, so it lies in the interval [0, 2.5]. *)
Theorem C5_pattern_bonus_range (text : string) :
  (0 <=? TextAnalyzer._analyze_text_patterns text) = true
  /\ (TextAnalyzer._analyze_text_patterns text <=? 2.5) = true.
Proof.
  destruct (text_pattern_values text) as [H|[H|[H|H]]];
    cbv zeta in H; rewrite H; split; reflexivity.
Qed.

(** C8: for every element and every triple of font statistics the
    heading score is at least zero; the floor is Python's [max(0, score)],
    which also absorbs a NaN score. *)
Theorem C8_heading_score_nonneg
    (element : element) (avg_font median_font font_std : float) :
  (0 <=? heading_score (TextAnalyzer._analyze_single_element
                          element avg_font median_font font_std)) = true.
Proof.
  unfold TextAnalyzer._analyze_single_element. cbn [heading_score].
  apply PyFacts.max_zero_nonneg.
Qed.


Module ListFacts.

Lemma in_enumerate_from {A} (l : list A) : forall k i x,
  In (i, x) (enumerate_from k l)
  <-> (k <= i)%nat /\ nth_error l (i - k) = Some x.
Proof.
  induction l as [|y l IH]; intros k i x; simpl.
  - split; [tauto|]. intros [_ H]. destruct (i - k)%nat; discriminate.
  - rewrite IH. split.
    + intros [H|[H1 H2]].
      * inversion H; subst. split; [lia|]. now rewrite Nat.sub_diag.
      * split; [lia|]. replace (i - k)%nat with (S (i - S k)) by lia. exact H2.
    + intros [H1 H2]. destruct (Nat.eq_dec i k) as [->|Hne].
      * left. rewrite Nat.sub_diag in H2. simpl in H2. congruence.
      * right. split; [lia|].
        replace (i - k)%nat with (S (i - S k)) in H2 by lia. exact H2.
Qed.

Lemma nth_error_firstn {A} (l : list A) : forall n i,
  nth_error (firstn n l) i
  = if (i <? n)%nat then nth_error l i else None.
Proof.
  induction l as [|y l IH]; intros n i.
  - rewrite firstn_nil. destruct i, (_ <? _)%nat; reflexivity.
  - destruct n, i; simpl; try reflexivity.
    rewrite IH. reflexivity.
Qed.

Lemma insert_sorted_perm {A} (before : A -> A -> bool) x l :
  Permutation (insert_sorted before x l) (x :: l).
Proof.
  induction l as [|y l IH]; simpl; [apply Permutation_refl|].
  destruct (before y x); [|apply Permutation_refl].
  eapply perm_trans; [apply perm_skip, IH|apply perm_swap].
Qed.

Lemma stable_sort_perm {A} (before : A -> A -> bool) (l : list A) :
  Permutation (stable_sort before l) l.
Proof.
  induction l as [|x l IH]; simpl; [constructor|].
  eapply perm_trans; [apply insert_sorted_perm|now apply perm_skip].
Qed.

Lemma in_stable_sort {A} (before : A -> A -> bool) (l : list A) x :
  In x (stable_sort before l) <-> In x l.
Proof.
  split; apply Permutation_in;
    [apply stable_sort_perm|apply Permutation_sym, stable_sort_perm].
Qed.

Lemma perm_concat {A} (l l' : list (list A)) :
  Permutation l l' -> Permutation (List.concat l) (List.concat l').
Proof.
  induction 1; simpl.
  - constructor.
  - now apply Permutation_app_head.
  - rewrite !app_assoc. apply Permutation_app_tail, Permutation_app_comm.
  - eapply perm_trans; eassumption.
Qed.

Lemma perm_filter {A} (f : A -> bool) (l l' : list A) :
  Permutation l l' -> Permutation (filter f l) (filter f l').
Proof.
  induction 1; simpl.
  - constructor.
  - destruct (f x); [now constructor|assumption].
  - destruct (f x), (f y); try apply Permutation_refl. apply perm_swap.
  - eapply perm_trans; eassumption.
Qed.

Lemma fold_left_concat {A B} (f : B -> A -> B) (ls : list (list A)) : forall b,
  fold_left (fun acc l => fold_left f l acc) ls b = fold_left f (List.concat ls) b.
Proof.
  induction ls as [|l ls IH]; intros b; simpl; [reflexivity|].
  now rewrite IH, fold_left_app.
Qed.

End ListFacts.

Module SortFacts.
Import FloatFacts.
Local Open Scope float_scope.

(** The stable sort orders its input for [R] when [before] decides the
    strict part of [R] on the values [P] holds of. *)
Section Ordered.
Variable A : Type.
Variable before : A -> A -> bool.
Variable R : A -> A -> Prop.
Variable P : A -> Prop.
Hypothesis before_R : forall x y, before y x = true -> R y x.
Hypothesis not_before_R : forall x y, P x -> P y -> before y x = false -> R x y.
Hypothesis R_trans : forall x y z, R x y -> R y z -> R x z.

Lemma forall_insert_sorted (Q : A -> Prop) x l :
  Q x -> Forall Q l -> Forall Q (insert_sorted before x l).
Proof.
  intros Hx Hl. apply Forall_forall. intros z Hz.
  apply (Permutation_in _ (ListFacts.insert_sorted_perm before x l)) in Hz.
  destruct Hz as [<-|Hz]; [assumption|].
  rewrite Forall_forall in Hl. auto.
Qed.

Lemma forall_stable_sort (Q : A -> Prop) l :
  Forall Q l -> Forall Q (stable_sort before l).
Proof.
  intros H. apply Forall_forall. intros z Hz.
  apply ListFacts.in_stable_sort in Hz. rewrite Forall_forall in H. auto.
Qed.

Lemma insert_sorted_ordered x l :
  P x -> Forall P l -> StronglySorted R l ->
  StronglySorted R (insert_sorted before x l).
Proof.
  intros Hx Hl Hs. induction l as [|y l IH]; simpl.
  - repeat constructor.
  - inversion Hl as [|? ? Hy Hl']; subst.
    inversion Hs as [|? ? Hs' Hall]; subst.
    destruct (before y x) eqn:Hb.
    + constructor; [now apply IH|].
      apply forall_insert_sorted; [now apply before_R|exact Hall].
    + assert (Hxy : R x y) by now apply not_before_R.
      constructor; [assumption|].
      constructor; [exact Hxy|].
      eapply Forall_impl; [|exact Hall]. intros z Hz. cbv beta in Hz.
      eapply R_trans; eassumption.
Qed.

Lemma stable_sort_ordered l :
  Forall P l -> StronglySorted R (stable_sort before l).
Proof.
  induction l as [|x l IH]; simpl; intros H; [constructor|].
  inversion H; subst. apply insert_sorted_ordered; auto.
  now apply forall_stable_sort.
Qed.

End Ordered.

(** [sort(key=key, reverse=True)] sorts downwards when no key is a NaN. *)
Lemma stable_sort_desc {A} (key : A -> float) l :
  Forall (is_number key) l ->
  StronglySorted (ge_key key) (stable_sort (before_desc key) l).
Proof.
  apply stable_sort_ordered; unfold before_desc, ge_key, is_number.
  - intros x y. apply ltb_leb.
  - intros x y Hx Hy Hb. now apply leb_total.
  - intros x y z Hxy Hyz. eapply leb_trans; eassumption.
Qed.

Lemma filter_sorted {A} (R : A -> A -> Prop) (f : A -> bool) l :
  StronglySorted R l -> StronglySorted R (filter f l).
Proof.
  induction 1 as [|x l Hs IH Hall]; simpl; [constructor|].
  destruct (f x); [|exact IH]. constructor; [exact IH|].
  apply Forall_forall. intros z Hz. apply filter_In in Hz as [Hz _].
  rewrite Forall_forall in Hall. auto.
Qed.

End SortFacts.

Module DetectorFacts.
Import HeadingDetector FloatFacts.
Local Open Scope float_scope.

Lemma key_eqb_eq (a b : key) : key_eqb a b = true <-> a = b.
Proof.
  destruct a as [s n], b as [s' n']; unfold key_eqb; simpl.
  rewrite andb_true_iff, String.eqb_eq, Nat.eqb_eq.
  split; [intros [-> ->]; reflexivity|intros H; inversion H; auto].
Qed.

Lemma key_eqb_refl (a : key) : key_eqb a a = true.
Proof. now apply key_eqb_eq. Qed.

Lemma key_eqb_sym (a b : key) : key_eqb a b = key_eqb b a.
Proof.
  destruct (key_eqb a b) eqn:H1, (key_eqb b a) eqn:H2; auto.
  - apply key_eqb_eq in H1; subst. now rewrite key_eqb_refl in H2.
  - apply key_eqb_eq in H2; subst. now rewrite key_eqb_refl in H1.
Qed.

Lemma lookup_add_heading k c h :
  lookup k (add_heading c h)
  = if key_eqb (key_of h) k
    then Some (match lookup k c with
               | Some e => merge_into e h
               | None => first_entry h
               end)
    else lookup k c.
Proof.
  induction c as [|[k' e] c IH]; simpl.
  - reflexivity.
  - destruct (key_eqb k' (key_of h)) eqn:Hk'; simpl.
    + apply key_eqb_eq in Hk'; subst k'.
      destruct (key_eqb (key_of h) k); reflexivity.
    + rewrite IH. destruct (key_eqb k' k) eqn:Hk.
      * apply key_eqb_eq in Hk; subst k'.
        rewrite key_eqb_sym, Hk'. reflexivity.
      * reflexivity.
Qed.

Lemma lookup_fold k hs : forall c,
  lookup k (fold_left add_heading hs c)
  = match lookup k c with
    | Some e => Some (fold_left merge_into (with_key k hs) e)
    | None => fuse (with_key k hs)
    end.
Proof.
  induction hs as [|h hs IH]; intros c; simpl.
  - destruct (lookup k c); reflexivity.
  - rewrite IH, lookup_add_heading.
    destruct (key_eqb (key_of h) k); simpl.
    + destruct (lookup k c); reflexivity.
    + destruct (lookup k c); reflexivity.
Qed.

Lemma keys_add_heading c h k :
  In k (map fst (add_heading c h)) <-> In k (map fst c) \/ k = key_of h.
Proof.
  induction c as [|[k' e] c IH]; simpl.
  - intuition.
  - destruct (key_eqb k' (key_of h)) eqn:Hk'; simpl.
    + apply key_eqb_eq in Hk'; subst. intuition.
    + rewrite IH. intuition.
Qed.

Lemma nodup_add_heading c h :
  NoDup (map fst c) -> NoDup (map fst (add_heading c h)).
Proof.
  induction c as [|[k' e] c IH]; simpl; intros Hnd.
  - constructor; [intros []|constructor].
  - destruct (key_eqb k' (key_of h)) eqn:Hk'; simpl; [exact Hnd|].
    inversion Hnd; subst. constructor; [|auto].
    rewrite keys_add_heading. intros [H|H]; [contradiction|].
    subst. now rewrite key_eqb_refl in Hk'.
Qed.

Lemma nodup_fold hs : forall c,
  NoDup (map fst c) -> NoDup (map fst (fold_left add_heading hs c)).
Proof.
  induction hs as [|h hs IH]; intros c H; simpl; auto.
  apply IH, nodup_add_heading, H.
Qed.

Lemma keys_fold hs : forall c k,
  In k (map fst (fold_left add_heading hs c))
  <-> In k (map fst c) \/ In k (map key_of hs).
Proof.
  induction hs as [|h hs IH]; intros c k; simpl.
  - intuition.
  - rewrite IH, keys_add_heading. intuition.
Qed.

Lemma lookup_in k c h : lookup k c = Some h -> In (k, h) c.
Proof.
  induction c as [|[k' e] c IH]; simpl; [discriminate|].
  destruct (key_eqb k' k) eqn:Hk.
  - apply key_eqb_eq in Hk. intros [= ->]. left. now subst.
  - intros H. right. auto.
Qed.

Lemma in_lookup k c h :
  NoDup (map fst c) -> In (k, h) c -> lookup k c = Some h.
Proof.
  induction c as [|[k' e] c IH]; simpl; intros Hnd; [intros []|].
  inversion Hnd; subst. intros [H|H].
  - inversion H; subst. now rewrite key_eqb_refl.
  - destruct (key_eqb k' k) eqn:Hk.
    + apply key_eqb_eq in Hk; subst. exfalso. apply H1.
      change k with (fst (k, h)). now apply in_map.
    + auto.
Qed.

Lemma key_of_merge es : forall e, key_of (fold_left merge_into es e) = key_of e.
Proof.
  induction es as [|x es IH]; intros e; simpl; [reflexivity|].
  now rewrite IH.
Qed.

Lemma with_key_nonempty k hs :
  with_key k hs <> [] <-> In k (map key_of hs).
Proof.
  unfold with_key. induction hs as [|h hs IH]; simpl.
  - intuition.
  - destruct (key_eqb (key_of h) k) eqn:Hk.
    + apply key_eqb_eq in Hk. split; [auto|discriminate].
    + rewrite IH. split; [auto|]. intros [H|H]; [|assumption].
      subst. now rewrite key_eqb_refl in Hk.
Qed.

Lemma fuse_key k hs h : fuse (with_key k hs) = Some h -> key_of h = k.
Proof.
  unfold fuse. destruct (with_key k hs) as [|x xs] eqn:E; [discriminate|].
  intros [= <-]. rewrite key_of_merge.
  assert (In x (with_key k hs)) as Hin by (rewrite E; now left).
  apply filter_In in Hin as [_ Hk]. now apply key_eqb_eq in Hk.
Qed.

(** The headings fusion returns are the fused runs of the candidates,
    one for each key that occurs. *)
Lemma in_combine l h :
  In h (_combine_strategies l)
  <-> fuse (with_key (key_of h) (List.concat l)) = Some h.
Proof.
  unfold _combine_strategies. rewrite ListFacts.fold_left_concat.
  set (C := fold_left add_heading (List.concat l) []).
  assert (Hnd : NoDup (map fst C)) by (apply nodup_fold; constructor).
  assert (Hl : forall k, lookup k C = fuse (with_key k (List.concat l)))
    by (intros k; unfold C; now rewrite lookup_fold).
  split.
  - intros Hin. apply in_map_iff in Hin as [[k e] [<- Hin]]. simpl.
    apply (in_lookup _ _ _ Hnd) in Hin. rewrite Hl in Hin.
    now rewrite (fuse_key _ _ _ Hin).
  - intros H. rewrite <- Hl in H. apply lookup_in in H.
    change h with (snd (key_of h, h)). now apply in_map.
Qed.

Lemma combine_keys l :
  map key_of (_combine_strategies l)
  = map fst (fold_left add_heading (List.concat l) []).
Proof.
  unfold _combine_strategies. rewrite ListFacts.fold_left_concat.
  set (C := fold_left add_heading (List.concat l) []).
  assert (Hnd : NoDup (map fst C)) by (apply nodup_fold; constructor).
  assert (Hl : forall k, lookup k C = fuse (with_key k (List.concat l)))
    by (intros k; unfold C; now rewrite lookup_fold).
  rewrite map_map. apply map_ext_in. intros [k e] Hin. simpl.
  apply (in_lookup _ _ _ Hnd) in Hin. rewrite Hl in Hin.
  now apply fuse_key in Hin.
Qed.

Lemma methods_merge xs : forall e ms,
  h_detection_methods e = Some ms ->
  h_detection_methods (fold_left merge_into xs e)
  = Some (ms ++ map h_detection_method xs).
Proof.
  induction xs as [|x xs IH]; intros e ms He; simpl.
  - now rewrite app_nil_r.
  - rewrite (IH _ (ms ++ [h_detection_method x])).
    + now rewrite <- app_assoc.
    + simpl. now rewrite He.
Qed.

Lemma confidence_merge xs : forall e,
  h_confidence (fold_left merge_into xs e)
  = fold_left (fun c _ => boost c) xs (h_confidence e).
Proof.
  induction xs as [|x xs IH]; intros e; simpl; [reflexivity|].
  now rewrite IH.
Qed.

Lemma font_level_merge xs : forall e,
  h_font_level (fold_left merge_into xs e) = h_font_level e.
Proof.
  induction xs as [|x xs IH]; intros e; simpl; [reflexivity|].
  now rewrite IH.
Qed.

Lemma in_font_clustering elements h :
  In h (_detect_by_font_clustering elements) <->
  exists i size e,
    (i < 4)%nat /\ nth_error (sorted_sizes elements) i = Some size
    /\ In e (group_candidates elements size)
    /\ (2 <= List.length (group_candidates elements size) <= 20)%nat
    /\ h = _create_heading_dict e ByFontCluster
             (0.7 - Py.of_nat i * 0.15) None (Some (i + 1)%nat).
Proof.
  unfold _detect_by_font_clustering.
  rewrite in_flat_map. split.
  - intros [[i size] [Hin Hh]].
    apply ListFacts.in_enumerate_from in Hin as [_ Hnth].
    rewrite Nat.sub_0_r, ListFacts.nth_error_firstn in Hnth.
    destruct (i <? 4)%nat eqn:Hi; [|discriminate].
    apply Nat.ltb_lt in Hi.
    unfold cluster_group in Hh. cbv zeta in Hh.
    destruct ((2 <=? _) && (_ <=? 20))%nat eqn:Hn; [|destruct Hh].
    apply andb_true_iff in Hn as [Hn1 Hn2].
    apply Nat.leb_le in Hn1, Hn2.
    apply in_map_iff in Hh as [e [He Hin]].
    exists i, size, e. repeat split; auto.
  - intros (i & size & e & Hi & Hnth & Hin & [Hn1 Hn2] & ->).
    exists (i, size). split.
    + apply ListFacts.in_enumerate_from. split; [lia|].
      rewrite Nat.sub_0_r, ListFacts.nth_error_firstn.
      apply Nat.ltb_lt in Hi. now rewrite Hi.
    + unfold cluster_group. cbv zeta.
      apply Nat.leb_le in Hn1, Hn2. rewrite Hn1, Hn2. simpl.
      apply in_map_iff. now exists e.
Qed.

Lemma score_method elements h :
  In h (_detect_by_score elements) -> h_detection_method h = ByScore.
Proof.
  unfold _detect_by_score. rewrite in_flat_map. intros [e [_ H]].
  destruct (Py.ge _ _); [|destruct H]. destruct H as [<-|[]]. reflexivity.
Qed.

Lemma pattern_method elements h :
  In h (_detect_by_patterns elements) -> h_detection_method h = ByPattern.
Proof.
  unfold _detect_by_patterns. rewrite in_flat_map. intros [e [_ H]].
  destruct (first_match _ _ _); [|destruct H]. destruct H as [<-|[]]. reflexivity.
Qed.

(** A detected heading is a fused heading with its level written. *)
Lemma in_detect_headings elements h :
  In h (detect_headings elements) ->
  exists h0,
    In h0 (_combine_strategies [_detect_by_score elements;
                                _detect_by_patterns elements;
                                _detect_by_font_clustering elements])
    /\ h_detection_methods h = h_detection_methods h0
    /\ h_font_level h = h_font_level h0
    /\ h_confidence h = h_confidence h0
    /\ key_of h = key_of h0.
Proof.
  unfold detect_headings. destruct elements as [|e0 els]; [intros []|].
  intros Hin. apply ListFacts.in_stable_sort in Hin.
  unfold _assign_hierarchy_levels in Hin.
  apply in_map_iff in Hin as [h0 [<- Hin]].
  exists h0. repeat split. exact Hin.
Qed.

Lemma differ_perm l l' :
  Permutation l l' -> ForallOrdPairs differ l -> ForallOrdPairs differ l'.
Proof.
  induction 1 as [|x l l' Hp IH|x y l|l l' l'' _ IH1 _ IH2]; intros H; auto.
  - inversion H as [|? ? Hx Hl]; subst. constructor; [|auto].
    eapply Permutation_Forall; eassumption.
  - inversion H as [|? ? Hy Hl]; subst.
    inversion Hl as [|? ? Hx Hl']; subst.
    inversion Hy as [|? ? Hyx Hy']; subst.
    constructor; [constructor; [|exact Hx]|constructor; assumption].
    unfold differ in *. now rewrite eqb_sym.
Qed.

Lemma differ_snoc seen x :
  ForallOrdPairs differ seen -> existsb (PrimFloat.eqb x) seen = false ->
  ForallOrdPairs differ (seen ++ [x]).
Proof.
  induction 1 as [|y seen Hy Hs IH]; simpl; intros Hx.
  - repeat constructor.
  - apply orb_false_iff in Hx as [Hxy Hx]. constructor; [|auto].
    apply Forall_app. split; [exact Hy|]. constructor; [|constructor].
    unfold differ. now rewrite eqb_sym.
Qed.

Lemma distinct_sizes_differ sizes : forall seen,
  ForallOrdPairs differ seen ->
  ForallOrdPairs differ (distinct_sizes seen sizes).
Proof.
  induction sizes as [|x sizes IH]; simpl; intros seen Hs; [exact Hs|].
  destruct (existsb (PrimFloat.eqb x) seen) eqn:E; [auto|].
  apply IH. now apply differ_snoc.
Qed.

Lemma in_distinct_sizes sizes : forall seen z,
  In z (distinct_sizes seen sizes) -> In z seen \/ In z sizes.
Proof.
  induction sizes as [|x sizes IH]; simpl; intros seen z Hz; [auto|].
  destruct (existsb (PrimFloat.eqb x) seen).
  - apply IH in Hz. tauto.
  - apply IH in Hz. rewrite in_app_iff in Hz. simpl in Hz. tauto.
Qed.

Lemma seen_distinct_sizes sizes : forall seen z,
  In z seen -> In z (distinct_sizes seen sizes).
Proof.
  induction sizes as [|x sizes IH]; simpl; intros seen z Hz; [auto|].
  destruct (existsb (PrimFloat.eqb x) seen); apply IH; auto.
  apply in_or_app. auto.
Qed.

Lemma distinct_sizes_covers sizes : forall seen x,
  In x sizes -> (x =? x) = true ->
  exists z, In z (distinct_sizes seen sizes) /\ (x =? z) = true.
Proof.
  induction sizes as [|y sizes IH]; simpl; intros seen x Hin Hn;
    [destruct Hin|]. destruct Hin as [<-|Hx].
  - destruct (existsb (PrimFloat.eqb y) seen) eqn:E.
    + apply existsb_exists in E as (z & Hz & Hyz). exists z.
      split; [now apply seen_distinct_sizes|exact Hyz].
    + exists y. split; [|exact Hn].
      apply seen_distinct_sizes, in_or_app. right. now left.
  - destruct (existsb (PrimFloat.eqb y) seen); now apply IH.
Qed.

Lemma strictly_sorted l :
  StronglySorted (fun a b => (b <=? a) = true) l ->
  ForallOrdPairs differ l ->
  StronglySorted (fun a b => (b <? a) = true) l.
Proof.
  induction 1 as [|x l Hs IH Hall]; intros Hd; [constructor|].
  inversion Hd as [|? ? Hx Hl]; subst. constructor; [auto|].
  rewrite Forall_forall in *. intros z Hz.
  apply leb_ne_ltb; [now apply Hall|now apply Hx].
Qed.

(** The sizes the font-clustering strategy ranks: each is the font size of
    an element, every numeric font size is among them up to [==], and they
    decrease strictly when no font size is a NaN. *)
Lemma sorted_sizes_spec elements :
  (forall size, In size (sorted_sizes elements) ->
                exists e, In e elements /\ font_size (elem e) = size)
  /\ (forall e, In e elements ->
                (font_size (elem e) =? font_size (elem e)) = true ->
                exists size, In size (sorted_sizes elements)
                             /\ (font_size (elem e) =? size) = true)
  /\ (Forall (fun e => (font_size (elem e) =? font_size (elem e)) = true)
             elements ->
      StronglySorted (fun a b => (b <? a) = true) (sorted_sizes elements)).
Proof.
  unfold sorted_sizes, sorted_desc. split; [|split].
  - intros size Hs. apply ListFacts.in_stable_sort in Hs.
    apply in_distinct_sizes in Hs as [[]|Hs].
    apply in_map_iff in Hs as (e & <- & He). eauto.
  - intros e He Hn.
    destruct (distinct_sizes_covers
                (map (fun e => font_size (elem e)) elements) []
                (font_size (elem e))) as (z & Hz & Hez); auto.
    { apply in_map_iff. eauto. }
    exists z. split; [|exact Hez]. now apply ListFacts.in_stable_sort.
  - intros Hn. apply strictly_sorted.
    + apply (SortFacts.stable_sort_desc (fun x : float => x)).
      apply Forall_forall. intros z Hz.
      apply in_distinct_sizes in Hz as [[]|Hz].
      apply in_map_iff in Hz as (e & <- & He).
      rewrite Forall_forall in Hn. unfold is_number.
      apply eqb_number. auto.
    + eapply differ_perm;
        [apply Permutation_sym, ListFacts.stable_sort_perm|].
      apply distinct_sizes_differ. constructor.
Qed.

End DetectorFacts.

(** ** The heading detector *)

Section DetectorClaims.
Import HeadingDetector DetectorFacts.
Local Open Scope float_scope.

(** C9, as stated, fails: the 24pt group of [two_large_spans] holds two
    elements, which is between 2 and 20, and yet it yields no candidate:
    the bare number "42" is dropped by the text filter before the count,
    and one candidate is left. *)
Lemma C9_two_spans_no_candidates :
  List.length (font_group Examples.two_large_spans 24) = 2%nat
  /\ _detect_by_font_clustering Examples.two_large_spans = [].
Proof. split; vm_compute; reflexivity. Qed.

(** C9, amended: the sizes the font-clustering strategy ranks are the
    distinct font sizes of the elements, and they decrease strictly along
    the ranks when no font size is a NaN.  The headings of the strategy are
    exactly these: for a rank [i < 4] and the size at that rank, one
    heading of confidence [0.7 - 0.15 i] for every element of that size
    that passes the text filter, provided between 2 and 20 elements of
    that size pass it. *)
Theorem C9_font_clustering (elements : list analyzed_element) :
  (forall size, In size (sorted_sizes elements) ->
                exists e, In e elements /\ font_size (elem e) = size)
  /\ (forall e, In e elements ->
                (font_size (elem e) =? font_size (elem e)) = true ->
                exists size, In size (sorted_sizes elements)
                             /\ (font_size (elem e) =? size) = true)
  /\ (Forall (fun e => (font_size (elem e) =? font_size (elem e)) = true)
             elements ->
      StronglySorted (fun a b => (b <? a) = true) (sorted_sizes elements))
  /\ (forall h,
        In h (_detect_by_font_clustering elements) <->
        exists i size e,
          (i < 4)%nat /\ nth_error (sorted_sizes elements) i = Some size
          /\ In e elements
          /\ (font_size (elem e) =? size) = true
          /\ cluster_candidate e = true
          /\ (2 <= List.length (group_candidates elements size) <= 20)%nat
          /\ h = _create_heading_dict e ByFontCluster
                   (0.7 - Py.of_nat i * 0.15) None (Some (i + 1)%nat)).
Proof.
  destruct (sorted_sizes_spec elements) as (Hfrom & Hcover & Hsorted).
  split; [exact Hfrom|]. split; [exact Hcover|]. split; [exact Hsorted|].
  intros h.
  rewrite in_font_clustering. unfold group_candidates at 1, font_group at 1.
  split; intros (i & size & e & Hi & Hn & H).
  - destruct H as (He & Hc & ->). apply filter_In in He as [He Hcand].
    apply filter_In in He as [He Hs]. exists i, size, e. tauto.
  - destruct H as (He & Hs & Hcand & Hc & ->). exists i, size, e.
    repeat split; try tauto. apply filter_In. split; [|assumption].
    apply filter_In. tauto.
Qed.

(** C10, as stated, fails: on the report page whose two 14pt rows carry the
    same text, the two font-clustering candidates of the fourth-largest
    size share a fusion key; the fused heading comes from font clustering
    alone, has confidence 0.25 + 0.2 = 0.45 and passes the filter. *)
Lemma C10_duplicate_rows_survive :
  exists h,
    In h (filter_false_positives (detect_headings (Examples.report_page Examples.sales_row)))
    /\ h_font_level h = Some 4%nat
    /\ h_detection_methods h = Some [ByFontCluster; ByFontCluster]
    /\ h_confidence h = 0.45.
Proof.
  eexists. split.
  - vm_compute. right; right; right; left. reflexivity.
  - vm_compute. repeat split.
Qed.

(** C10, amended: a detected heading that one single candidate contributed
    to, that candidate being a font-clustering candidate of the
    fourth-largest size, has confidence exactly 0.25; the filter rejects it
    and it is absent from the filtered list. *)
Theorem C10_lone_fourth_group_heading
    (elements : list analyzed_element) (h : heading) :
  In h (detect_headings elements) ->
  h_detection_methods h = Some [ByFontCluster] ->
  h_font_level h = Some 4%nat ->
  h_confidence h = 0.25
  /\ keeps h = false
  /\ ~ In h (filter_false_positives (detect_headings elements)).
Proof.
  intros Hin Hm Hf.
  assert (Hc : h_confidence h = 0.25).
  { apply in_detect_headings in Hin as (h0 & Hin & Hm0 & Hf0 & Hc0 & _).
    rewrite Hm0 in Hm. rewrite Hf0 in Hf. rewrite Hc0. clear Hm0 Hf0 Hc0.
    apply in_combine in Hin.
    remember (List.concat [_detect_by_score elements;
                           _detect_by_patterns elements;
                           _detect_by_font_clustering elements]) as cands
      eqn:Hcands.
    unfold fuse in Hin.
    destruct (with_key (key_of h0) cands) as [|x xs] eqn:E; [discriminate|].
    injection Hin as <-.
    rewrite (methods_merge xs _ [h_detection_method x]) in Hm by reflexivity.
    cbn [app map] in Hm. injection Hm as Hx Hxs.
    apply map_eq_nil in Hxs. subst xs. cbn [fold_left] in *.
    assert (Hxin : In x (with_key (key_of (first_entry x)) cands))
      by (rewrite E; now left).
    apply filter_In in Hxin as [Hxin _]. subst cands.
    cbn [List.concat] in Hxin. rewrite app_nil_r in Hxin.
    apply in_app_or in Hxin as [Hxin|Hxin];
      [apply score_method in Hxin; congruence|].
    apply in_app_or in Hxin as [Hxin|Hxin];
      [apply pattern_method in Hxin; congruence|].
    apply in_font_clustering in Hxin
      as (i & size & e & Hi & _ & _ & _ & ->).
    cbn [first_entry _create_heading_dict h_font_level h_confidence] in *.
    injection Hf as Hi4. assert (i = 3%nat) by lia. subst i.
    reflexivity. }
  assert (Hk : keeps h = false).
  { unfold keeps. rewrite Hc.
    destruct (_ <? 3)%nat; [reflexivity|].
    destruct (Re.re_match _ _); [reflexivity|].
    destruct (Py.any_in _ _); reflexivity. }
  repeat split; auto.
  unfold filter_false_positives. rewrite filter_In. intros [_ H]. congruence.
Qed.

(** The amended C10 at the sales row of the report page whose rows
    differ. *)
Lemma C10_lone_row_filtered :
  h_confidence Examples.lone_row = 0.25
  /\ keeps Examples.lone_row = false
  /\ ~ In Examples.lone_row (filter_false_positives
                      (detect_headings (Examples.report_page Examples.costs_row))).
Proof.
  apply (C10_lone_fourth_group_heading
           (Examples.report_page Examples.costs_row) Examples.lone_row).
  - apply nth_In. vm_compute. lia.
  - vm_compute. reflexivity.
  - vm_compute. reflexivity.
Defined.

(** C3, as stated, fails: for [numbered_line], fusing in the order score,
    pattern, font gives the one merged heading the confidence
    0.6 + 0.2 = 0.8, and in the order pattern, score, font the confidence
    min(0.9 + 0.2, 1.0) = 1.0. *)
Lemma C3_confidence_depends_on_order :
  let els := Examples.numbered_line in
  let s := _detect_by_score els in
  let p := _detect_by_patterns els in
  let f := _detect_by_font_clustering els in
  map h_confidence (_combine_strategies [s; p; f]) = [0.8]
  /\ map h_confidence (_combine_strategies [p; s; f]) = [1].
Proof. split; vm_compute; reflexivity. Qed.

(** C3, amended: permuting the strategy results leaves the set of merged
    keys unchanged, and for each key the contributing strategies are the
    same up to their order.  The confidence of a merged heading is that of
    the first candidate of its key in strategy order, boosted once for each
    later candidate of that key, so it depends on the order. *)
Theorem C3_fusion_order (l l' : list (list heading)) :
  Permutation l l' ->
  Permutation (map key_of (_combine_strategies l))
              (map key_of (_combine_strategies l'))
  /\ (forall h h',
        In h (_combine_strategies l) -> In h' (_combine_strategies l') ->
        key_of h = key_of h' ->
        exists ms ms',
          h_detection_methods h = Some ms
          /\ h_detection_methods h' = Some ms'
          /\ Permutation ms ms')
  /\ (forall h,
        In h (_combine_strategies l) ->
        exists x xs,
          with_key (key_of h) (List.concat l) = x :: xs
          /\ h_confidence h
             = fold_left (fun c _ => boost c) xs (h_confidence x)).
Proof.
  intros Hp.
  assert (Hc : Permutation (List.concat l) (List.concat l'))
    by now apply ListFacts.perm_concat.
  split; [|split].
  - rewrite !combine_keys.
    apply NoDup_Permutation; try (apply nodup_fold; constructor).
    intros k. rewrite !keys_fold. simpl.
    split; intros [[]|H]; right; revert H; apply Permutation_in;
      apply Permutation_map; auto using Permutation_sym.
  - intros h h' Hh Hh' Hk.
    apply in_combine in Hh, Hh'. rewrite <- Hk in Hh'.
    assert (Hw : Permutation (with_key (key_of h) (List.concat l))
                             (with_key (key_of h) (List.concat l')))
      by now apply ListFacts.perm_filter.
    unfold fuse in *.
    destruct (with_key (key_of h) (List.concat l)) as [|x xs]; [discriminate|].
    destruct (with_key (key_of h) (List.concat l')) as [|y ys]; [discriminate|].
    injection Hh as <-. injection Hh' as <-.
    exists (map h_detection_method (x :: xs)),
           (map h_detection_method (y :: ys)).
    repeat split.
    + now rewrite (methods_merge xs _ [h_detection_method x]).
    + now rewrite (methods_merge ys _ [h_detection_method y]).
    + now apply Permutation_map.
  - intros h Hh. apply in_combine in Hh. unfold fuse in Hh.
    destruct (with_key (key_of h) (List.concat l)) as [|x xs]; [discriminate|].
    injection Hh as <-. exists x, xs. split; [reflexivity|].
    now rewrite confidence_merge.
Qed.

(** The amended C3 at the two orders of the counterexample. *)
Lemma C3_fusion_order_numbered_line :
  let els := Examples.numbered_line in
  let s := _detect_by_score els in
  let p := _detect_by_patterns els in
  let f := _detect_by_font_clustering els in
  Permutation (map key_of (_combine_strategies [s; p; f]))
              (map key_of (_combine_strategies [p; s; f])).
Proof.
  intros els s p f.
  apply (C3_fusion_order [s; p; f] [p; s; f]).
  apply perm_swap.
Defined.

End DetectorClaims.



Module ExcFacts.

Lemma map_exc_ok {A B} (f : A -> exc B) (l : list A) : forall l',
  map_exc f l = Ok l' -> Forall2 (fun x y => f x = Ok y) l l'.
Proof.
  induction l as [|x l IH]; simpl; intros l' H.
  - injection H as <-. constructor.
  - destruct (f x) as [y|e] eqn:Hx; simpl in H; [|discriminate].
    destruct (map_exc f l) as [ys|e]; simpl in H; [|discriminate].
    injection H as <-. constructor; auto.
Qed.

Lemma map_exc_total {A B} (f : A -> exc B) (l : list A) :
  (forall x, In x l -> exists y, f x = Ok y) -> exists l', map_exc f l = Ok l'.
Proof.
  induction l as [|x l IH]; simpl; intros H; [now eexists|].
  destruct (H x) as [y Hy]; [now left|]. rewrite Hy. simpl.
  destruct IH as [l' Hl']; [intros z Hz; apply H; now right|].
  rewrite Hl'. simpl. now eexists.
Qed.

End ExcFacts.

Module RankerFacts.
Import SectionExtractor FloatFacts.
Local Open Scope float_scope.

Lemma add_const_nonneg (c : bool) (b k : float) :
  (0 <=? b) = true -> (0 <=? k) = true ->
  (0 <=? (if c then b + k else b)) = true.
Proof. intros Hb Hk. destruct c; [now apply add_nonneg|exact Hb]. Qed.

Lemma structural_bonus_nonneg s : (0 <=? structural_bonus s) = true.
Proof.
  unfold structural_bonus. cbv zeta.
  apply add_const_nonneg; [|reflexivity].
  destruct (_ <=? 2)%nat; [apply add_nonneg; [|reflexivity]|
    destruct (_ =? 3)%nat; [apply add_nonneg; [|reflexivity]|]];
  (destruct (_ && _)%nat; [reflexivity|destruct (_ <? _)%nat; reflexivity]).
Qed.

(** The final score of a section that passed the relevance filter. *)
Lemma final_score_unit s persona job f :
  Py.ge (RelevanceAnalyzer.relevance_of s) min_relevance_score = true ->
  _calculate_final_score s persona job = Ok f ->
  (0 <=? f) = true /\ (f <=? 1) = true.
Proof.
  unfold Py.ge, _calculate_final_score. intros Hrel H.
  destruct (_has_persona_specific_content s persona) as [p|]; [|discriminate].
  destruct (_has_job_specific_content s job) as [j|]; [|discriminate].
  simpl in H. injection H as <-.
  apply PyFacts.min_one_unit. apply add_nonneg.
  - eapply leb_trans; [|exact Hrel]. reflexivity.
  - apply add_const_nonneg; [|reflexivity].
    apply add_const_nonneg; [|reflexivity].
    apply structural_bonus_nonneg.
Qed.

Lemma emit_from l : forall n m,
  m = (6 - n)%nat ->
  flat_map (fun '(i, s) => if (i <=? 5)%nat then [record_of i s] else [])
           (enumerate_from n l)
  = map (fun '(i, s) => record_of i s)
        (enumerate_from n (firstn m l)).
Proof.
  induction l as [|x l IH]; intros n m Hm.
  - now rewrite firstn_nil.
  - cbn [enumerate_from flat_map].
    destruct (n <=? 5)%nat eqn:Hn.
    + apply Nat.leb_le in Hn. destruct m as [|m]; [lia|].
      cbn [firstn enumerate_from map app].
      f_equal. apply IH. lia.
    + apply Nat.leb_gt in Hn. destruct m as [|m]; [|lia].
      cbn [firstn enumerate_from map app].
      rewrite (IH (S n) 0%nat) by lia. now rewrite firstn_O.
Qed.

Lemma emit_top l :
  emit l = map (fun '(i, s) => record_of i s)
               (enumerate_from 1 (firstn 5 l)).
Proof. unfold emit. now apply (emit_from l 1 5). Qed.

Lemma enumerate_combine {A} (l : list A) : forall n,
  enumerate_from n l = combine (seq n (List.length l)) l.
Proof.
  induction l as [|x l IH]; intros n; simpl; [reflexivity|].
  now rewrite IH.
Qed.

Lemma ranks_enumerate l : forall n,
  map es_importance_rank
      (map (fun '(i, s) => record_of i s) (enumerate_from n l))
  = seq n (List.length l).
Proof.
  induction l as [|x l IH]; intros n; simpl; [reflexivity|].
  now rewrite IH.
Qed.

End RankerFacts.

(** ** The section ranker *)

Section RankerClaims.
Import SectionExtractor RankerFacts.
Local Open Scope float_scope.

(** X1: the ranker returns for every dict-wrapped persona and job. *)
Lemma extract_sections_total documents_data relevant_sections d1 d2 :
  exists out,
    extract_sections documents_data relevant_sections (PyDict d1) (PyDict d2)
    = Ok out.
Proof.
  unfold extract_sections, ranked_sections, bind.
  destruct (ExcFacts.map_exc_total
              (fun s => match _calculate_final_score s (PyDict d1) (PyDict d2)
                        with
                        | Ok f => Ok (with_final s f)
                        | Raise e => Raise e
                        end)
              (filter (fun s => Py.ge (RelevanceAnalyzer.relevance_of s)
                                      min_relevance_score)
                      relevant_sections)) as [l' Hl'].
  - intros s _. unfold _calculate_final_score. simpl. now eexists.
  - rewrite Hl'. now eexists.
Qed.


(** C4: whenever the ranker returns, the sections it ranked are the
    relevance-scored sections that pass the 0.2 filter, each with its final
    score; every final score lies in [0, 1]; they are in descending order
    of final score; and the output holds the first [k = min(5, n)] of them,
    the i-th one stamped with rank [i], so the ranks are 1..k with k <= 5
    and go to the k highest final scores. *)
Theorem C4_ranker_invariants
    (documents_data : list doc_data) (relevant_sections : list section)
    (persona job_to_be_done : pyvalue) (out : list extracted_section) :
  extract_sections documents_data relevant_sections persona job_to_be_done
  = Ok out ->
  exists ranked : list section,
    ranked_sections relevant_sections persona job_to_be_done = Ok ranked
    /\ (exists scored,
          Forall2 (fun s s' =>
                     exists f, _calculate_final_score s persona job_to_be_done
                               = Ok f /\ s' = with_final s f)
                  (filter (fun s => Py.ge (RelevanceAnalyzer.relevance_of s)
                                          min_relevance_score)
                          relevant_sections)
                  scored
          /\ Permutation ranked scored)
    /\ Forall (fun s => (0 <=? final_of s) = true
                        /\ (final_of s <=? 1) = true) ranked
    /\ StronglySorted (ge_key final_of) ranked
    /\ (List.length out <= 5)%nat
    /\ List.length out = Nat.min 5 (List.length ranked)
    /\ map es_importance_rank out = seq 1 (List.length out)
    /\ out = map (fun '(i, s) => record_of i s)
                 (combine (seq 1 (List.length out))
                          (firstn (List.length out) ranked)).
Proof.
  unfold extract_sections, bind. intros H.
  destruct (ranked_sections relevant_sections persona job_to_be_done)
    as [ranked|] eqn:Hr; [|discriminate].
  assert (out = emit (firstn max_sections ranked)) by congruence.
  subst out. clear H.
  exists ranked. split; [reflexivity|].
  unfold ranked_sections, bind in Hr.
  set (filtered := filter _ relevant_sections) in *.
  destruct (map_exc _ filtered) as [scored|] eqn:Hs; [|discriminate].
  assert (ranked = stable_sort (before_desc final_of) scored) by congruence.
  subst ranked. clear Hr.
  apply ExcFacts.map_exc_ok in Hs.
  assert (Hs' : Forall2 (fun s s' =>
                     exists f, _calculate_final_score s persona job_to_be_done
                               = Ok f /\ s' = with_final s f) filtered scored).
  { eapply Forall2_impl; [|exact Hs]. intros s s' Hss. cbv beta in Hss.
    destruct (_calculate_final_score s persona job_to_be_done) as [f|];
      [|discriminate].
    simpl in Hss. injection Hss as <-. now exists f. }
  assert (Hunit : Forall (fun s => (0 <=? final_of s) = true
                                   /\ (final_of s <=? 1) = true) scored).
  { assert (Hf : Forall (fun s => Py.ge (RelevanceAnalyzer.relevance_of s)
                                        min_relevance_score = true) filtered)
      by (apply Forall_forall; intros s Hin; now apply filter_In in Hin).
    clear Hs. induction Hs' as [|s s' l l' (f & Hf1 & ->) _ IH];
      [constructor|].
    inversion Hf; subst. constructor; [|auto].
    cbn [final_of with_final final_score].
    eapply final_score_unit; eassumption. }
  split; [|split; [|split]].
  - exists scored. split; [exact Hs'|]. apply ListFacts.stable_sort_perm.
  - now apply SortFacts.forall_stable_sort.
  - apply SortFacts.stable_sort_desc.
    eapply Forall_impl; [|exact Hunit]. intros s [H0 _].
    unfold is_number. now apply FloatFacts.leb_refl_r with 0.
  - set (ranked := stable_sort _ scored).
    rewrite emit_top, firstn_firstn.
    change (Nat.min 5 max_sections) with 5%nat.
    rewrite length_map, enumerate_combine.
    rewrite length_combine, length_seq, Nat.min_id, length_firstn.
    assert (Hfirst : firstn (Nat.min 5 (List.length ranked)) ranked
                     = firstn 5 ranked).
    { destruct (Nat.le_ge_cases 5 (List.length ranked)) as [Hle|Hge].
      - now rewrite Nat.min_l.
      - rewrite Nat.min_r by exact Hge.
        now rewrite firstn_all, firstn_all2. }
    assert (Hlen : Nat.min 5 (List.length ranked)
                   = List.length (firstn 5 ranked))
      by now rewrite length_firstn.
    split; [lia|]. split; [reflexivity|]. split.
    + rewrite Hlen, <- enumerate_combine. apply ranks_enumerate.
    + now rewrite Hfirst.
Qed.

(** C4 at the seven sample sections: five records, ranked 1 to 5. *)
Lemma C4_ranked_sample :
  map es_importance_rank Examples.ranked_sample = [1; 2; 3; 4; 5]%nat
  /\ map es_section_title Examples.ranked_sample
     = ["Introduction"; "Results"; "Discussion"; "Methods"; "1 Data"].
Proof.
  destruct (C4_ranker_invariants [] Examples.scored_sections
              Examples.researcher Examples.literature_review
              Examples.ranked_sample)
    as (ranked & _ & _ & _ & _ & _ & _ & Hranks & _).
  - vm_compute. reflexivity.
  - split; [rewrite Hranks|]; vm_compute; reflexivity.
Defined.

End RankerClaims.

(** ** The section segmenter *)


Module StrFacts.
Import RelevanceAnalyzer.

Lemma lstrip_head s :
  Py.lstrip s = EmptyString
  \/ exists c r, Py.lstrip s = String c r /\ Py.is_space c = false.
Proof.
  induction s as [|c s IH]; simpl; [now left|].
  destruct (Py.is_space c) eqn:Hc; [exact IH|].
  right. now exists c, s.
Qed.

Lemma rstrip_head c s :
  Py.is_space c = false -> exists r, Py.rstrip (String c s) = String c r.
Proof.
  intros Hc. simpl. destruct (Py.rstrip s); rewrite ?Hc; eauto.
Qed.

(** A stripped text is empty or starts with a character that is no blank. *)
Lemma strip_head s :
  Py.strip s = EmptyString
  \/ exists c r, Py.strip s = String c r /\ Py.is_space c = false.
Proof.
  unfold Py.strip. destruct (lstrip_head s) as [->|(c & r & -> & Hc)].
  - now left.
  - right. destruct (rstrip_head c r Hc) as [r' ->]. now exists c, r'.
Qed.

Lemma strip_nonblank_head c s :
  Py.is_space c = false -> Py.strip (String c s) <> EmptyString.
Proof.
  intros Hc. unfold Py.strip. simpl. rewrite Hc.
  destruct (rstrip_head c s Hc) as [r ->]. discriminate.
Qed.

Lemma join_head t ts :
  starts_nonblank t -> starts_nonblank (Py.join " " (t :: ts)).
Proof.
  intros (c & r & -> & Hc). destruct ts as [|t' ts]; simpl.
  - now exists c, r.
  - eexists c, _. split; [reflexivity|exact Hc].
Qed.

Lemma append_assoc (a b c : string) :
  ((a ++ b) ++ c = a ++ (b ++ c))%string.
Proof. induction a as [|x a IH]; simpl; [reflexivity|now rewrite IH]. Qed.

Lemma join_app (a b : list string) :
  a <> [] -> b <> [] ->
  Py.join " " (a ++ b) = (Py.join " " a ++ " " ++ Py.join " " b)%string.
Proof.
  intros Ha Hb. induction a as [|x a IH]; [congruence|].
  destruct a as [|y a].
  - simpl. destruct b; [congruence|reflexivity].
  - change (Py.join " " ((x :: y :: a) ++ b))
      with (x ++ " " ++ Py.join " " ((y :: a) ++ b))%string.
    rewrite IH by discriminate.
    change (Py.join " " (x :: y :: a))
      with (x ++ " " ++ Py.join " " (y :: a))%string.
    rewrite !append_assoc. reflexivity.
Qed.

End StrFacts.

Module SegmentFacts.
Import HeadingDetector DetectorFacts RelevanceAnalyzer StrFacts FloatFacts.
Local Open Scope float_scope.

(** The texts a page contributes are the texts of the elements kept. *)
Lemma texts_of_span (keep : element -> bool) pi es : forall k,
  nonblank_texts (filter keep es)
  = map located_text
        (locate pi (filter (fun '(_, e) => keep e && nonblank e)
                           (enumerate_from k es))).
Proof.
  unfold nonblank_texts, locate.
  induction es as [|e es IH]; intros k; simpl; [reflexivity|].
  destruct (keep e) eqn:Hk; simpl.
  - unfold nonblank at 1. destruct (String.eqb (Py.strip (text e)) "") eqn:He;
      simpl; rewrite (IH (S k)); reflexivity.
  - apply IH.
Qed.

Lemma page_text_for_section pi pd lo hi :
  _extract_page_text_for_section pd lo hi
  = Py.join " " (map located_text (page_span pi pd lo hi)).
Proof.
  unfold _extract_page_text_for_section, page_span.
  now rewrite (texts_of_span (in_y_range lo hi) pi _ 0).
Qed.

Lemma filter_true {A} (l : list A) : filter (fun _ => true) l = l.
Proof. induction l as [|x l IH]; simpl; [reflexivity|now rewrite IH]. Qed.

Lemma page_text pi pd :
  _extract_page_text pd
  = Py.join " " (map located_text (whole_page_span pi pd)).
Proof.
  unfold _extract_page_text, whole_page_span.
  rewrite <- (filter_true (elements pd)) at 1.
  now rewrite (texts_of_span (fun _ => true) pi _ 0).
Qed.

(** Every text of a span starts with a character that is no blank. *)
Lemma span_text_head x pi pd (keep : element -> bool) k :
  In x (locate pi (filter (fun '(_, e) => keep e && nonblank e)
                          (enumerate_from k (elements pd)))) ->
  starts_nonblank (located_text x).
Proof.
  unfold locate. intros H. apply in_map_iff in H as [[ei e] [<- H]].
  apply filter_In in H as [_ H]. apply andb_true_iff in H as [_ H].
  unfold located_text, nonblank in *. simpl.
  destruct (strip_head (text e)) as [E|E]; [|exact E].
  rewrite E in H. discriminate.
Qed.

Lemma joined_blank_iff (ts : list string) :
  Forall starts_nonblank ts ->
  (String.eqb (Py.strip (Py.join " " ts)) "" = true <-> ts = []).
Proof.
  intros H. split.
  - destruct ts as [|t ts]; [reflexivity|]. intros E.
    inversion H; subst.
    destruct (join_head t ts H2) as (c & r & Hj & Hc).
    rewrite Hj in E. apply String.eqb_eq in E.
    now apply strip_nonblank_head in E.
  - intros ->. reflexivity.
Qed.

Lemma page_span_heads pi pd lo hi :
  Forall starts_nonblank (map located_text (page_span pi pd lo hi)).
Proof.
  apply Forall_forall. intros t Ht. apply in_map_iff in Ht as [x [<- Hx]].
  unfold page_span in Hx.
  now apply (span_text_head x pi pd (in_y_range lo hi) 0).
Qed.

(** The parts the page loop collects join to the texts of the span. *)
Lemma content_parts_span sp sy next pages : forall pi,
  Py.join " " (content_parts sp sy next pages)
  = Py.join " " (map located_text (span_parts pi sp sy next pages))
  /\ (content_parts sp sy next pages = []
      <-> span_parts pi sp sy next pages = []).
Proof.
  induction pages as [|pd pages IH]; intros pi;
    cbn [content_parts span_parts]; cbv zeta.
  - split; [reflexivity|tauto].
  - destruct (_ <? sp)%nat; [apply IH|].
    destruct (match next with Some n => _ | None => false end);
      [split; [reflexivity|tauto]|].
    destruct (window sp sy next (page_number pd)) as [lo hi].
    rewrite (page_text_for_section pi pd lo hi).
    destruct (IH (S pi)) as [IHj IHe].
    pose proof (page_span_heads pi pd lo hi) as Hh.
    pose proof (joined_blank_iff _ Hh) as Hb.
    destruct (page_span pi pd lo hi) as [|x xs] eqn:Ex.
    + simpl. split; [exact IHj|exact IHe].
    + assert (Eb : String.eqb
                     (Py.strip (Py.join " " (map located_text (x :: xs)))) ""
                   = false)
        by (apply not_true_is_false; intros Eb; apply Hb in Eb;
            discriminate).
      rewrite Eb. clear Hb Eb.
      split; [|split; discriminate].
      rewrite map_app.
      destruct (content_parts sp sy next pages) as [|p ps] eqn:Ep.
      * assert (Es : span_parts (S pi) sp sy next pages = [])
          by now apply IHe.
        rewrite Es. simpl. now rewrite app_nil_r.
      * destruct (span_parts (S pi) sp sy next pages) as [|y ys] eqn:Es;
          [assert (p :: ps = []) by (now apply IHe); discriminate|].
        rewrite (join_app (map located_text (x :: xs))) by discriminate.
        rewrite (join_app [Py.join " " (map located_text (x :: xs))])
          by discriminate.
        cbn [Py.join] in IHj |- *. now rewrite IHj.
Qed.

(** The content of a section is the text of its span, joined by blanks. *)
Lemma section_content_span h rest pages :
  _extract_section_content h rest pages
  = Py.join " " (map located_text (section_span h rest pages)).
Proof.
  unfold _extract_section_content, section_span.
  apply content_parts_span.
Qed.

Lemma in_locate pi (f : nat * element -> bool) es x : forall k,
  In x (locate pi (filter f (enumerate_from k es)))
  <-> fst (place x) = pi
      /\ (k <= snd (place x))%nat
      /\ nth_error es (snd (place x) - k) = Some (snd x)
      /\ f (snd (place x), snd x) = true.
Proof.
  intros k. unfold locate. rewrite in_map_iff. split.
  - intros [[ei e] [<- H]]. apply filter_In in H as [H Hf].
    apply ListFacts.in_enumerate_from in H as [Hk Hn]. simpl. auto.
  - destruct x as [[pi' ei] e]. simpl. intros (-> & Hk & Hn & Hf).
    exists (ei, e). split; [reflexivity|]. apply filter_In. split; [|exact Hf].
    now apply ListFacts.in_enumerate_from.
Qed.

Lemma in_page_span pi pd lo hi x :
  In x (page_span pi pd lo hi)
  <-> fst (place x) = pi
      /\ nth_error (elements pd) (snd (place x)) = Some (snd x)
      /\ in_y_range lo hi (snd x) = true
      /\ nonblank (snd x) = true.
Proof.
  unfold page_span. rewrite in_locate, Nat.sub_0_r, andb_true_iff.
  intuition lia.
Qed.

Lemma in_whole_page_span pi pd x :
  In x (whole_page_span pi pd)
  <-> fst (place x) = pi
      /\ nth_error (elements pd) (snd (place x)) = Some (snd x)
      /\ nonblank (snd x) = true.
Proof.
  unfold whole_page_span. rewrite in_locate, Nat.sub_0_r. intuition lia.
Qed.

Lemma span_parts_kept sp sy next pages x : forall k,
  In x (span_parts k sp sy next pages) ->
  exists pd,
    (k <= fst (place x))%nat
    /\ nth_error pages (fst (place x) - k) = Some pd
    /\ nth_error (elements pd) (snd (place x)) = Some (snd x)
    /\ kept sp sy next pd (snd x).
Proof.
  induction pages as [|pd pages IH]; intros k; cbn [span_parts]; cbv zeta;
    [intros []|].
  assert (Hrest : In x (span_parts (S k) sp sy next pages) ->
                  exists pd0,
                    (k <= fst (place x))%nat
                    /\ nth_error (pd :: pages) (fst (place x) - k) = Some pd0
                    /\ nth_error (elements pd0) (snd (place x)) = Some (snd x)
                    /\ kept sp sy next pd0 (snd x)).
  { intros H. apply IH in H as (pd0 & Hk & Hn & He & Hkept).
    exists pd0. split; [lia|]. split; [|auto].
    replace (fst (place x) - k)%nat with (S (fst (place x) - S k)) by lia.
    exact Hn. }
  destruct (_ <? sp)%nat eqn:Hsp; [exact Hrest|].
  apply Nat.ltb_ge in Hsp.
  destruct (match next with Some n => _ | None => false end) eqn:Hbr;
    [intros []|].
  destruct (window sp sy next (page_number pd)) as [lo hi] eqn:Hw.
  intros H. apply in_app_or in H as [H|H]; [|auto].
  apply in_page_span in H as (Hpi & He & Hr & Hnb).
  exists pd. split; [lia|]. rewrite Hpi, Nat.sub_diag.
  split; [reflexivity|]. split; [exact He|].
  unfold kept. rewrite Hw. repeat split; auto.
  intros n ->. apply Nat.ltb_ge in Hbr. exact Hbr.
Qed.

Lemma monotone_tail pd pages : monotone (pd :: pages) -> monotone pages.
Proof.
  intros H i j pdi pdj Hij Hi Hj. apply (H (S i) (S j)); auto. lia.
Qed.

Lemma numbered_monotone pages : pages_numbered pages -> monotone pages.
Proof.
  intros H i j pdi pdj Hij Hi Hj.
  rewrite (H _ _ Hi), (H _ _ Hj). lia.
Qed.

Lemma kept_in_span_parts sp sy next pd e ei pages : forall k j,
  monotone pages ->
  nth_error pages j = Some pd ->
  nth_error (elements pd) ei = Some e ->
  kept sp sy next pd e ->
  In (k + j, ei, e)%nat (span_parts k sp sy next pages).
Proof.
  induction pages as [|pd0 pages IH]; intros k j Hm Hj He Hk;
    [destruct j; discriminate|].
  cbn [span_parts]; cbv zeta.
  destruct Hk as (Hsp & Hnext & Hr & Hnb).
  destruct j as [|j].
  - injection Hj as ->.
    apply Nat.ltb_ge in Hsp. rewrite Hsp.
    assert (Hbr : match next with
                  | Some n => (h_page n <? page_number pd)%nat
                  | None => false
                  end = false).
    { destruct next as [n|]; [|reflexivity].
      apply Nat.ltb_ge. now apply Hnext. }
    rewrite Hbr.
    destruct (window sp sy next (page_number pd)) as [lo hi].
    apply in_or_app. left. apply in_page_span. simpl.
    repeat split; auto; lia.
  - assert (Hle : (page_number pd0 <= page_number pd)%nat)
      by (apply (Hm 0%nat (S j)); auto; lia).
    assert (Hin : In (k + S j, ei, e)%nat (span_parts (S k) sp sy next pages)).
    { replace (k + S j)%nat with (S k + j)%nat by lia.
      apply IH; auto; [now apply monotone_tail in Hm|].
      repeat split; auto. }
    destruct (_ <? sp)%nat; [exact Hin|].
    assert (Hbr : match next with
                  | Some n => (h_page n <? page_number pd0)%nat
                  | None => false
                  end = false).
    { destruct next as [n|]; [|reflexivity].
      apply Nat.ltb_ge. specialize (Hnext n eq_refl). lia. }
    rewrite Hbr.
    destruct (window sp sy next (page_number pd0)) as [lo hi].
    apply in_or_app. now right.
Qed.

Lemma span_parts_heads sp sy next pages : forall k,
  Forall starts_nonblank (map located_text (span_parts k sp sy next pages)).
Proof.
  intros k. apply Forall_forall. intros t Ht.
  apply in_map_iff in Ht as [x [<- Hx]].
  apply span_parts_kept in Hx as (pd & _ & _ & _ & _ & _ & _ & Hnb).
  unfold located_text, nonblank in *.
  destruct (strip_head (text (snd x))) as [E|E]; [|exact E].
  rewrite E in Hnb. discriminate.
Qed.

(** A section with an element in its span has text. *)
Lemma span_content_nonblank h rest pages x :
  In x (section_span h rest pages) ->
  String.eqb (Py.strip (_extract_section_content h rest pages)) "" = false.
Proof.
  intros Hx. apply not_true_is_false. intros E.
  rewrite section_content_span in E.
  apply joined_blank_iff in E; [|apply span_parts_heads].
  apply map_eq_nil in E. unfold section_span in *.
  now rewrite E in Hx.
Qed.

Lemma in_heading_sections l1 h l2 pages :
  String.eqb (Py.strip (_extract_section_content h l2 pages)) "" = false ->
  In (section_of h l2 pages) (heading_sections (l1 ++ h :: l2) pages).
Proof.
  intros Hc. induction l1 as [|a l1 IH]; cbn [heading_sections app].
  - rewrite Hc. now left.
  - apply in_or_app. now right.
Qed.

Lemma sorted_app_inv {A} (R : A -> A -> Prop) (a : list A) x b :
  StronglySorted R (a ++ x :: b) ->
  StronglySorted R (x :: b) /\ (forall n, In n a -> R n x).
Proof.
  induction a as [|y a IH]; simpl; intros H.
  - split; [exact H|intros n []].
  - inversion H; subst. destruct (IH H2) as [Hs Hr]. split; [exact Hs|].
    intros n [<-|Hn]; [|auto].
    rewrite Forall_forall in H3. apply H3. apply in_or_app. right. now left.
Qed.

Lemma find_prefix {A} (f : A -> bool) (a b : list A) :
  existsb f a = true ->
  exists n, find f (a ++ b) = Some n /\ In n a.
Proof.
  induction a as [|y a IH]; simpl; [discriminate|].
  destruct (f y) eqn:Hy.
  - intros _. exists y. auto.
  - simpl. intros H. destruct (IH H) as (n & Hn & Hin). exists n. auto.
Qed.

Lemma find_none_app {A} (f : A -> bool) (a b : list A) :
  existsb f a = false -> find f (a ++ b) = find f b.
Proof.
  induction a as [|y a IH]; simpl; [reflexivity|].
  destruct (f y); [discriminate|]. exact IH.
Qed.

(** The first heading of [l] that [g] accepts comes at or before the first
    one that [f] accepts, when [g] accepts whatever [f] accepts. *)
Lemma find_earlier (R : heading -> heading -> Prop) (f g : heading -> bool) l :
  (forall n, f n = true -> g n = true) ->
  StronglySorted R l ->
  forall n, find f l = Some n ->
  exists n', find g l = Some n' /\ (n' = n \/ R n' n).
Proof.
  intros Hfg Hs. induction Hs as [|y l Hs IH Hall]; simpl; [discriminate|].
  intros n Hn. destruct (g y) eqn:Hg.
  - exists y. split; [reflexivity|].
    destruct (f y); [left; congruence|right].
    apply find_some in Hn as [Hn _]. rewrite Forall_forall in Hall. auto.
  - destruct (f y) eqn:Hf; [apply Hfg in Hf; congruence|]. auto.
Qed.

(** The span of a heading nested in the section of [h] lies within the
    span of [h]. *)
Lemma spans_nested pages l1 h l2 h' l3 x :
  monotone pages ->
  headings_in_order (l1 ++ h :: l2 ++ h' :: l3) ->
  (0 <=? h_y_position h') = true ->
  existsb (fun n => (level_of n <=? level_of h)%nat) (l2 ++ [h']) = false ->
  In x (section_span h' l3 pages) ->
  In x (section_span h (l2 ++ h' :: l3) pages).
Proof.
  intros Hm Hs H0 Hb Hx.
  apply sorted_app_inv in Hs as [Hs _].
  inversion Hs as [|? ? Hs2 Hall]; subst.
  assert (Hhh' : position_le h h').
  { rewrite Forall_forall in Hall. apply Hall, in_or_app. right. now left. }
  apply sorted_app_inv in Hs2 as [Hs3 _].
  inversion Hs3 as [|? ? Hs4 _]; subst.
  assert (Hdeeper : (level_of h < level_of h')%nat).
  { rewrite existsb_app in Hb. apply orb_false_iff in Hb as [_ Hb].
    simpl in Hb. rewrite orb_false_r in Hb. now apply Nat.leb_gt in Hb. }
  unfold section_span in *.
  replace (l2 ++ h' :: l3) with ((l2 ++ [h']) ++ l3)
    by (rewrite <- app_assoc; reflexivity).
  unfold find_next_heading in *. rewrite (find_none_app _ _ _ Hb).
  apply span_parts_kept in Hx as (pd & _ & Hpd & He & Hk).
  rewrite Nat.sub_0_r in Hpd.
  destruct x as [[pi ei] e]. cbn [place fst snd] in *.
  apply (kept_in_span_parts _ _ _ pd e ei pages 0 pi); auto.
  destruct Hk as (Hsp & Hnext & Hr & Hnb).
  unfold window, in_y_range in Hr. cbn [fst snd] in Hr.
  apply andb_true_iff in Hr as [Hlo Hhi].
  assert (Hpg : (h_page h <= h_page h')%nat)
    by (destruct Hhh' as [?|[? _]]; lia).
  assert (Hey : (0 <=? y_position e) = true).
  { destruct (page_number pd =? h_page h')%nat; [|exact Hlo].
    eapply leb_trans; eassumption. }
  unfold kept, window, in_y_range. cbn [fst snd].
  assert (Hlo' : ((if (page_number pd =? h_page h)%nat
                   then h_y_position h else 0) <=? y_position e) = true).
  { destruct (page_number pd =? h_page h)%nat eqn:E; [|exact Hey].
    apply Nat.eqb_eq in E.
    assert (E' : h_page h' = page_number pd) by lia.
    rewrite <- E', Nat.eqb_refl in Hlo.
    destruct Hhh' as [?|[_ Hle]]; [lia|]. eapply leb_trans; eassumption. }
  assert (Hfin : (y_position e <? Py.inf) = true).
  { destruct (find _ l3) as [n'|]; [|exact Hhi].
    destruct (page_number pd =? h_page n')%nat; [|exact Hhi].
    now apply ltb_inf with (h_y_position n'). }
  destruct (find (fun x => (level_of x <=? level_of h)%nat) l3) as [n|] eqn:Hn.
  - assert (Hfg : forall n0, (level_of n0 <=? level_of h)%nat = true ->
                              (level_of n0 <=? level_of h')%nat = true).
    { intros n0 Hn0. apply Nat.leb_le in Hn0. apply Nat.leb_le. lia. }
    destruct (find_earlier position_le _ _ l3 Hfg Hs4 n Hn)
      as (n' & Hn' & Hrel).
    rewrite Hn' in Hnext, Hhi. specialize (Hnext n' eq_refl).
    assert (Hpn : (h_page n' <= h_page n)%nat)
      by (destruct Hrel as [->|[?|[? _]]]; lia).
    split; [lia|]. split; [intros n0 [= <-]; lia|]. split; [|exact Hnb].
    rewrite Hlo'. simpl.
      destruct (page_number pd =? h_page n)%nat eqn:E; [|exact Hfin].
      apply Nat.eqb_eq in E.
      assert (E' : page_number pd = h_page n') by lia.
      rewrite E', Nat.eqb_refl in Hhi.
      destruct Hrel as [Heq|[Hlt|[_ Hle]]].
      * now rewrite <- Heq.
      * lia.
      * exact (ltb_leb_trans _ _ _ Hhi Hle).
  - split; [lia|]. split; [intros ? [=]|]. split; [|exact Hnb].
    now rewrite Hlo', Hfin.
Qed.

(** Two windows that cannot share an element: the first closes at the
    heading [n], the second opens at the heading [h'] that comes at or
    after [n]. *)
Lemma windows_apart sp sy sy' n h' pd e l3 :
  (n = h' \/ position_le n h') ->
  kept sp sy (Some n) pd e ->
  kept (h_page h') sy' l3 pd e ->
  sy' = h_y_position h' ->
  False.
Proof.
  intros Hn (_ & Hnext & Hr & _) (Hsp' & _ & Hr' & _) ->.
  specialize (Hnext n eq_refl).
  unfold window, in_y_range in Hr, Hr'. cbn [fst snd] in Hr, Hr'.
  apply andb_true_iff in Hr as [_ Hhi]. apply andb_true_iff in Hr' as [Hlo _].
  assert (Hcase : h_page n = h_page h'
                  /\ (h_y_position n <=? h_y_position h') = true
                  \/ n = h').
  { destruct Hn as [->|[Hlt|[Heq Hle]]]; [now right|lia|now left]. }
  assert (Hpn : page_number pd = h_page n)
    by (destruct Hcase as [[Heq _]| ->]; lia).
  assert (Hph : page_number pd = h_page h')
    by (destruct Hcase as [[Heq _]| ->]; lia).
  rewrite Hpn, Nat.eqb_refl in Hhi.
  rewrite Hph, Nat.eqb_refl in Hlo.
  assert (Hnh : (h_y_position n <=? h_y_position h') = true).
  { destruct Hcase as [[_ Hle]| ->]; [exact Hle|].
    now apply leb_refl_l with (y_position e). }
  pose proof (ltb_leb_trans _ _ _ Hhi Hnh) as H1.
  pose proof (ltb_leb_trans _ _ _ H1 Hlo) as H2.
  now rewrite ltb_irrefl in H2.
Qed.

(** The spans of two headings do not meet when the section of the first
    is closed at or before the second. *)
Lemma spans_disjoint pages l1 h l2 h' l3 x x' :
  headings_in_order (l1 ++ h :: l2 ++ h' :: l3) ->
  existsb (fun n => (level_of n <=? level_of h)%nat) (l2 ++ [h']) = true ->
  In x (section_span h (l2 ++ h' :: l3) pages) ->
  In x' (section_span h' l3 pages) ->
  place x <> place x'.
Proof.
  intros Hs Hb Hx Hx' Hp.
  unfold section_span, find_next_heading in Hx.
  replace (l2 ++ h' :: l3) with ((l2 ++ [h']) ++ l3) in Hx
    by (rewrite <- app_assoc; reflexivity).
  destruct (find_prefix _ _ l3 Hb) as (n & Hfind & Hin).
  rewrite Hfind in Hx.
  apply span_parts_kept in Hx as (pd & _ & Hpd & He & Hk).
  apply span_parts_kept in Hx' as (pd' & _ & Hpd' & He' & Hk').
  rewrite <- Hp in Hpd', He'. rewrite Hpd in Hpd'. injection Hpd' as <-.
  rewrite He in He'. injection He' as He'. rewrite <- He' in Hk'.
  apply (windows_apart _ _ _ n h' pd (snd x) _) with (2 := Hk) (3 := Hk');
    [|reflexivity].
  apply in_app_or in Hin as [Hin|[<-|[]]]; [right|now left].
  apply sorted_app_inv in Hs as [Hs _].
  inversion Hs as [|? ? Hs' _]; subst.
  apply (sorted_app_inv _ l2 h' l3) in Hs' as [_ Hr]. now apply Hr.
Qed.

Lemma at_or_afterb_spec h pd e :
  at_or_afterb h pd e = true <-> at_or_after h pd e.
Proof.
  unfold at_or_afterb, at_or_after.
  rewrite orb_true_iff, andb_true_iff, Nat.ltb_lt, Nat.eqb_eq. tauto.
Qed.

Lemma at_or_after_trans a b pd e :
  position_le a b -> at_or_after b pd e -> at_or_after a pd e.
Proof.
  unfold position_le, at_or_after.
  intros [H|[H1 H2]] [H'|[H1' H2']]; try (left; lia).
  right. split; [lia|]. eapply leb_trans; eassumption.
Qed.

(** An element that a heading does not precede lies strictly before it. *)
Lemma not_after_before n pd e :
  (h_y_position n <=? h_y_position n) = true ->
  (y_position e <=? y_position e) = true ->
  ~ at_or_after n pd e ->
  (page_number pd <= h_page n)%nat
  /\ (page_number pd = h_page n ->
      (y_position e <? h_y_position n) = true).
Proof.
  unfold at_or_after. intros Hn He H. split.
  - destruct (Nat.lt_ge_cases (h_page n) (page_number pd)); [|lia].
    exfalso. apply H. now left.
  - intros Heq. destruct (y_position e <? h_y_position n) eqn:Hlt;
      [reflexivity|].
    exfalso. apply H. right. split; [lia|]. now apply leb_total.
Qed.

(** An element at or after a heading lies in the span of some heading
    from there on. *)
Lemma covered pages pi ei pd e :
  monotone pages ->
  nth_error pages pi = Some pd ->
  nth_error (elements pd) ei = Some e ->
  nonblank e = true ->
  (0 <=? y_position e) = true ->
  (y_position e <? Py.inf) = true ->
  forall rest h,
    headings_in_order (h :: rest) ->
    Forall (fun n => (h_y_position n <=? h_y_position n) = true) (h :: rest) ->
    at_or_after h pd e ->
    exists l1 h1 l2,
      h :: rest = l1 ++ h1 :: l2
      /\ In (pi, ei, e) (section_span h1 l2 pages).
Proof.
  intros Hm Hpd He Hnb H0 Hinf.
  assert (Hey : (y_position e <=? y_position e) = true)
    by now apply leb_refl_r with 0.
  induction rest as [|h1 rest IH]; intros h Hs Hnum Hafter.
  - exists [], h, []. split; [reflexivity|].
    unfold section_span. cbn [find_next_heading find].
    apply (kept_in_span_parts _ _ _ pd e ei pages 0 pi); auto.
    unfold kept, window, in_y_range. cbn [fst snd].
    destruct Hafter as [Hlt|[Heq Hle]].
    + repeat split; try lia; try discriminate; auto.
      replace (page_number pd =? h_page h)%nat with false
        by (symmetry; apply Nat.eqb_neq; lia).
      now rewrite H0, Hinf.
    + repeat split; try lia; try discriminate; auto.
      rewrite <- Heq, Nat.eqb_refl. now rewrite Hle, Hinf.
  - inversion Hs as [|? ? Hs' Hall]; subst.
    inversion Hnum as [|? ? Hnh Hnum']; subst.
    destruct (at_or_afterb h1 pd e) eqn:Hb.
    + apply at_or_afterb_spec in Hb.
      destruct (IH h1 Hs' Hnum' Hb) as (l1 & h2 & l2 & Heq & Hin).
      exists (h :: l1), h2, l2. split; [simpl; now rewrite Heq|exact Hin].
    + assert (Hnot : forall n, In n (h1 :: rest) -> ~ at_or_after n pd e).
      { intros n Hn Hcontra.
        assert (Hh1 : at_or_after h1 pd e).
        { destruct Hn as [<-|Hn]; [exact Hcontra|].
          inversion Hs' as [|? ? Hs'' Hall']; subst.
          rewrite Forall_forall in Hall'.
          eapply at_or_after_trans; [apply Hall', Hn|exact Hcontra]. }
        apply at_or_afterb_spec in Hh1. congruence. }
      exists [], h, (h1 :: rest). split; [reflexivity|].
      unfold section_span.
      apply (kept_in_span_parts _ _ _ pd e ei pages 0 pi); auto.
      unfold kept, window, in_y_range. cbn [fst snd].
      assert (Hsp : (h_page h <= page_number pd)%nat)
        by (destruct Hafter as [?|[? _]]; lia).
      assert (Hlo : ((if (page_number pd =? h_page h)%nat
                      then h_y_position h else 0) <=? y_position e) = true).
      { destruct (page_number pd =? h_page h)%nat eqn:E; [|exact H0].
        apply Nat.eqb_eq in E. destruct Hafter as [?|[_ Hle]]; [lia|exact Hle]. }
      destruct (find_next_heading (level_of h) (h1 :: rest)) as [n|] eqn:Hf.
      * apply find_some in Hf as [Hn _].
        assert (Hnn : (h_y_position n <=? h_y_position n) = true)
          by (rewrite Forall_forall in Hnum'; now apply Hnum').
        destruct (not_after_before n pd e Hnn Hey (Hnot n Hn)) as [Hpg Hlt].
        repeat split; auto.
        -- now intros n' [= <-].
        -- rewrite Hlo. simpl.
           destruct (page_number pd =? h_page n)%nat eqn:E; [|exact Hinf].
           apply Nat.eqb_eq in E. auto.
      * repeat split; auto; [discriminate|]. now rewrite Hlo, Hinf.
Qed.

Lemma in_page_sections pages : forall k j pd,
  nth_error pages j = Some pd ->
  String.eqb (Py.strip (_extract_page_text pd)) "" = false ->
  In (page_section (k + j) pd) (page_sections k pages).
Proof.
  induction pages as [|pd0 pages IH]; intros k j pd Hj Hc;
    [destruct j; discriminate|].
  cbn [page_sections]. cbv zeta. destruct j as [|j].
  - injection Hj as ->. rewrite Hc, Nat.add_0_r. now left.
  - apply in_or_app. right.
    replace (k + S j)%nat with (S k + j)%nat by lia. now apply IH.
Qed.

Lemma whole_page_heads pi pd :
  Forall starts_nonblank (map located_text (whole_page_span pi pd)).
Proof.
  apply Forall_forall. intros t Ht. apply in_map_iff in Ht as [x [<- Hx]].
  apply in_whole_page_span in Hx as (_ & _ & Hnb).
  unfold located_text, nonblank in *.
  destruct (strip_head (text (snd x))) as [E|E]; [|exact E].
  rewrite E in Hnb. discriminate.
Qed.

Lemma page_content_nonblank pi pd x :
  In x (whole_page_span pi pd) ->
  String.eqb (Py.strip (_extract_page_text pd)) "" = false.
Proof.
  intros Hx. apply not_true_is_false. intros E.
  rewrite (page_text pi) in E.
  apply joined_blank_iff in E; [|apply whole_page_heads].
  apply map_eq_nil in E. now rewrite E in Hx.
Qed.


Lemma created_y e m c pl fl :
  h_y_position (_create_heading_dict e m c pl fl) = y_position (elem e).
Proof. reflexivity. Qed.

Lemma candidate_y elements h :
  In h (List.concat [_detect_by_score elements; _detect_by_patterns elements;
                     _detect_by_font_clustering elements]) ->
  exists e, In e elements /\ h_y_position h = y_position (elem e).
Proof.
  cbn [List.concat]. rewrite app_nil_r. intros H.
  apply in_app_or in H as [H|H]; [|apply in_app_or in H as [H|H]].
  - unfold _detect_by_score in H. apply in_flat_map in H as [e [He H]].
    destruct (Py.ge _ _); [|destruct H]. destruct H as [<-|[]]. now exists e.
  - unfold _detect_by_patterns in H. apply in_flat_map in H as [e [He H]].
    destruct (first_match _ _ _); [|destruct H]. destruct H as [<-|[]].
    now exists e.
  - apply in_font_clustering in H as (i & size & e & _ & _ & He & _ & ->).
    exists e. split; [|reflexivity].
    unfold group_candidates, font_group in He.
    apply filter_In in He as [He _]. now apply filter_In in He as [He _].
Qed.

Lemma y_merge xs : forall e,
  h_y_position (fold_left merge_into xs e) = h_y_position e.
Proof.
  induction xs as [|x xs IH]; intros e; simpl; [reflexivity|].
  now rewrite IH.
Qed.

Lemma detected_y elements h :
  In h (detect_headings elements) ->
  exists e, In e elements /\ h_y_position h = y_position (elem e).
Proof.
  unfold detect_headings. destruct elements as [|e0 els]; [intros []|].
  intros Hin. apply ListFacts.in_stable_sort in Hin.
  unfold _assign_hierarchy_levels in Hin.
  apply in_map_iff in Hin as [h0 [<- Hin]]. cbn [with_level h_y_position].
  apply in_combine in Hin. unfold fuse in Hin.
  destruct (with_key _ _) as [|x xs] eqn:E; [discriminate|].
  assert (h0 = fold_left merge_into xs (first_entry x)) by congruence.
  subst h0. rewrite y_merge. cbn [first_entry h_y_position].
  apply candidate_y.
  assert (Hx : In x (x :: xs)) by now left.
  rewrite <- E in Hx. now apply filter_In in Hx as [Hx _].
Qed.

Lemma position_before_le a b : position_before a b = true -> position_le a b.
Proof.
  unfold position_before, position_le.
  rewrite orb_true_iff, andb_true_iff, Nat.ltb_lt, Nat.eqb_eq.
  intros [H|[H1 H2]]; [now left|right].
  split; [exact H1|now apply ltb_leb].
Qed.

Lemma position_not_before a b :
  (h_y_position a <=? h_y_position a) = true ->
  (h_y_position b <=? h_y_position b) = true ->
  position_before b a = false -> position_le a b.
Proof.
  unfold position_before, position_le. intros Ha Hb H.
  apply orb_false_iff in H as [H1 H2]. apply Nat.ltb_ge in H1.
  destruct (Nat.eq_dec (h_page b) (h_page a)) as [E|E]; [|left; lia].
  right. split; [lia|].
  apply Nat.eqb_eq in E. rewrite E in H2. simpl in H2.
  now apply leb_total.
Qed.

Lemma position_le_trans a b c :
  position_le a b -> position_le b c -> position_le a c.
Proof.
  unfold position_le. intros [H|[H1 H2]] [H'|[H1' H2']]; try (left; lia).
  right. split; [lia|]. eapply leb_trans; eassumption.
Qed.

(** The headings the detector returns are in canonical order, also after
    filtering, when no element has a NaN for its vertical position. *)
Lemma detected_in_order elements :
  Forall (fun e => (y_position (elem e) <=? y_position (elem e)) = true)
         elements ->
  headings_in_order (filter_false_positives (detect_headings elements))
  /\ Forall (fun h => (h_y_position h <=? h_y_position h) = true)
            (filter_false_positives (detect_headings elements)).
Proof.
  intros Hy.
  assert (Hnum : forall h, In h (detect_headings elements) ->
                           (h_y_position h <=? h_y_position h) = true).
  { intros h Hh. apply detected_y in Hh as (e & He & ->).
    rewrite Forall_forall in Hy. now apply Hy. }
  split.
  - apply SortFacts.filter_sorted.
    unfold detect_headings in *. destruct elements as [|e0 els]; [constructor|].
    apply SortFacts.stable_sort_ordered
      with (P := fun h => (h_y_position h <=? h_y_position h) = true).
    + intros x y. apply position_before_le.
    + intros x y. apply position_not_before.
    + apply position_le_trans.
    + apply Forall_forall. intros h Hh. apply Hnum.
      now apply ListFacts.in_stable_sort.
  - apply Forall_forall. intros h Hh. apply filter_In in Hh as [Hh _]. auto.
Qed.

End SegmentFacts.

Section SegmenterClaims.
Import RelevanceAnalyzer SegmentFacts.
Local Open Scope float_scope.

(** C2, as stated, fails: in [nested_doc] the section of the H1 heading
    "1 Overview" runs to the end of the page, past the H2 heading
    "1.1 Scope", so the paragraph at place (0, 3) contributes to the
    content of both sections. *)
Lemma C2_nested_sections_overlap :
  exists h h' e,
    headings Examples.nested_doc = [h; h']
    /\ map section_title (_extract_document_sections Examples.nested_doc)
       = ["1 Overview"; "1.1 Scope"]
    /\ In (0%nat, 3%nat, e)
          (section_span h [h'] (pages_data Examples.nested_doc))
    /\ In (0%nat, 3%nat, e)
          (section_span h' [] (pages_data Examples.nested_doc)).
Proof.
  do 3 eexists. split; [vm_compute; reflexivity|].
  split; [vm_compute; reflexivity|].
  split; vm_compute; [right; right; right; left|right; left]; reflexivity.
Qed.

(** C2, amended: in a document whose pages are numbered in order and whose
    headings are in canonical order,
    - the content of a section is the text of the elements of its span;
    - the spans of two headings [h] before [h'] are disjoint when some
      heading after [h], up to and including [h'], is at most as deep as
      [h] (so [h'] is not nested in the section of [h]);
    - when instead every heading after [h], up to and including [h'], is
      deeper than [h], the span of [h'] lies within the span of [h];
    - every element with text, at or after the first heading and at a
      finite non-negative height, lies in the span of a section the
      segmenter produces;
    - without headings, every element with text lies in the section of its
      page, and the sections of two pages share no element. *)
Theorem C2_segmentation (doc : doc_data) :
  pages_numbered (pages_data doc) ->
  headings_in_order (headings doc) ->
  Forall (fun h => (h_y_position h <=? h_y_position h) = true)
         (headings doc) ->
  (forall h rest,
      _extract_section_content h rest (pages_data doc)
      = Py.join " " (map located_text
                         (section_span h rest (pages_data doc))))
  /\ (forall l1 h l2 h' l3 x x',
         headings doc = l1 ++ h :: l2 ++ h' :: l3 ->
         existsb (fun n => (level_of n <=? level_of h)%nat) (l2 ++ [h'])
         = true ->
         In x (section_span h (l2 ++ h' :: l3) (pages_data doc)) ->
         In x' (section_span h' l3 (pages_data doc)) ->
         place x <> place x')
  /\ (forall l1 h l2 h' l3 x,
         headings doc = l1 ++ h :: l2 ++ h' :: l3 ->
         existsb (fun n => (level_of n <=? level_of h)%nat) (l2 ++ [h'])
         = false ->
         (0 <=? h_y_position h') = true ->
         In x (section_span h' l3 (pages_data doc)) ->
         In x (section_span h (l2 ++ h' :: l3) (pages_data doc)))
  /\ (forall h0 rest pi pd ei e,
         headings doc = h0 :: rest ->
         nth_error (pages_data doc) pi = Some pd ->
         nth_error (elements pd) ei = Some e ->
         nonblank e = true ->
         (0 <=? y_position e) = true ->
         (y_position e <? Py.inf) = true ->
         at_or_after h0 pd e ->
         exists l1 h l2,
           headings doc = l1 ++ h :: l2
           /\ In (pi, ei, e) (section_span h l2 (pages_data doc))
           /\ In (section_of h l2 (pages_data doc))
                 (_extract_document_sections doc))
  /\ (headings doc = [] ->
      forall pi pd ei e,
        nth_error (pages_data doc) pi = Some pd ->
        nth_error (elements pd) ei = Some e ->
        nonblank e = true ->
        In (pi, ei, e) (whole_page_span pi pd)
        /\ _extract_page_text pd
           = Py.join " " (map located_text (whole_page_span pi pd))
        /\ In (page_section pi pd) (_extract_document_sections doc)
        /\ (forall pj pd' x',
               pj <> pi -> In x' (whole_page_span pj pd') ->
               place x' <> (pi, ei))).
Proof.
  intros Hpages Horder Hnum. split; [|split; [|split; [|split]]].
  - intros h rest. apply section_content_span.
  - intros l1 h l2 h' l3 x x' Hhs Hb Hx Hx'. rewrite Hhs in Horder.
    eapply spans_disjoint; eassumption.
  - intros l1 h l2 h' l3 x Hhs Hb H0 Hx. rewrite Hhs in Horder.
    apply (spans_nested (pages_data doc) l1 h l2 h' l3 x
             (numbered_monotone _ Hpages) Horder H0 Hb Hx).
  - intros h0 rest pi pd ei e Hhs Hpd He Hnb H0 Hinf Hafter.
    rewrite Hhs in Horder, Hnum.
    destruct (covered (pages_data doc) pi ei pd e
                (numbered_monotone _ Hpages) Hpd He Hnb H0 Hinf
                rest h0 Horder Hnum Hafter)
      as (l1 & h & l2 & Heq & Hin).
    exists l1, h, l2. rewrite Hhs. split; [exact Heq|]. split; [exact Hin|].
    unfold _extract_document_sections. rewrite Hhs, Heq.
    replace (match l1 ++ h :: l2 with
             | [] => page_sections 0 (pages_data doc)
             | _ :: _ => heading_sections (l1 ++ h :: l2) (pages_data doc)
             end)
      with (heading_sections (l1 ++ h :: l2) (pages_data doc))
      by (destruct l1; reflexivity).
    apply in_heading_sections. eapply span_content_nonblank, Hin.
  - intros Hhs pi pd ei e Hpd He Hnb.
    assert (Hin : In (pi, ei, e) (whole_page_span pi pd))
      by (apply in_whole_page_span; simpl; auto).
    split; [exact Hin|]. split; [apply page_text|]. split.
    + unfold _extract_document_sections. rewrite Hhs.
      apply (in_page_sections (pages_data doc) 0 pi pd Hpd).
      eapply page_content_nonblank, Hin.
    + intros pj pd' x' Hne Hx' Hp.
      apply in_whole_page_span in Hx' as (Hpj & _).
      rewrite Hp in Hpj. simpl in Hpj. congruence.
Qed.

(** The amended C2 at [flat_doc]: its last paragraph lies in the span of a
    section the segmenter produces. *)
Lemma C2_flat_doc_covered :
  exists l1 h l2,
    headings Examples.flat_doc = l1 ++ h :: l2
    /\ In (0%nat, 3%nat, Examples.span Examples.scope_text 11 false 72 180)
          (section_span h l2 (pages_data Examples.flat_doc))
    /\ In (section_of h l2 (pages_data Examples.flat_doc))
          (_extract_document_sections Examples.flat_doc).
Proof.
  assert (Hy : Forall (fun e => (y_position (elem e) <=? y_position (elem e))
                                = true)
                      (analyzed_elements Examples.flat_doc))
    by (repeat constructor).
  destruct (detected_in_order _ Hy) as [Horder Hnum].
  assert (Hpages : pages_numbered (pages_data Examples.flat_doc)).
  { intros [|[|i]] pd H; [now injection H as <-|discriminate|discriminate]. }
  destruct (C2_segmentation Examples.flat_doc Hpages Horder Hnum)
    as (_ & _ & _ & Hcover & _).
  eapply (Hcover _ _ 0%nat Examples.flat_page 3%nat).
  - vm_compute. reflexivity.
  - reflexivity.
  - reflexivity.
  - vm_compute. reflexivity.
  - vm_compute. reflexivity.
  - vm_compute. reflexivity.
  - right. vm_compute. split; reflexivity.
Defined.

End SegmenterClaims.

(** ** The pipeline *)

Module PipelineFacts.
Import DocumentIntelligence.

(** The analyzed elements are the elements of the pages. *)
Lemma elem_analyze_elements mean median stdev pages a :
  In a (TextAnalyzer.analyze_elements mean median stdev pages) ->
  exists pd, In pd pages /\ In (elem a) (elements pd).
Proof.
  unfold TextAnalyzer.analyze_elements.
  destruct (flat_map elements pages) as [|e0 es] eqn:E; [intros []|].
  rewrite <- E. intros Ha. apply in_map_iff in Ha as (e & <- & He).
  apply in_flat_map in He as (pd & Hpd & He). exists pd. split; assumption.
Qed.

Section Run.
Variable parse_pdf : string -> list page_data.
Variables mean median stdev : list float -> float.
Variable path_name : string -> string.

(** A file whose parse is empty yields no document. *)
Lemma parse_all_nothing pdf_files :
  (forall f, In f pdf_files -> parse_pdf f = []) ->
  parse_all parse_pdf mean median stdev path_name pdf_files = [].
Proof.
  unfold parse_all.
  induction pdf_files as [|f fs IH]; intros H; simpl; [reflexivity|].
  unfold _parse_single_document. rewrite (H f) by now left.
  simpl. apply IH. intros g Hg. apply H. now right.
Qed.

(** With a persona that is a [str], the body of the [try] block either
    finds no document or raises: the relevance scorer calls [get] on the
    persona before anything else. *)
Lemma try_body_str pdf_files s job now :
  try_body parse_pdf mean median stdev path_name pdf_files (PyStr s) job now
  = Ok (_create_empty_result path_name pdf_files (PyStr s) job now)
  \/ exists e,
       try_body parse_pdf mean median stdev path_name pdf_files (PyStr s)
                job now = Raise e.
Proof.
  unfold try_body.
  destruct (parse_all _ _ _ _ _ pdf_files); [now left|right].
  now eexists.
Qed.

(** Whatever the body of the [try] block returns carries the metadata of
    the call. *)
Lemma try_body_metadata pdf_files persona job now r :
  try_body parse_pdf mean median stdev path_name pdf_files persona job now
  = Ok r ->
  res_metadata r = make_metadata path_name pdf_files persona job now.
Proof.
  unfold try_body, bind.
  destruct (parse_all _ _ _ _ _ pdf_files) as [|d ds]; [now intros [= <-]|].
  destruct (RelevanceAnalyzer.analyze_relevance _ _ _); [|discriminate].
  destruct (SectionExtractor.extract_sections _ _ _ _); [|discriminate].
  destruct (SubSectionAnalyzer.analyze_subsections _ _ _ _); [|discriminate].
  now intros [= <-].
Qed.

Lemma run_metadata pdf_files persona job now :
  res_metadata (process_document_collection parse_pdf mean median stdev
                  path_name pdf_files persona job now)
  = make_metadata path_name pdf_files persona job now.
Proof.
  unfold process_document_collection.
  destruct (try_body _ _ _ _ _ _ _ _ _) as [r|e] eqn:H; [|reflexivity].
  now apply try_body_metadata in H.
Qed.

(** The clock is read for the metadata alone. *)
Lemma try_body_clock pdf_files persona job now now' :
  match try_body parse_pdf mean median stdev path_name pdf_files persona job
                 now,
        try_body parse_pdf mean median stdev path_name pdf_files persona job
                 now' with
  | Ok r, Ok r' =>
      extracted_sections r = extracted_sections r'
      /\ subsection_analysis r = subsection_analysis r'
  | Raise e, Raise e' => e = e'
  | _, _ => False
  end.
Proof.
  unfold try_body, bind.
  destruct (parse_all _ _ _ _ _ pdf_files) as [|d ds]; [now split|].
  destruct (RelevanceAnalyzer.analyze_relevance _ _ _); [|reflexivity].
  destruct (SectionExtractor.extract_sections _ _ _ _); [|reflexivity].
  destruct (SubSectionAnalyzer.analyze_subsections _ _ _ _); [|reflexivity].
  now split.
Qed.

End Run.
End PipelineFacts.

Section PipelineClaims.
Import DocumentIntelligence PipelineFacts.
Variable parse_pdf : string -> list page_data.
Variables mean median stdev : list float -> float.
Variable path_name : string -> string.

(** C6: [process_document_collection] returns a result for every input,
    with the metadata of the call; its two lists are empty when no input
    file parses, and whenever a stage of the pipeline raises. *)
Theorem C6_failures_give_empty_result
    (pdf_files : list string) (persona job_to_be_done : pyvalue)
    (now : string) :
  let r := process_document_collection parse_pdf mean median stdev path_name
             pdf_files persona job_to_be_done now in
  res_metadata r
  = make_metadata path_name pdf_files persona job_to_be_done now
  /\ ((forall f, In f pdf_files -> parse_pdf f = []) ->
      extracted_sections r = [] /\ subsection_analysis r = [])
  /\ (forall e,
         try_body parse_pdf mean median stdev path_name pdf_files persona
                  job_to_be_done now = Raise e ->
         extracted_sections r = [] /\ subsection_analysis r = []).
Proof.
  cbv zeta. split; [apply run_metadata|].
  unfold process_document_collection. split.
  - intros Hnone. unfold try_body.
    rewrite (parse_all_nothing _ _ _ _ _ _ Hnone). now split.
  - intros e ->. now split.
Qed.

(** C1 at its input: when the persona and the job are passed as plain
    strings, as the claim has it, every run returns the empty result,
    whatever the documents hold. *)
Theorem C1_str_persona_gives_empty_result
    (pdf_files : list string) (persona job_to_be_done : string)
    (now : string) :
  process_document_collection parse_pdf mean median stdev path_name
    pdf_files (PyStr persona) (PyStr job_to_be_done) now
  = _create_empty_result path_name pdf_files (PyStr persona)
      (PyStr job_to_be_done) now.
Proof.
  unfold process_document_collection.
  destruct (try_body_str parse_pdf mean median stdev path_name pdf_files
              persona (PyStr job_to_be_done) now) as [H|[e H]];
    now rewrite H.
Qed.

(** C7, amended: two runs on the same input return the same
    [extracted_sections], the same [subsection_analysis] and the same
    metadata but for [processing_timestamp], which is the reading of the
    clock in each run. *)
Theorem C7_rerun_differs_in_timestamp_only
    (pdf_files : list string) (persona job_to_be_done : pyvalue)
    (now now' : string) :
  let r := process_document_collection parse_pdf mean median stdev path_name
             pdf_files persona job_to_be_done now in
  let r' := process_document_collection parse_pdf mean median stdev path_name
              pdf_files persona job_to_be_done now' in
  extracted_sections r = extracted_sections r'
  /\ subsection_analysis r = subsection_analysis r'
  /\ input_documents (res_metadata r) = input_documents (res_metadata r')
  /\ md_persona (res_metadata r) = md_persona (res_metadata r')
  /\ md_job_to_be_done (res_metadata r) = md_job_to_be_done (res_metadata r')
  /\ processing_timestamp (res_metadata r) = now
  /\ processing_timestamp (res_metadata r') = now'.
Proof.
  cbv zeta. rewrite !run_metadata.
  cbn [make_metadata input_documents md_persona md_job_to_be_done
       processing_timestamp].
  unfold process_document_collection.
  pose proof (try_body_clock parse_pdf mean median stdev path_name pdf_files
                persona job_to_be_done now now') as H.
  destruct (try_body _ _ _ _ _ _ _ _ now) as [r|e],
           (try_body _ _ _ _ _ _ _ _ now') as [r'|e']; try contradiction.
  - destruct H as [H1 H2]. repeat split; assumption.
  - repeat split.
Qed.

(** X2: the document the core builds from a parsed file keeps the parser's
    pages, and its headings are in canonical order, each at a vertical
    position that is a number, when the parser gives every element such a
    position: the segmenter is handed headings in the order its section
    boundaries assume. *)
Theorem parsed_document_headings_in_order (pdf_file : string) (d : doc_data) :
  _parse_single_document parse_pdf mean median stdev path_name pdf_file
  = Some d ->
  Forall (fun pd =>
            Forall (fun e => PrimFloat.leb (y_position e) (y_position e) = true)
                   (elements pd))
         (parse_pdf pdf_file) ->
  pages_data d = parse_pdf pdf_file
  /\ RelevanceAnalyzer.headings_in_order (headings d)
  /\ Forall (fun h => PrimFloat.leb (h_y_position h) (h_y_position h) = true)
            (headings d).
Proof.
  unfold _parse_single_document. intros Hd Hy.
  destruct (parse_pdf pdf_file) as [|pd0 pages] eqn:E; [discriminate|].
  assert (Hd' : d = {| file_path := pdf_file;
                       file_name := path_name pdf_file;
                       title := _extract_document_title (pd0 :: pages);
                       pages_data := pd0 :: pages;
                       headings :=
                         HeadingDetector.filter_false_positives
                           (HeadingDetector.detect_headings
                              (TextAnalyzer.analyze_elements mean median stdev
                                 (pd0 :: pages)));
                       analyzed_elements :=
                         TextAnalyzer.analyze_elements mean median stdev
                           (pd0 :: pages) |}) by congruence.
  subst d. cbn [pages_data headings]. split; [reflexivity|].
  apply SegmentFacts.detected_in_order. apply Forall_forall. intros a Ha.
  apply elem_analyze_elements in Ha as (pd & Hpd & He).
  rewrite Forall_forall in Hy. specialize (Hy pd Hpd).
  rewrite Forall_forall in Hy. now apply Hy.
Qed.

End PipelineClaims.

Section ScenarioClaims.
Import DocumentIntelligence.
Local Open Scope float_scope.

(** C7, as stated, fails: two runs of the worked scenario, five seconds
    apart, return results that differ in [processing_timestamp]. *)
Lemma C7_two_runs_differ :
  Examples.run_paper Examples.researcher Examples.literature_review
                     "2025-07-28T10:00:00.000000"
  <> Examples.run_paper Examples.researcher Examples.literature_review
                        "2025-07-28T10:00:05.000000".
Proof.
  intros H.
  apply (f_equal (fun r => processing_timestamp (res_metadata r))) in H.
  vm_compute in H. discriminate.
Qed.

(** The worked scenario with the persona and the job as plain strings:
    the document parses, and the result holds no section. *)
Lemma scenario_with_strings now :
  (exists d,
      _parse_single_document Examples.parse_paper Examples.naive_mean
        Examples.naive_median Examples.naive_stdev
        (Examples.basename EmptyString) "input/paper.pdf" = Some d)
  /\ extracted_sections
       (Examples.run_paper (PyStr Examples.persona_text)
                           (PyStr Examples.job_text) now) = []
  /\ subsection_analysis
       (Examples.run_paper (PyStr Examples.persona_text)
                           (PyStr Examples.job_text) now) = [].
Proof.
  split; [eexists; vm_compute; reflexivity|].
  split; vm_compute; reflexivity.
Qed.

(** The worked scenario with the persona and the job wrapped in dicts:
    one heading "1. Introduction" at level H1, found by the score and the
    pattern strategies; one section, of relevance above zero; and one
    extracted section, titled "Introduction", of rank 1. *)
Lemma scenario_with_dicts now :
  exists d h s,
    _parse_single_document Examples.parse_paper Examples.naive_mean
      Examples.naive_median Examples.naive_stdev
      (Examples.basename EmptyString) "input/paper.pdf" = Some d
    /\ headings d = [h]
    /\ h_text h = "1. Introduction"
    /\ h_level h = Some 1%nat
    /\ h_detection_methods h = Some [ByScore; ByPattern]
    /\ RelevanceAnalyzer.analyze_relevance [d] Examples.researcher
         Examples.literature_review = Ok [s]
    /\ section_title s = "1. Introduction"
    /\ (0 <? RelevanceAnalyzer.relevance_of s) = true
    /\ extracted_sections
         (Examples.run_paper Examples.researcher Examples.literature_review
                             now)
       = [ {| es_document := "paper.pdf"; es_page_number := 1;
              es_section_title := "Introduction";
              es_importance_rank := 1 |} ].
Proof.
  do 3 eexists.
  split; [vm_compute; reflexivity|].
  split; [vm_compute; reflexivity|].
  split; [vm_compute; reflexivity|].
  split; [vm_compute; reflexivity|].
  split; [vm_compute; reflexivity|].
  split; [vm_compute; reflexivity|].
  split; [vm_compute; reflexivity|].
  split; vm_compute; reflexivity.
Qed.

(** X2 at the file of the worked scenario: the headings of the document
    built from it are in canonical order. *)
Lemma parsed_paper_headings_in_order :
  exists d,
    _parse_single_document Examples.parse_paper Examples.naive_mean
      Examples.naive_median Examples.naive_stdev
      (Examples.basename EmptyString) "input/paper.pdf" = Some d
    /\ pages_data d = Examples.parse_paper "input/paper.pdf"
    /\ RelevanceAnalyzer.headings_in_order (headings d)
    /\ Forall (fun h => (h_y_position h <=? h_y_position h) = true)
              (headings d).
Proof.
  eexists. split; [vm_compute; reflexivity|].
  apply (parsed_document_headings_in_order Examples.parse_paper
           Examples.naive_mean Examples.naive_median Examples.naive_stdev
           (Examples.basename EmptyString) "input/paper.pdf").
  - reflexivity.
  - repeat constructor.
Defined.

End ScenarioClaims.

(* ===================================================================== *)
(** * Further facts *)
(* ===================================================================== *)

(** ** Lists and loops *)

Module LoopFacts.

(** A loop whose body never raises keeps an invariant that counts the
    iterations. *)
Lemma fold_exc_inv {A B} (f : B -> A -> exc B) (P : nat -> B -> Prop) xs :
  forall n acc,
    P n acc ->
    (forall n b a, In a xs -> P n b -> exists b', f b a = Ok b' /\ P (S n) b') ->
    exists r, fold_exc f xs acc = Ok r /\ P (n + List.length xs)%nat r.
Proof.
  induction xs as [|x xs IH]; intros n acc Hacc Hstep; cbn [fold_exc].
  - exists acc. rewrite Nat.add_0_r. auto.
  - destruct (Hstep n acc x (or_introl eq_refl) Hacc) as (b' & -> & Hb').
    cbn [bind]. destruct (IH (S n) b' Hb') as (r & -> & Hr).
    + intros m b a Ha. apply Hstep. now right.
    + exists r. split; [reflexivity|].
      cbn [List.length]. now rewrite Nat.add_succ_r.
Qed.

Lemma in_firstn {A} (x : A) n : forall l, In x (firstn n l) -> In x l.
Proof.
  induction n as [|n IH]; intros [|y l]; simpl; try tauto.
  intros [H|H]; [now left|right; now apply IH].
Qed.

Lemma firstn_sorted {A} (R : A -> A -> Prop) n : forall l,
  StronglySorted R l -> StronglySorted R (firstn n l).
Proof.
  induction n as [|n IH]; intros l Hs; [constructor|].
  destruct Hs as [|x l Hs Hall]; [constructor|]. cbn [firstn].
  constructor; [now apply IH|].
  apply Forall_forall. intros y Hy. apply in_firstn in Hy.
  rewrite Forall_forall in Hall. auto.
Qed.

Lemma length_flat_map_le {A B} (f : A -> list B) k l :
  (forall x, List.length (f x) <= k)%nat ->
  (List.length (flat_map f l) <= k * List.length l)%nat.
Proof.
  intros Hf. induction l as [|x l IH]; simpl; [lia|].
  rewrite length_app. specialize (Hf x). lia.
Qed.

Lemma length_enumerate_from {A} (l : list A) : forall i,
  List.length (enumerate_from i l) = List.length l.
Proof. induction l as [|x l IH]; intros i; simpl; [reflexivity|now rewrite IH]. Qed.

Lemma filter_nil_existsb {A} (f : A -> bool) l :
  existsb f l = match filter f l with [] => false | _ => true end.
Proof.
  induction l as [|x l IH]; simpl; [reflexivity|].
  destruct (f x); [reflexivity|exact IH].
Qed.



End LoopFacts.

(** ** Texts *)

Module TextFacts.
Import RelevanceAnalyzer StrFacts.

Lemma rstrip_cons c s :
  Py.rstrip (String c s)
  = match Py.rstrip s with
    | EmptyString =>
        if Py.is_space c then EmptyString else String c EmptyString
    | r => String c r
    end.
Proof. reflexivity. Qed.

Lemma rstrip_idem s : Py.rstrip (Py.rstrip s) = Py.rstrip s.
Proof.
  induction s as [|c s IH]; [reflexivity|]. rewrite rstrip_cons.
  destruct (Py.rstrip s) as [|d r] eqn:E.
  - destruct (Py.is_space c) eqn:Hc; [reflexivity|].
    rewrite rstrip_cons. simpl. now rewrite Hc.
  - rewrite rstrip_cons, IH. reflexivity.
Qed.

Lemma strip_idem s : Py.strip (Py.strip s) = Py.strip s.
Proof.
  destruct (strip_head s) as [->|(c & r & E & Hc)]; [reflexivity|].
  rewrite E. unfold Py.strip at 1. cbn [Py.lstrip]. rewrite Hc.
  rewrite <- E. unfold Py.strip. apply rstrip_idem.
Qed.

Lemma rev_string_app cur : forall acc,
  Py.rev_string acc cur = (Py.rev_string EmptyString cur ++ acc)%string.
Proof.
  induction cur as [|c cur IH]; intros acc; simpl; [reflexivity|].
  rewrite IH, (IH (String c EmptyString)), append_assoc. reflexivity.
Qed.

(** Every run starts with a character of the class it is made of. *)
Lemma runs_of_head keep s : forall cur w,
  (cur <> EmptyString ->
   exists c r, Py.rev_string EmptyString cur = String c r /\ keep c = true) ->
  In w (Py.runs_of keep cur s) ->
  exists c r, w = String c r /\ keep c = true.
Proof.
  induction s as [|c s IH]; intros cur w Hcur; cbn [Py.runs_of].
  - destruct cur as [|d cur]; [intros []|]. intros [<-|[]].
    apply Hcur. discriminate.
  - destruct (keep c) eqn:Hc.
    + apply IH. intros _. cbn [Py.rev_string]. rewrite rev_string_app.
      destruct cur as [|d cur].
      * exists c, EmptyString. auto.
      * destruct Hcur as (x & r & -> & Hx); [discriminate|].
        exists x, (r ++ String c EmptyString)%string. auto.
    + destruct cur as [|d cur].
      * apply IH. congruence.
      * intros [<-|H]; [apply Hcur; discriminate|].
        revert H. apply IH. congruence.
Qed.

Lemma split_head t w : In w (Py.split t) -> starts_nonblank w.
Proof.
  unfold Py.split. intros H.
  apply runs_of_head in H as (c & r & -> & Hc); [|congruence].
  exists c, r. split; [reflexivity|now apply negb_true_iff in Hc].
Qed.

(** The words of a text, joined with blanks: empty, or starting with a
    character that is no blank. *)
Lemma join_split_head t :
  Py.join " " (Py.split t) = EmptyString
  \/ starts_nonblank (Py.join " " (Py.split t)).
Proof.
  destruct (Py.split t) as [|w ws] eqn:E; [now left|right].
  apply join_head. apply (split_head t). rewrite E. now left.
Qed.



Lemma lower_not_space c : Py.is_lower c = true -> Py.is_space c = false.
Proof.
  destruct c as [[] [] [] [] [] [] [] []]; vm_compute; intros H;
    try discriminate; reflexivity.
Qed.

Lemma digit_not_space c : Py.is_digit c = true -> Py.is_space c = false.
Proof.
  destruct c as [[] [] [] [] [] [] [] []]; vm_compute; intros H;
    try discriminate; reflexivity.
Qed.

End TextFacts.

(** ** The parser and the element analyzer *)

Module ParserFacts.
Import PDFParser RelevanceAnalyzer TextFacts.
Local Open Scope float_scope.

(** What a loop that collects returns, when every step returns. *)
Lemma collect_done {A B} (f : A -> attempt (list B)) xs r :
  collect f xs = Done r ->
  forall y, In y r -> exists x ys, In x xs /\ f x = Done ys /\ In y ys.
Proof.
  revert r. induction xs as [|x xs IH]; intros r; cbn [collect].
  - intros [= <-] y [].
  - destruct (f x) as [ys|] eqn:Ex; [|discriminate].
    destruct (collect f xs) as [zs|]; [|discriminate].
    intros [= <-] y Hy. apply in_app_or in Hy as [Hy|Hy].
    + exists x, ys. split; [now left|split; assumption].
    + destruct (IH zs eq_refl y Hy) as (x' & ys' & Hx' & Hf & Hin).
      exists x', ys'. split; [now right|split; assumption].
Qed.

(** A loop that collects returns exactly when every step does. *)
Lemma collect_returns {A B} (f : A -> attempt (list B)) xs :
  (exists r, collect f xs = Done r)
  <-> Forall (fun x => exists ys, f x = Done ys) xs.
Proof.
  induction xs as [|x xs IH]; cbn [collect].
  - split; [constructor|now eexists].
  - split.
    + intros [r Hr]. destruct (f x) as [ys|] eqn:Ex; [|discriminate].
      destruct (collect f xs) as [zs|]; [|discriminate].
      constructor; [now exists ys|]. apply IH. now exists zs.
    + intros H. inversion H as [|? ? [ys Hys] Hxs]; subst.
      apply IH in Hxs as [zs Hzs]. rewrite Hys, Hzs. now eexists.
Qed.

Lemma properties_done text page bbox font_size font_name flags color :
  (exists e, _analyze_element_properties text page bbox font_size font_name
               flags color = Done e)
  <-> (4 <= List.length bbox)%nat.
Proof.
  unfold _analyze_element_properties, at_index. cbv zeta.
  destruct bbox as [|b0 [|b1 [|b2 [|b3 rest]]]]; cbn [nth_error List.length];
    (split; [intros [e He]; try discriminate; lia
            |intros H; try lia; now eexists]).
Qed.

Section Fitz.
Variable round1 : float -> float.

Lemma span_returns page_num s :
  (exists r, span_elements round1 page_num s = Done r) <-> span_ok s.
Proof.
  unfold span_elements, span_ok, kept_span. cbv zeta.
  destruct (String.eqb _ "" || (_ <? 2)%nat).
  - split; [discriminate|now eexists].
  - cbn [negb].
    match goal with
    | |- context [_analyze_element_properties ?a ?b ?c ?d ?e ?f ?g] =>
        pose proof (properties_done a b c d e f g) as Hp;
        destruct (_analyze_element_properties a b c d e f g) as [el|err]
    end.
    + split; [intros _ _; apply Hp; now eexists|now eexists].
    + split; [intros [r Hr]; discriminate|].
      intros H. apply Hp in H; [|reflexivity]. destruct H; discriminate.
Qed.

Lemma line_returns page_num l :
  (exists r, line_elements round1 page_num l = Done r) <-> line_ok l.
Proof.
  unfold line_elements, line_ok. destruct (ln_spans l) as [spans|].
  - rewrite collect_returns. split.
    + intros H. exists spans. split; [reflexivity|].
      eapply Forall_impl; [|exact H]. intros s Hs. now apply span_returns in Hs.
    + intros (spans' & [= <-] & H).
      eapply Forall_impl; [|exact H]. intros s Hs.
      now apply (span_returns page_num).
  - split; [intros [r Hr]; discriminate|intros (? & ? & _); discriminate].
Qed.

Lemma block_returns page_num b :
  (exists r, block_elements round1 page_num b = Done r) <-> block_ok b.
Proof.
  unfold block_elements, block_ok. destruct (bl_lines b) as [lines|].
  - rewrite collect_returns. split.
    + intros H lines' [= <-].
      eapply Forall_impl; [|exact H]. intros l Hl. now apply line_returns in Hl.
    + intros H. specialize (H lines eq_refl).
      eapply Forall_impl; [|exact H]. intros l Hl.
      now apply (line_returns page_num).
  - split; [discriminate|now eexists].
Qed.

Lemma page_returns page page_num :
  (exists r, _extract_page_elements round1 page page_num = Done r)
  <-> page_ok page.
Proof.
  unfold _extract_page_elements, page_ok.
  transitivity (exists r, collect (block_elements round1 page_num)
                            (get (pg_blocks page) []) = Done r).
  - destruct (collect _ _) as [es|]; split; intros [r Hr];
      try discriminate; now eexists.
  - rewrite collect_returns. split; intros H;
      (eapply Forall_impl; [|exact H]); intros b Hb;
      now apply (block_returns page_num).
Qed.

(** The loop over the pages returns exactly when no page makes it
    raise. *)
Lemma parse_pages_returns doc : forall n,
  (exists pages, parse_pages round1 n doc = Done pages)
  <-> Forall page_ok doc.
Proof.
  induction doc as [|page rest IH]; intros n; cbn [parse_pages].
  - split; [constructor|now eexists].
  - pose proof (page_returns page n) as Hpage.
    destruct (_extract_page_elements round1 page n) as [pd|e].
    + specialize (IH (S n)).
      destruct (parse_pages round1 (S n) rest) as [pages|e]; split.
      * intros _. constructor; [apply Hpage|apply IH]; now eexists.
      * now eexists.
      * intros [r Hr]. discriminate.
      * intros H. inversion H as [|? ? _ Hrest]; subst.
        apply IH in Hrest as [r Hr]. discriminate.
    + split; [intros [r Hr]; discriminate|].
      intros H. inversion H as [|? ? Hok _]; subst.
      apply Hpage in Hok as [r Hr]. discriminate.
Qed.

(** It gives one page for each page of the file, numbered in order. *)
Lemma parse_pages_numbered doc : forall n pages,
  parse_pages round1 n doc = Done pages ->
  List.length pages = List.length doc
  /\ (forall i p, nth_error pages i = Some p ->
                  pp_page_number p = (n + i + 1)%nat).
Proof.
  induction doc as [|page rest IH]; intros n pages; cbn [parse_pages].
  - intros [= <-]. split; [reflexivity|]. intros [|i] p; discriminate.
  - destruct (_extract_page_elements round1 page n) as [pd|] eqn:Epage;
      [|discriminate].
    destruct (parse_pages round1 (S n) rest) as [pages0|] eqn:Erest;
      [|discriminate].
    intros [= <-]. destruct (IH _ _ Erest) as [Hlen Hnum].
    split; [simpl; lia|]. intros [|i] p Hp.
    + injection Hp as <-. unfold _extract_page_elements in Epage.
      destruct (collect _ _); [|discriminate].
      injection Epage as <-. simpl. lia.
    + simpl in Hp. rewrite (Hnum i p Hp). lia.
Qed.

(** What the parser writes into an element. *)
Lemma span_element_facts page_num s r pe :
  span_elements round1 page_num s = Done r -> In pe r ->
  page (pe_element pe) = (page_num + 1)%nat
  /\ Py.strip (text (pe_element pe)) = text (pe_element pe)
  /\ (2 <= Py.len (text (pe_element pe)))%nat
  /\ exists b0 b1 b2 b3 rest,
       bbox (pe_element pe) = b0 :: b1 :: b2 :: b3 :: rest
       /\ x_position (pe_element pe) = b0
       /\ y_position (pe_element pe) = b1
       /\ pe_width pe = b2 - b0
       /\ pe_height pe = b3 - b1
       /\ pe_line_height pe = b3 - b1.
Proof.
  unfold span_elements. cbv zeta.
  destruct (String.eqb _ "" || (_ <? 2)%nat) eqn:Ek; [intros [= <-] []|].
  apply orb_false_iff in Ek as [_ Hlen]. apply Nat.ltb_ge in Hlen.
  unfold _analyze_element_properties, at_index, _calculate_line_height.
  cbv zeta.
  destruct (get (sp_bbox s) default_bbox) as [|b0 [|b1 [|b2 [|b3 rest]]]];
    cbn [nth_error]; try discriminate.
  intros [= <-] [<-|[]]. cbn [pe_element page text bbox x_position y_position
                               pe_width pe_height pe_line_height].
  split; [reflexivity|]. split; [apply strip_idem|]. split; [exact Hlen|].
  exists b0, b1, b2, b3, rest. repeat split.
Qed.

Lemma page_element_facts page n pd pe :
  _extract_page_elements round1 page n = Done pd -> In pe (pp_elements pd) ->
  pp_page_number pd = (n + 1)%nat
  /\ exists s r, span_elements round1 n s = Done r /\ In pe r.
Proof.
  unfold _extract_page_elements.
  destruct (collect _ _) as [es|] eqn:Ec; [|discriminate].
  intros [= <-] Hin. cbn [pp_page_number pp_elements] in *.
  split; [reflexivity|].
  destruct (collect_done _ _ _ Ec pe Hin) as (b & ys & _ & Hb & Hy).
  unfold block_elements in Hb. destruct (bl_lines b) as [lines|];
    [|injection Hb as <-; destruct Hy].
  destruct (collect_done _ _ _ Hb pe Hy) as (l & zs & _ & Hl & Hz).
  unfold line_elements in Hl. destruct (ln_spans l) as [spans|];
    [|discriminate].
  destruct (collect_done _ _ _ Hl pe Hz) as (s & r & _ & Hs & Hr).
  now exists s, r.
Qed.

Lemma parse_pages_elements doc : forall n pages pd pe,
  parse_pages round1 n doc = Done pages ->
  In pd pages -> In pe (pp_elements pd) ->
  exists k s r,
    pp_page_number pd = (k + 1)%nat
    /\ span_elements round1 k s = Done r /\ In pe r.
Proof.
  induction doc as [|page rest IH]; intros n pages pd pe; cbn [parse_pages].
  - intros [= <-] [].
  - destruct (_extract_page_elements round1 page n) as [pd0|] eqn:Epage;
      [|discriminate].
    destruct (parse_pages round1 (S n) rest) as [pages0|] eqn:Erest;
      [|discriminate].
    intros [= <-] [<-|Hin] Hpe.
    + destruct (page_element_facts _ _ _ _ Epage Hpe) as (Hn & s & r & Hs & Hr).
      now exists n, s, r.
    + exact (IH _ _ _ _ Erest Hin Hpe).
Qed.

Variable fitz_open : string -> option (list page_dict).

(** Every element of every page the parser returns. *)
Lemma parsed_element_facts path pd pe :
  In pd (parse_pdf fitz_open round1 path) -> In pe (pp_elements pd) ->
  page (pe_element pe) = pp_page_number pd
  /\ Py.strip (text (pe_element pe)) = text (pe_element pe)
  /\ (2 <= Py.len (text (pe_element pe)))%nat
  /\ exists b0 b1 b2 b3 rest,
       bbox (pe_element pe) = b0 :: b1 :: b2 :: b3 :: rest
       /\ x_position (pe_element pe) = b0
       /\ y_position (pe_element pe) = b1
       /\ pe_width pe = b2 - b0
       /\ pe_height pe = b3 - b1
       /\ pe_line_height pe = b3 - b1.
Proof.
  unfold parse_pdf. destruct (fitz_open path) as [doc|]; [|intros []].
  destruct (parse_pages round1 0 doc) as [pages|] eqn:E; [|intros []].
  intros Hpd Hpe.
  destruct (parse_pages_elements _ _ _ _ _ E Hpd Hpe)
    as (k & s & r & Hk & Hs & Hr).
  destruct (span_element_facts _ _ _ _ Hs Hr) as (H1 & H2).
  split; [congruence|exact H2].
Qed.

End Fitz.
End ParserFacts.

Section ParserProperties.
Import PDFParser RelevanceAnalyzer TextFacts ParserFacts.
Local Open Scope float_scope.
Variable fitz_open : string -> option (list page_dict).
Variable round1 : float -> float.

(** X3: the parser returns nothing or everything: the empty list when the file
    does not open or when something in a page makes it raise (a line of a text
    block without spans, a kept span whose box has fewer than four
    coordinates), and otherwise one page for each page of the file. *)
Theorem parse_pdf_all_or_nothing (pdf_path : string) :
  match fitz_open pdf_path with
  | None => parse_pdf fitz_open round1 pdf_path = []
  | Some doc =>
      (Forall page_ok doc ->
       List.length (parse_pdf fitz_open round1 pdf_path) = List.length doc)
      /\ (~ Forall page_ok doc -> parse_pdf fitz_open round1 pdf_path = [])
  end.
Proof.
  unfold parse_pdf. destruct (fitz_open pdf_path) as [doc|]; [|reflexivity].
  pose proof (parse_pages_returns round1 doc 0) as Hret.
  destruct (parse_pages round1 0 doc) as [pages|e] eqn:E; split.
  - intros _. now apply parse_pages_numbered in E as [Hlen _].
  - intros H. exfalso. apply H, Hret. now eexists.
  - intros H. apply Hret in H as [r Hr]. discriminate.
  - reflexivity.
Qed.

(** X4: the pages the parser returns are numbered 1, 2, ... in order, and
    every element carries the number of its page. *)
Theorem parse_pdf_pages_numbered (pdf_path : string) :
  pages_numbered (core_pages fitz_open round1 pdf_path)
  /\ Forall (fun pd => Forall (fun e => page e = page_number pd)
                              (elements pd))
            (core_pages fitz_open round1 pdf_path).
Proof.
  split.
  - unfold core_pages, parse_pdf. intros i pd Hpd.
    rewrite nth_error_map in Hpd.
    destruct (fitz_open pdf_path) as [doc|];
      [|destruct i; discriminate].
    destruct (parse_pages round1 0 doc) as [pages|] eqn:E;
      [|destruct i; discriminate].
    destruct (nth_error pages i) as [p|] eqn:Ei; [|discriminate].
    injection Hpd as <-. cbn [to_page_data page_number].
    apply parse_pages_numbered in E as [_ Hnum].
    rewrite (Hnum i p Ei). lia.
  - apply Forall_forall. intros pd Hpd. apply Forall_forall. intros e He.
    unfold core_pages in Hpd. apply in_map_iff in Hpd as (p & <- & Hp).
    cbn [to_page_data elements page_number] in *.
    apply in_map_iff in He as (pe & <- & Hpe).
    now destruct (parsed_element_facts round1 fitz_open _ _ _ Hp Hpe).
Qed.

(** X5: every element the parser returns has a text that is its own [strip]
    and holds at least two characters, so none is blank. *)
Theorem parsed_elements_have_text (pdf_path : string) :
  Forall (fun pd =>
            Forall (fun e => Py.strip (text e) = text e
                             /\ (2 <= Py.len (text e))%nat
                             /\ nonblank e = true)
                   (elements pd))
         (core_pages fitz_open round1 pdf_path).
Proof.
  apply Forall_forall. intros pd Hpd. apply Forall_forall. intros e He.
  unfold core_pages in Hpd. apply in_map_iff in Hpd as (p & <- & Hp).
  cbn [to_page_data elements] in He.
  apply in_map_iff in He as (pe & <- & Hpe).
  destruct (parsed_element_facts round1 fitz_open _ _ _ Hp Hpe)
    as (_ & Hstrip & Hlen & _).
  split; [exact Hstrip|]. split; [exact Hlen|].
  unfold nonblank. rewrite Hstrip.
  destruct (text (pe_element pe)); [simpl in Hlen; lia|reflexivity].
Qed.

(** X6: every element the parser returns has a box of at least four
    coordinates; its position is the first two, its width and height are their
    differences with the next two, and its line height is its height: the font
    size is never used in its place. *)
Theorem parsed_element_geometry (pdf_path : string) :
  Forall (fun pd =>
            Forall (fun pe =>
                      exists b0 b1 b2 b3 rest,
                        bbox (pe_element pe) = b0 :: b1 :: b2 :: b3 :: rest
                        /\ x_position (pe_element pe) = b0
                        /\ y_position (pe_element pe) = b1
                        /\ pe_width pe = b2 - b0
                        /\ pe_height pe = b3 - b1
                        /\ pe_line_height pe = pe_height pe)
                   (pp_elements pd))
         (parse_pdf fitz_open round1 pdf_path).
Proof.
  apply Forall_forall. intros pd Hpd. apply Forall_forall. intros pe Hpe.
  destruct (parsed_element_facts round1 fitz_open _ _ _ Hpd Hpe)
    as (_ & _ & _ & b0 & b1 & b2 & b3 & rest & Hb & Hx & Hy & Hw & Hh & Hl).
  exists b0, b1, b2, b3, rest. rewrite Hl, Hh. repeat split; assumption.
Qed.

End ParserProperties.

Section AnalyzerProperties.
Variables mean median stdev : list float -> float.

(** X7: the analyzer returns one analyzed element for each element of the
    pages, in page order, each holding its element unchanged. *)
Theorem analyze_elements_keeps_elements (pages_data : list page_data) :
  map elem (TextAnalyzer.analyze_elements mean median stdev pages_data)
  = flat_map elements pages_data.
Proof.
  unfold TextAnalyzer.analyze_elements. cbv zeta.
  destruct (flat_map elements pages_data) as [|e es] eqn:E; [reflexivity|].
  rewrite map_map. cbn [TextAnalyzer._analyze_single_element elem].
  apply map_id.
Qed.

End AnalyzerProperties.

(** ** Detected headings *)

Module DetectedFacts.
Import HeadingDetector DetectorFacts FloatFacts.
Local Open Scope float_scope.

(** The candidates the three strategies hand to fusion. *)
Lemma candidate_created elements x :
  In x (List.concat [_detect_by_score elements; _detect_by_patterns elements;
                     _detect_by_font_clustering elements]) ->
  exists e m c pl fl,
    In e elements
    /\ x = _create_heading_dict e m c pl fl
    /\ (1 <? c) = false
    /\ (forall l, pl = Some l -> (1 <= l <= 4)%nat).
Proof.
  cbn [List.concat]. rewrite app_nil_r. intros H.
  apply in_app_or in H as [H|H]; [|apply in_app_or in H as [H|H]].
  - unfold _detect_by_score in H. apply in_flat_map in H as [e [He H]].
    destruct (Py.ge _ _); [|destruct H]. destruct H as [<-|[]].
    exists e, ByScore, (Py.min (heading_score e / 5.0) 1.0), None, None.
    split; [exact He|]. split; [reflexivity|]. split; [|discriminate].
    unfold Py.min. destruct (1.0 <? heading_score e / 5.0) eqn:E;
      [reflexivity|exact E].
  - unfold _detect_by_patterns in H. apply in_flat_map in H as [e [He H]].
    destruct (first_match _ _ _) as [l|] eqn:E; [|destruct H].
    destruct H as [<-|[]].
    exists e, ByPattern, 0.9, (Some l), None.
    split; [exact He|]. split; [reflexivity|]. split; [reflexivity|].
    intros l' [= <-].
    unfold hierarchical_patterns in E. cbn [first_match] in E.
    repeat match type of E with
           | (if ?b then _ else _) = _ => destruct b; [injection E as <-; lia|]
           end.
    discriminate.
  - apply in_font_clustering in H as (i & size & e & Hi & _ & He & _ & ->).
    unfold group_candidates, font_group in He.
    apply filter_In in He as [He _]. apply filter_In in He as [He _].
    exists e, ByFontCluster, (0.7 - Py.of_nat i * 0.15), None, (Some (i + 1)%nat).
    split; [exact He|]. split; [reflexivity|]. split; [|discriminate].
    destruct i as [|[|[|[|i]]]]; try lia; reflexivity.
Qed.

(** What a merge leaves as the first candidate wrote it. *)
Lemma merge_keeps xs : forall e,
  let h := fold_left merge_into xs e in
  h_text h = h_text e /\ h_page h = h_page e
  /\ h_font_size h = h_font_size e /\ h_is_bold h = h_is_bold e
  /\ h_bbox h = h_bbox e /\ h_y_position h = h_y_position e
  /\ h_x_position h = h_x_position e
  /\ h_pattern_level h = h_pattern_level e.
Proof.
  induction xs as [|x xs IH]; intros e; cbn [fold_left]; cbv zeta;
    [repeat split|].
  specialize (IH (merge_into e x)). cbv zeta in IH. exact IH.
Qed.

Lemma boost_at_most_one c : (1 <? boost c) = false.
Proof.
  unfold boost, Py.min. destruct (1.0 <? c + 0.2) eqn:E; [reflexivity|exact E].
Qed.

Lemma merged_at_most_one xs : forall e,
  (1 <? h_confidence e) = false ->
  (1 <? h_confidence (fold_left merge_into xs e)) = false.
Proof.
  induction xs as [|x xs IH]; intros e He; cbn [fold_left]; [exact He|].
  apply IH. cbn [merge_into h_confidence]. apply boost_at_most_one.
Qed.

(** A detected heading is the fusion of the candidates of its key, given
    its level. *)
Lemma detected_fused elements h :
  In h (detect_headings elements) ->
  exists x xs,
    In x (List.concat [_detect_by_score elements;
                       _detect_by_patterns elements;
                       _detect_by_font_clustering elements])
    /\ h = with_level (fold_left merge_into xs (first_entry x))
             (_determine_heading_level
                (fold_left merge_into xs (first_entry x))
                (_combine_strategies [_detect_by_score elements;
                                      _detect_by_patterns elements;
                                      _detect_by_font_clustering elements])).
Proof.
  unfold detect_headings. destruct elements as [|e0 els]; [intros []|].
  intros Hin. apply ListFacts.in_stable_sort in Hin.
  unfold _assign_hierarchy_levels in Hin.
  apply in_map_iff in Hin as [h0 [<- Hin]].
  pose proof Hin as Hc. apply in_combine in Hc. unfold fuse in Hc.
  destruct (with_key _ _) as [|x xs] eqn:E; [discriminate|].
  assert (h0 = fold_left merge_into xs (first_entry x)) by congruence.
  exists x, xs. split.
  - assert (Hx : In x (x :: xs)) by now left.
    rewrite <- E in Hx. now apply filter_In in Hx as [Hx _].
  - now subst h0.
Qed.


End DetectedFacts.

Section DetectedHeadings.
Import HeadingDetector DetectorFacts FloatFacts DetectedFacts LoopFacts.
Local Open Scope float_scope.


(** X9: no two detected headings share the fusion key: the first 50 characters
    of the text, and the page. *)
Theorem detected_keys_distinct (elements : list analyzed_element) :
  NoDup (map key_of (detect_headings elements)).
Proof.
  unfold detect_headings. destruct elements as [|e0 els]; [constructor|].
  set (l := [_detect_by_score (e0 :: els); _detect_by_patterns (e0 :: els);
             _detect_by_font_clustering (e0 :: els)]).
  eapply Permutation_NoDup.
  - apply Permutation_map, Permutation_sym, ListFacts.stable_sort_perm.
  - unfold _assign_hierarchy_levels. rewrite map_map.
    change (map (fun x => key_of (with_level x
                                    (_determine_heading_level x
                                       (_combine_strategies l))))
                (_combine_strategies l))
      with (map key_of (_combine_strategies l)).
    rewrite combine_keys. apply nodup_fold. constructor.
Qed.

(** X10: a detected heading is read off one element: its text is the stripped
    text of the element, and its page, font size, boldness, box and position
    are the element's. *)
Theorem detected_heading_from_element (elements : list analyzed_element) :
  Forall (fun h =>
            exists e,
              In e elements
              /\ h_text h = Py.strip (text (elem e))
              /\ h_page h = page (elem e)
              /\ h_font_size h = font_size (elem e)
              /\ h_is_bold h = is_bold (elem e)
              /\ h_bbox h = bbox (elem e)
              /\ h_y_position h = y_position (elem e)
              /\ h_x_position h = x_position (elem e))
         (detect_headings elements).
Proof.
  apply Forall_forall. intros h Hin.
  apply detected_fused in Hin as (x & xs & Hx & ->).
  destruct (merge_keeps xs (first_entry x))
    as (Ht & Hp & Hf & Hb & Hbb & Hy & Hxp & _).
  apply candidate_created in Hx as (e & m & c & pl & fl & He & -> & _ & _).
  exists e. cbn [with_level h_text h_page h_font_size h_is_bold h_bbox
                 h_y_position h_x_position].
  rewrite Ht, Hp, Hf, Hb, Hbb, Hy, Hxp. repeat split. exact He.
Qed.

(** X11: a heading that passes the filter has a confidence above 0.3 and at
    most 1, and a text of at least three characters that holds none of the
    boilerplate markers. *)
Theorem kept_heading_confidence (elements : list analyzed_element) :
  Forall (fun h => (0.3 <? h_confidence h) = true
                   /\ (h_confidence h <=? 1) = true
                   /\ (3 <= Py.len (Py.strip (h_text h)))%nat
                   /\ Py.any_in boilerplate (Py.lower (Py.strip (h_text h)))
                      = false)
         (filter_false_positives (detect_headings elements)).
Proof.
  apply Forall_forall. intros h.
  unfold filter_false_positives. intros Hin.
  apply filter_In in Hin as [Hin Hk]. unfold keeps in Hk.
  destruct (Py.len (Py.strip (h_text h)) <? 3)%nat eqn:El; [discriminate|].
  destruct (Re.re_match _ _); [discriminate|].
  destruct (Py.any_in _ _) eqn:Eb; [discriminate|].
  unfold Py.gt in Hk. split; [exact Hk|].
  split; [|split; [now apply Nat.ltb_ge in El|reflexivity]].
  apply detected_fused in Hin as (x & xs & Hx & ->).
  cbn [with_level h_confidence] in *.
  apply leb_total; [| |].
  - apply ltb_leb in Hk. now apply leb_refl_r in Hk.
  - reflexivity.
  - apply merged_at_most_one. cbn [first_entry h_confidence].
    apply candidate_created in Hx as (e & m & c & pl & fl & _ & -> & Hc & _).
    exact Hc.
Qed.

(** X12: the font-clustering strategy returns at most 80 candidates, whatever
    the number of elements: at most 20 for each of at most four sizes. *)
Theorem font_clustering_bounded (elements : list analyzed_element) :
  (List.length (_detect_by_font_clustering elements) <= 80)%nat.
Proof.
  unfold _detect_by_font_clustering.
  etransitivity.
  - apply (length_flat_map_le _ 20). intros [i size]. unfold cluster_group.
    cbv zeta.
    destruct ((2 <=? _) && (_ <=? 20))%nat eqn:E; [|simpl; lia].
    rewrite length_map. apply andb_true_iff in E as [_ E].
    now apply Nat.leb_le in E.
  - rewrite length_enumerate_from.
    pose proof (firstn_le_length 4 (sorted_sizes elements)).
    assert (List.length (firstn 4 (sorted_sizes elements)) <= 4)%nat
      by (rewrite length_firstn; lia).
    lia.
Qed.

End DetectedHeadings.

(** ** Sections and their relevance *)

Module RelevanceFacts.
Import RelevanceAnalyzer FloatFacts.
Local Open Scope float_scope.

Lemma gt_number a x : Py.gt x a = true -> (x <=? x) = true.
Proof. unfold Py.gt. intros H. apply ltb_leb in H. now apply leb_refl_r in H. Qed.

(** [min(x, 1.0)] that is a number is at most 1. *)
Lemma min_one_le x :
  (Py.min x 1 <=? Py.min x 1) = true -> (Py.min x 1 <=? 1) = true.
Proof.
  unfold Py.min. destruct (1 <? x) eqn:E; [reflexivity|].
  intros Hn. apply leb_total; [exact Hn|reflexivity|exact E].
Qed.

Lemma in_set_add w ws k : In k (Py.set_add w ws) -> In k ws \/ k = w.
Proof.
  unfold Py.set_add. destruct (Py.mem w ws); [auto|].
  rewrite in_app_iff. simpl. intuition.
Qed.

Lemma in_set_update new : forall ws k,
  In k (Py.set_update ws new) -> In k ws \/ In k new.
Proof.
  unfold Py.set_update.
  induction new as [|w new IH]; simpl; intros ws k H; [auto|].
  apply IH in H as [H|H]; [|auto].
  apply in_set_add in H as [H|H]; auto.
Qed.

Lemma in_bigrams ws : forall p,
  In p (bigrams ws) ->
  exists w1 w2, In w1 ws /\ In w2 ws /\ p = (w1 ++ " " ++ w2)%string.
Proof.
  induction ws as [|w1 ws IH]; simpl; [intros p []|].
  destruct ws as [|w2 ws]; [intros p []|].
  intros p [<-|H].
  - exists w1, w2. simpl. auto.
  - destruct (IH p H) as (a & b & Ha & Hb & ->). exists a, b. auto.
Qed.

Lemma contains_app p a b :
  Py.startswith p b = true -> Py.contains p (a ++ b) = true.
Proof.
  intros H. induction a as [|c a IH]; simpl.
  - destruct b; simpl in *; rewrite H; reflexivity.
  - rewrite IH. apply orb_true_r.
Qed.

Lemma mem_in w ws : Py.mem w ws = true <-> In w ws.
Proof.
  unfold Py.mem. rewrite existsb_exists. split.
  - intros (x & Hx & He). apply String.eqb_eq in He. now subst.
  - intros H. exists w. split; [exact H|apply String.eqb_refl].
Qed.

Lemma phrase_not_stop_word w1 w2 :
  Py.mem (w1 ++ " " ++ w2) stop_words = false.
Proof.
  destruct (Py.mem _ _) eqn:E; [|reflexivity].
  apply mem_in in E.
  assert (Hs : forallb (fun w => negb (Py.contains " " w)) stop_words = true)
    by reflexivity.
  rewrite forallb_forall in Hs. apply Hs in E.
  rewrite (contains_app " " w1 (" " ++ w2)) in E by reflexivity.
  discriminate.
Qed.

Lemma length_append (a b : string) :
  String.length (a ++ b) = (String.length a + String.length b)%nat.
Proof. induction a as [|c a IH]; simpl; [reflexivity|now rewrite IH]. Qed.


End RelevanceFacts.

Section RelevanceProperties.
Import RelevanceAnalyzer FloatFacts RelevanceFacts.
Local Open Scope float_scope.

(** X13: no keyword drawn from a text is a stop word, and every keyword has
    more than two characters. *)
Theorem keywords_exclude_stop_words (text : string) :
  Forall (fun k => Py.mem k stop_words = false /\ (2 < Py.len k)%nat)
         (_extract_keywords_from_text text).
Proof.
  apply Forall_forall. intros k Hk. unfold _extract_keywords_from_text in Hk.
  cbv zeta in Hk. apply in_set_update in Hk as [Hk|Hk].
  - unfold Py.set_of_list in Hk. apply in_set_update in Hk as [[]|Hk].
    apply filter_In in Hk as [_ Hk]. apply andb_true_iff in Hk as [Hl Hs].
    split; [now apply negb_true_iff in Hs|now apply Nat.ltb_lt in Hl].
  - apply filter_In in Hk as [Hk Hl]. apply Nat.ltb_lt in Hl.
    apply in_bigrams in Hk as (w1 & w2 & _ & _ & ->).
    split; [apply phrase_not_stop_word|lia].
Qed.

(** X14: with the persona and the job in dicts, [analyze_relevance] returns;
    the sections it returns are in descending order of relevance; each is a
    section of one of the documents, stamped with the file name of the
    document and with its score, which is above 0.1 and at most 1. *)
Theorem analyze_relevance_ranked (documents_data : list doc_data)
    (d1 d2 : list (string * string)) :
  exists out,
    analyze_relevance documents_data (PyDict d1) (PyDict d2) = Ok out
    /\ StronglySorted (ge_key relevance_of) out
    /\ Forall (fun s =>
                 exists doc s0,
                   In doc documents_data
                   /\ In s0 (_extract_document_sections doc)
                   /\ s = scored s0 (relevance_of s) (file_name doc)
                   /\ (0.1 <? relevance_of s) = true
                   /\ (relevance_of s <=? 1) = true) out.
Proof.
  unfold analyze_relevance, get_lower, bind. eexists. split; [reflexivity|].
  set (pk := Py.set_update _ _). set (jk := Py.set_update _ _).
  set (rel := flat_map _ documents_data).
  assert (Hrel : forall s, In s rel ->
            exists doc s0,
              In doc documents_data
              /\ In s0 (_extract_document_sections doc)
              /\ s = scored s0 (relevance_of s) (file_name doc)
              /\ (0.1 <? relevance_of s) = true
              /\ (relevance_of s <=? 1) = true).
  { intros s Hs. unfold rel in Hs.
    apply in_flat_map in Hs as (doc & Hdoc & Hs).
    apply in_flat_map in Hs as (s0 & Hs0 & Hs).
    destruct (Py.gt _ _) eqn:Hg; [|destruct Hs]. destruct Hs as [<-|[]].
    exists doc, s0. cbn [scored relevance_of relevance_score].
    repeat split; auto.
    unfold _calculate_relevance_score in *. cbv zeta in *.
    apply min_one_le. exact (gt_number _ _ Hg). }
  split.
  - apply SortFacts.stable_sort_desc. apply Forall_forall. intros s Hs.
    destruct (Hrel s Hs) as (_ & _ & _ & _ & _ & Hg & _).
    unfold is_number. apply ltb_leb in Hg. now apply leb_refl_r in Hg.
  - apply Forall_forall. intros s Hs. apply ListFacts.in_stable_sort in Hs.
    now apply Hrel.
Qed.


End RelevanceProperties.

(** ** Titles and the ranker without dicts *)

Module ExtractorFacts.
Import SectionExtractor RelevanceAnalyzer StrFacts TextFacts LoopFacts.



End ExtractorFacts.

Section ExtractorProperties.
Import SectionExtractor RelevanceAnalyzer StrFacts TextFacts LoopFacts
       ExtractorFacts.
Local Open Scope float_scope.


(** X17: with the persona or the job passed as a plain string, the ranker
    raises [AttributeError] as soon as one section reaches the relevance
    threshold, and returns the empty list when none does. *)
Theorem extract_sections_without_dict
    (documents_data : list doc_data) (relevant_sections : list section)
    (s : string) (other : pyvalue) :
  let outcome :=
    if existsb (fun sec => Py.ge (relevance_of sec) min_relevance_score)
               relevant_sections
    then Raise (AttributeError "'str' object has no attribute 'get'")
    else Ok [] in
  extract_sections documents_data relevant_sections (PyStr s) other = outcome
  /\ (forall d,
         extract_sections documents_data relevant_sections (PyDict d) (PyStr s)
         = outcome).
Proof.
  cbv zeta. rewrite filter_nil_existsb.
  unfold extract_sections, ranked_sections, bind.
  destruct (filter _ relevant_sections) as [|x l]; [split; reflexivity|].
  split; [reflexivity|]. intros d. reflexivity.
Qed.

End ExtractorProperties.

(** ** Subsections *)

Module SubsectionFacts.
Import SubSectionAnalyzer RelevanceAnalyzer StrFacts TextFacts FloatFacts
       RelevanceFacts LoopFacts.
Local Open Scope float_scope.

Lemma endswith_refl e : Py.endswith e e = true.
Proof. destruct e; simpl; rewrite ?Ascii.eqb_refl, ?String.eqb_refl; reflexivity. Qed.

Lemma endswith_app e s : Py.endswith e (s ++ e) = true.
Proof.
  induction s as [|c s IH]; simpl.
  - apply endswith_refl.
  - rewrite IH. apply orb_true_r.
Qed.

Lemma endswith_cons e c s :
  Py.endswith e (String c s) = String.eqb e (String c s) || Py.endswith e s.
Proof. reflexivity. Qed.

Lemma endswith_empty c : Py.endswith (String c EmptyString) EmptyString = false.
Proof. reflexivity. Qed.

(** Stripping on the right keeps a final character that is no blank. *)
Lemma rstrip_endswith c t :
  Py.is_space c = false ->
  Py.endswith (String c EmptyString) t = true ->
  Py.endswith (String c EmptyString) (Py.rstrip t) = true.
Proof.
  intros Hc. induction t as [|x t IH]; [discriminate|].
  rewrite endswith_cons, rstrip_cons. intros H.
  apply orb_true_iff in H as [H|H].
  - apply String.eqb_eq in H. injection H as <- <-. simpl. rewrite Hc.
    apply endswith_refl.
  - specialize (IH H). destruct (Py.rstrip t) as [|d r]; [discriminate|].
    rewrite endswith_cons, IH. apply orb_true_r.
Qed.

Lemma collapse_ws_head c r :
  Py.is_space c = false ->
  collapse_ws false (String c r) = String c (collapse_ws false r).
Proof. intros Hc. simpl. now rewrite Hc. Qed.

(** What [_refine_text] returns on a text that holds a word ends with one
    of the four marks. *)
Lemma refine_text_ending text :
  Py.split text <> [] ->
  exists e, In e ["."; "!"; "?"; ":"]
            /\ Py.endswith e (_refine_text text) = true.
Proof.
  intros Hw. unfold _refine_text. cbv zeta.
  destruct (join_split_head text) as [E|(c & r & E & Hc)].
  - destruct (Py.split text) as [|w ws] eqn:Es; [congruence|].
    assert (Hin : In w (Py.split text)) by (rewrite Es; now left).
    apply split_head in Hin as (x & y & -> & _).
    destruct ws; discriminate.
  - rewrite E, (collapse_ws_head c r Hc).
    set (t2 := String c (collapse_ws false r)).
    set (marks := ["."; "!"; "?"; ":"]).
    assert (H3 : exists e, In e marks
               /\ Py.endswith e
                    (if existsb (fun e => Py.endswith e t2) marks
                     then t2 else (t2 ++ ".")%string) = true).
    { destruct (existsb _ marks) eqn:Ex.
      - apply existsb_exists in Ex as (e & He & Hend). now exists e.
      - exists ".". split; [now left|apply endswith_app]. }
    destruct H3 as (e & He & Hend). exists e. split; [exact He|].
    assert (Hlead : forall t, Py.strip (String c t)
                              = Py.rstrip (String c t)).
    { intros t. unfold Py.strip. cbn [Py.lstrip]. now rewrite Hc. }
    assert (He' : exists x, e = String x EmptyString /\ Py.is_space x = false).
    { destruct He as [<-|[<-|[<-|[<-|[]]]]]; eexists; split; reflexivity. }
    destruct He' as (x & -> & Hx).
    destruct (existsb _ marks); unfold t2 in *; cbn [append];
      rewrite Hlead; now apply rstrip_endswith.
Qed.


Lemma key_insights_shape text :
  (List.length (_extract_key_insights text) <= 3)%nat
  /\ Forall (fun i => Py.endswith "." i = true) (_extract_key_insights text).
Proof.
  unfold _extract_key_insights. cbv zeta. split.
  - rewrite length_firstn. lia.
  - apply Forall_forall. intros i Hi. apply in_firstn in Hi.
    destruct (flat_map _ _) as [|a l] eqn:E1 in Hi.
    + apply in_flat_map in Hi as (s & _ & Hs).
      destruct (_ && _); [|destruct Hs]. destruct Hs as [<-|[]].
      apply endswith_app.
    + rewrite <- E1 in Hi. apply in_flat_map in Hi as (s & _ & Hs).
      destruct (_ && _); [|destruct Hs]. destruct Hs as [<-|[]].
      apply endswith_app.
Qed.

Lemma subsection_relevance_dict text d1 d2 :
  exists x,
    _calculate_subsection_relevance text (PyDict d1) (PyDict d2)
    = Ok (Py.min x 1).
Proof.
  unfold _calculate_subsection_relevance, get_lower, bind. cbv zeta.
  eexists. reflexivity.
Qed.

(** What the two loops of [_extract_subsections] append. *)
Lemma scored_subsection text d1 d2 :
  Py.split text <> [] ->
  exists score,
    _calculate_subsection_relevance (_refine_text text) (PyDict d1) (PyDict d2)
    = Ok score
    /\ (Py.gt score 0.3 = true ->
        (0.3 <? score) = true /\ (score <=? 1) = true)
    /\ (exists e, In e ["."; "!"; "?"; ":"]
                  /\ Py.endswith e (_refine_text text) = true)
    /\ (List.length (_extract_key_insights (_refine_text text)) <= 3)%nat
    /\ Forall (fun i => Py.endswith "." i = true)
              (_extract_key_insights (_refine_text text)).
Proof.
  intros Hw.
  destruct (subsection_relevance_dict (_refine_text text) d1 d2) as [x Hx].
  exists (Py.min x 1). split; [exact Hx|]. split; [|split].
  - intros Hg. split; [exact Hg|]. apply min_one_le. exact (gt_number _ _ Hg).
  - now apply refine_text_ending.
  - apply key_insights_shape.
Qed.

Lemma word_count_split n text :
  (S n <=? word_count text)%nat = true -> Py.split text <> [].
Proof.
  unfold word_count. intros H E. rewrite E in H. discriminate.
Qed.

(** The subsections of a content, before the final sort and cut. *)
Lemma extract_subsections_ok content d1 d2 :
  exists l,
    Forall SubsectionNotions.well_formed l
    /\ _extract_subsections content (PyDict d1) (PyDict d2)
       = Ok (firstn max_subsections_per_section
               (stable_sort (before_desc sub_relevance_score) l))
    /\ ((word_count content < 30)%nat -> l = []).
Proof.
  unfold _extract_subsections.
  destruct (String.eqb content "" || (word_count content <? _)%nat) eqn:Eshort.
  - exists []. repeat split; auto.
  - apply orb_false_iff in Eshort as [_ Hlong]. apply Nat.ltb_ge in Hlong.
    unfold min_subsection_length in Hlong.
    assert (Hpar : exists l,
               paragraph_subsections (_split_into_paragraphs content)
                 (PyDict d1) (PyDict d2) = Ok l
               /\ Forall SubsectionNotions.well_formed l).
    { unfold paragraph_subsections.
      match goal with
      | |- context [fold_exc ?f ?xs ?acc] =>
          destruct (fold_exc_inv f
                      (fun _ l => Forall SubsectionNotions.well_formed l)
                      xs 0%nat acc) as (r & Hr & HP)
      end.
      - constructor.
      - intros n b a _ Hb.
        destruct (min_subsection_length <=? word_count a)%nat eqn:Ew;
          [|now exists b]. cbv zeta.
        destruct (scored_subsection a d1 d2 (word_count_split _ _ Ew))
          as (score & -> & Hs & He & Hl & Hi).
        cbn [bind]. eexists. split; [reflexivity|].
        destruct (Py.gt score 0.3) eqn:Hg; [|exact Hb].
        apply Forall_app. split; [exact Hb|]. constructor; [|constructor].
        destruct (Hs eq_refl) as [H1 H2]. repeat split; assumption.
      - exists r. split; assumption. }
    destruct Hpar as (l & -> & Hl). cbn [bind].
    assert (Hsen : exists l',
               match l with
               | [] => sentence_subsections (_split_into_sentences content)
                         (PyDict d1) (PyDict d2)
               | _ => Ok l
               end = Ok l' /\ Forall SubsectionNotions.well_formed l').
    { destruct l as [|x l]; [|now exists (x :: l)].
      unfold sentence_subsections.
      match goal with
      | |- context [fold_exc ?f ?xs ?acc] =>
          destruct (fold_exc_inv f
                      (fun _ st => Forall SubsectionNotions.well_formed (fst st))
                      xs 0%nat acc) as (r & Hr & HP)
      end.
      - constructor.
      - intros n [b cur] a _ Hb. cbv zeta.
        destruct (min_subsection_length
                  <=? word_count (Py.join " " (cur ++ [a])))%nat eqn:Ew;
          [|now eexists].
        destruct (scored_subsection _ d1 d2 (word_count_split _ _ Ew))
          as (score & -> & Hs & He & Hn & Hi).
        cbn [bind]. eexists. split; [reflexivity|]. cbn [fst] in *.
        destruct (Py.gt score 0.3) eqn:Hg; [|exact Hb].
        apply Forall_app. split; [exact Hb|]. constructor; [|constructor].
        destruct (Hs eq_refl) as [H1 H2]. repeat split; assumption.
      - rewrite Hr. cbn [bind]. exists (fst r). split; [reflexivity|exact HP]. }
    destruct Hsen as (l' & -> & Hl'). cbn [bind].
    exists l'. split; [exact Hl'|]. split; [reflexivity|lia].
Qed.



End SubsectionFacts.


Section SubsectionProperties.
Import SubSectionAnalyzer RelevanceAnalyzer StrFacts TextFacts FloatFacts
       RelevanceFacts LoopFacts SubsectionFacts.
Local Open Scope float_scope.

(** X18: with the persona and the job in dicts, [_extract_subsections] returns
    at most five subsections, in descending order of score; each has a score
    above 0.3 and at most 1, a refined text that ends with a full stop, an
    exclamation mark, a question mark or a colon, and at most three insights,
    each ending with a full stop. A content of fewer than 30 words gives none. *)
Theorem extract_subsections_shape (content : string)
    (d1 d2 : list (string * string)) :
  exists subs,
    _extract_subsections content (PyDict d1) (PyDict d2) = Ok subs
    /\ (List.length subs <= 5)%nat
    /\ StronglySorted (ge_key sub_relevance_score) subs
    /\ Forall (fun sub =>
                 (0.3 <? sub_relevance_score sub) = true
                 /\ (sub_relevance_score sub <=? 1) = true
                 /\ (exists e, In e ["."; "!"; "?"; ":"]
                               /\ Py.endswith e (refined_text sub) = true)
                 /\ (List.length (key_insights sub) <= 3)%nat
                 /\ Forall (fun i => Py.endswith "." i = true)
                           (key_insights sub)) subs
    /\ ((word_count content < 30)%nat -> subs = []).
Proof.
  destruct (extract_subsections_ok content d1 d2) as (l & Hl & -> & Hshort).
  eexists. split; [reflexivity|].
  split; [|split; [|split]].
  - rewrite length_firstn. unfold max_subsections_per_section. lia.
  - apply firstn_sorted. apply SortFacts.stable_sort_desc.
    eapply Forall_impl; [|exact Hl]. intros sub (H1 & _).
    unfold is_number. apply ltb_leb in H1. now apply leb_refl_r in H1.
  - apply Forall_forall. intros sub Hsub. apply in_firstn in Hsub.
    apply ListFacts.in_stable_sort in Hsub.
    rewrite Forall_forall in Hl. exact (Hl sub Hsub).
  - intros Hw. now rewrite (Hshort Hw).
Qed.



End SubsectionProperties.

(** ** Normalized texts *)

Module NormalizeFacts.
Import SubSectionAnalyzer RelevanceAnalyzer StrFacts TextFacts.

Lemma lower_char_idem c : Py.lower_char (Py.lower_char c) = Py.lower_char c.
Proof. destruct c as [[] [] [] [] [] [] [] []]; reflexivity. Qed.

Lemma lower_char_space c : Py.is_space (Py.lower_char c) = Py.is_space c.
Proof. destruct c as [[] [] [] [] [] [] [] []]; reflexivity. Qed.

Lemma lower_idem s : Py.lower (Py.lower s) = Py.lower s.
Proof.
  induction s as [|c s IH]; simpl; [reflexivity|].
  now rewrite lower_char_idem, IH.
Qed.

Lemma lower_lstrip s : Py.lower (Py.lstrip s) = Py.lstrip (Py.lower s).
Proof.
  induction s as [|c s IH]; simpl; [reflexivity|].
  rewrite lower_char_space. destruct (Py.is_space c); [exact IH|reflexivity].
Qed.

Lemma lower_rstrip s : Py.lower (Py.rstrip s) = Py.rstrip (Py.lower s).
Proof.
  induction s as [|c s IH]; [reflexivity|].
  cbn [Py.lower]. rewrite !rstrip_cons, <- IH, lower_char_space.
  destruct (Py.rstrip s); simpl; [destruct (Py.is_space c)|]; reflexivity.
Qed.

Lemma lower_strip s : Py.lower (Py.strip s) = Py.strip (Py.lower s).
Proof. unfold Py.strip. now rewrite lower_rstrip, lower_lstrip. Qed.

Lemma lower_collapse s : forall b,
  Py.lower (collapse_ws b s) = collapse_ws b (Py.lower s).
Proof.
  induction s as [|c s IH]; intros b; simpl; [reflexivity|].
  rewrite lower_char_space.
  destruct (Py.is_space c); [destruct b|]; simpl; now rewrite IH.
Qed.

(** Collapsing twice is collapsing once. *)
Lemma collapse_idem s :
  (forall b, collapse_ws false (collapse_ws b s) = collapse_ws b s)
  /\ collapse_ws true (collapse_ws true s) = collapse_ws true s.
Proof.
  induction s as [|c s [IH1 IH2]]; [split; [intros []|]; reflexivity|].
  split.
  - intros b. simpl. destruct (Py.is_space c) eqn:Hc.
    + destruct b; [apply IH1|]. simpl. now rewrite IH2.
    + simpl. rewrite Hc. now rewrite IH1.
  - simpl. destruct (Py.is_space c) eqn:Hc; [exact IH2|].
    simpl. rewrite Hc. now rewrite IH1.
Qed.

Lemma collapse_empty s : forall b,
  collapse_ws b s = EmptyString -> Py.rstrip s = EmptyString.
Proof.
  induction s as [|c s IH]; intros b; [reflexivity|].
  simpl collapse_ws. rewrite rstrip_cons.
  destruct (Py.is_space c) eqn:Hc; [|discriminate].
  destruct b; [|discriminate]. intros H. now rewrite (IH true H).
Qed.

(** Collapsing keeps a text free of blanks at its end. *)
Lemma rstrip_collapse s : forall b,
  Py.rstrip s = s -> Py.rstrip (collapse_ws b s) = collapse_ws b s.
Proof.
  induction s as [|c s IH]; intros b; [reflexivity|].
  rewrite rstrip_cons. intros H.
  assert (Hs : (s = EmptyString /\ Py.is_space c = false)
               \/ (s <> EmptyString /\ Py.rstrip s = s)).
  { destruct (Py.rstrip s) as [|d r] eqn:E.
    - destruct (Py.is_space c) eqn:Hc; [discriminate|].
      left. split; [congruence|reflexivity].
    - right. split; [destruct s; [discriminate|congruence]|congruence]. }
  destruct Hs as [[-> Hc]|[Hne Hs]].
  - simpl. rewrite Hc. simpl. now rewrite Hc.
  - simpl collapse_ws. destruct (Py.is_space c) eqn:Hc.
    + destruct b; [now apply IH|].
      rewrite rstrip_cons, (IH true Hs).
      destruct (collapse_ws true s) eqn:E; [|reflexivity].
      apply collapse_empty in E. rewrite Hs in E. contradiction.
    + rewrite rstrip_cons, (IH false Hs).
      destruct (collapse_ws false s) eqn:E; [|reflexivity].
      apply collapse_empty in E. rewrite Hs in E. contradiction.
Qed.

Lemma strip_collapse_strip s :
  Py.strip (collapse_ws false (Py.strip s)) = collapse_ws false (Py.strip s).
Proof.
  assert (Hr : Py.rstrip (Py.strip s) = Py.strip s)
    by (unfold Py.strip; apply rstrip_idem).
  destruct (strip_head s) as [E|(c & r & E & Hc)]; [now rewrite E|].
  rewrite E in *. unfold Py.strip at 1. simpl collapse_ws at 1. rewrite Hc.
  cbn [Py.lstrip]. rewrite Hc.
  pose proof (rstrip_collapse (String c r) false Hr) as H.
  simpl collapse_ws in H. rewrite Hc in H. simpl collapse_ws. rewrite Hc.
  exact H.
Qed.

End NormalizeFacts.

Section NormalizeProperties.
Import SubSectionAnalyzer NormalizeFacts.

(** X21: normalizing a text twice gives what normalizing it once gives. *)
Theorem normalize_text_idempotent (text : string) :
  _normalize_text (_normalize_text text) = _normalize_text text.
Proof.
  unfold _normalize_text.
  rewrite lower_collapse, lower_strip, lower_idem.
  rewrite strip_collapse_strip.
  apply (proj1 (collapse_idem (Py.strip (Py.lower text))) false).
Qed.

End NormalizeProperties.

(** ** Documents and runs *)

Module DocumentFacts.
Import DocumentIntelligence LoopFacts.
Local Open Scope float_scope.

(** The title the loop picks, if any, is the stripped text of one of the
    elements it was given. *)
Lemma first_title_spec es :
  first_title es = ""
  \/ exists e,
       In e es
       /\ first_title es = Py.strip (text e)
       /\ (10 < Py.len (Py.strip (text e)))%nat
       /\ Re.re_match (Re.Alt Re.bare_int (Re.Alt Re.page_n Re.date))
                      (Py.lower (Py.strip (text e))) = false
       /\ Py.any_in ["copyright"; "version"; "draft"; "confidential"]
                    (Py.lower (Py.strip (text e))) = false
       /\ ((20 < Py.len (Py.strip (text e)))%nat
           \/ (14 <? font_size e) = true \/ is_bold e = true).
Proof.
  induction es as [|e es IH]; [now left|]. cbn [first_title]. cbv zeta.
  assert (Hrest : first_title es = ""
            \/ exists e0,
                 In e0 (e :: es)
                 /\ first_title es = Py.strip (text e0)
                 /\ (10 < Py.len (Py.strip (text e0)))%nat
                 /\ Re.re_match (Re.Alt Re.bare_int (Re.Alt Re.page_n Re.date))
                                (Py.lower (Py.strip (text e0))) = false
                 /\ Py.any_in ["copyright"; "version"; "draft"; "confidential"]
                              (Py.lower (Py.strip (text e0))) = false
                 /\ ((20 < Py.len (Py.strip (text e0)))%nat
                     \/ (14 <? font_size e0) = true \/ is_bold e0 = true)).
  { destruct IH as [IH|(e0 & Hin & IH)]; [now left|right].
    exists e0. split; [now right|exact IH]. }
  destruct (Py.len (Py.strip (text e)) <? 5)%nat; [exact Hrest|].
  destruct (Re.re_match _ _) eqn:Hm; [exact Hrest|].
  destruct (Py.any_in _ _) eqn:Ha; [exact Hrest|].
  destruct ((10 <? Py.len (Py.strip (text e)))%nat
            && ((14 <? font_size e) || is_bold e)
            || (20 <? Py.len (Py.strip (text e)))%nat) eqn:Hc;
    [|exact Hrest].
  right. exists e. split; [now left|]. split; [reflexivity|].
  apply orb_true_iff in Hc as [Hc|Hc].
  - apply andb_true_iff in Hc as [Hl Hf]. apply Nat.ltb_lt in Hl.
    apply orb_true_iff in Hf. repeat split; auto.
  - apply Nat.ltb_lt in Hc. repeat split; auto; lia.
Qed.

Section Parsed.
Variable parse_pdf : string -> list page_data.
Variables mean median stdev : list float -> float.
Variable path_name : string -> string.

(** The documents of a run, in the order of the files that parse. *)
Lemma parse_all_files pdf_files :
  map file_path (parse_all parse_pdf mean median stdev path_name pdf_files)
  = filter (fun f => match parse_pdf f with [] => false | _ => true end)
           pdf_files
  /\ Forall (fun d => pages_data d = parse_pdf (file_path d)
                      /\ pages_data d <> []
                      /\ file_name d = path_name (file_path d))
            (parse_all parse_pdf mean median stdev path_name pdf_files).
Proof.
  unfold parse_all.
  induction pdf_files as [|f fs [IH1 IH2]]; [split; [reflexivity|constructor]|].
  cbn [flat_map filter]. unfold _parse_single_document at 1 3.
  destruct (parse_pdf f) as [|pd pages] eqn:E; [split; assumption|].
  cbn [app map file_path]. split; [now rewrite IH1|].
  constructor; [|exact IH2]. cbn [pages_data file_path file_name].
  rewrite E. repeat split. discriminate.
Qed.

End Parsed.

End DocumentFacts.

Section DocumentProperties.
Import DocumentIntelligence LoopFacts DocumentFacts.
Local Open Scope float_scope.
Variable parse_pdf : string -> list page_data.
Variables mean median stdev : list float -> float.
Variable path_name : string -> string.

(** X22: the title of a document is empty when there is no page; otherwise it
    is empty or the stripped text of an element of the first page, longer than
    ten characters, that is no number, page mark or date, names none of the
    four boilerplate words, and is longer than twenty characters, in a font
    above 14 or bold. *)
Theorem document_title_shape (pages : list page_data) :
  (pages = [] -> _extract_document_title pages = "")
  /\ (_extract_document_title pages = ""
      \/ exists first rest e,
           pages = first :: rest
           /\ In e (elements first)
           /\ _extract_document_title pages = Py.strip (text e)
           /\ (10 < Py.len (_extract_document_title pages))%nat
           /\ Re.re_match (Re.Alt Re.bare_int (Re.Alt Re.page_n Re.date))
                (Py.lower (_extract_document_title pages)) = false
           /\ Py.any_in ["copyright"; "version"; "draft"; "confidential"]
                (Py.lower (_extract_document_title pages)) = false
           /\ ((20 < Py.len (_extract_document_title pages))%nat
               \/ (14 <? font_size e) = true \/ is_bold e = true)).
Proof.
  split; [intros ->; reflexivity|].
  destruct pages as [|first rest]; [now left|].
  unfold _extract_document_title.
  destruct (first_title_spec
              (firstn 15 (stable_sort top_left_before (elements first))))
    as [E|(e & Hin & E & Hlen & Hm & Ha & Hc)]; [now left|right].
  exists first, rest, e. rewrite E.
  apply in_firstn in Hin. apply ListFacts.in_stable_sort in Hin.
  repeat split; auto.
Qed.

(** X23: the documents of a run are built from the files that parse, in input
    order; each keeps the pages of its file and is named after it. *)
Theorem parsed_documents_in_input_order (pdf_files : list string) :
  map file_path (parse_all parse_pdf mean median stdev path_name pdf_files)
  = filter (fun f => match parse_pdf f with [] => false | _ => true end)
           pdf_files
  /\ Forall (fun d => pages_data d = parse_pdf (file_path d)
                      /\ pages_data d <> []
                      /\ file_name d = path_name (file_path d))
            (parse_all parse_pdf mean median stdev path_name pdf_files).
Proof.
  destruct (parse_all_files parse_pdf mean median stdev path_name pdf_files)
    as [Horder Heach].
  split; [exact Horder|exact Heach].
Qed.


End DocumentProperties.

(** ** The parser on the sample file *)

Section ParserScenario.
Local Open Scope float_scope.

(** Parsing the dict of the sample file gives the page of the worked
    scenario; the file with the broken span gives nothing. *)
Lemma parse_sample_files :
  PDFParser.core_pages Examples.open_paper (fun x => x) "input/paper.pdf"
  = Examples.parse_paper "input/paper.pdf"
  /\ PDFParser.parse_pdf Examples.open_paper (fun x => x) "input/broken.pdf"
     = [].
Proof. split; vm_compute; reflexivity. Qed.

End ParserScenario.
